(** * The website judgment pipeline: classifier, extractor and gap analyzer

    A shallow embedding of three Python modules of the backend,

      - [app/services/gap_analyzer.py],
      - [app/services/business_classifier.py],
      - [app/services/content_extractor.py],

    of the expressions of their caller that read their results, in
    [app/services/template_generator_premium.py] and
    [app/services/premium_template_builder.py], and of the part of Python
    they run on: [str] methods, the backtracking regular expressions of
    [re], [collections.Counter], binary64 arithmetic and the exceptions of
    [int] and [urllib.parse.urljoin].

    Text.  A Python [str] is modelled as a Rocq [string]; its characters are
    the code points below 128 (ASCII).  On those the classification and case
    functions below agree with Python; larger code points are treated as
    caseless symbols that are neither digits, letters nor spaces.

    Numbers.  Python [int] is [Z]; Python [float] is the primitive binary64
    [float] of the kernel, so every product, sum and comparison of the source
    is evaluated as the interpreter evaluates it.

    Effects.  The three modules are pure apart from their calls to
    [logger], which do not reach the results and are left out.  Three
    operations in them can raise on a [str] argument.  [int(x, 16)] sits
    under a [try]; it returns an [option] here.  [int(x)] on a run of
    decimal digits raises [ValueError] when the run is longer than the
    interpreter allows (4300 digits), and [urllib.parse.urljoin] raises
    [ValueError] on a reference it cannot parse; the extractor guards
    neither, so its functions that reach them return in the monad [Py.result]
    below: a value, or the exception that leaves the function.  Local
    variables that the source updates in place ([score], [issues],
    [colors], ...) are passed from step to step.

    Layout.  Part I holds the embedding, module by module and function by
    function in the order of the source; Part II the quantities in which the
    specification is phrased; Part III the statements and their proofs;
    Part IV further properties of the same functions and of the caller
    that gathers their results. *)

From Stdlib Require Import ZArith QArith Qround List String Ascii Bool Lia.
From Stdlib Require Import Floats Uint63.
From Stdlib Require DecimalString HexadecimalString.
Import ListNotations.

Set Warnings "-inexact-float".

Close Scope Q_scope.

Local Open Scope string_scope.
Local Open Scope list_scope.

(* ================================================================== *)
(** * Part I: the embedding *)

(* ------------------------------------------------------------------ *)
(** ** Exceptions

    A call either returns a value or raises; a raise inside a loop or a
    sequence of statements ends it, which is what [bind] and [foldM] do. *)

Module Py.

Inductive exn : Type :=
| ValueError.

Inductive result (A : Type) : Type :=
| Return (a : A)
| Raise (e : exn).

Arguments Return {A} a.
Arguments Raise {A} e.

Definition bind {A B : Type} (c : result A) (k : A -> result B) : result B :=
  match c with
  | Return a => k a
  | Raise e => Raise e
  end.


(** A [for] loop whose body may raise: the state after the last turn, or
    the first exception. *)
Fixpoint foldM {A B : Type} (f : A -> B -> result A) (l : list B) (a : A) : result A :=
  match l with
  | [] => Return a
  | x :: l' => bind (f a x) (foldM f l')
  end.


(** [true] when the call returns. *)
Definition returns {A : Type} (c : result A) : bool :=
  match c with Return _ => true | Raise _ => false end.

End Py.

Notation "x <- c ;; k" := (Py.bind c (fun x => k))
  (at level 61, c at next level, right associativity).

(* ------------------------------------------------------------------ *)
(** ** Python strings *)

Module PyStr.

Definition code (c : ascii) : N := N_of_ascii c.

Definition between (lo hi : N) (c : ascii) : bool :=
  (N.leb lo (code c) && N.leb (code c) hi)%bool.

Definition isupper (c : ascii) : bool := between 65 90 c.
Definition islower (c : ascii) : bool := between 97 122 c.
Definition isdigit (c : ascii) : bool := between 48 57 c.

(** [str.isspace] on ASCII: tab, LF, VT, FF, CR, the four separators
    0x1c-0x1f and the space. *)
Definition isspace (c : ascii) : bool := between 9 13 c || between 28 32 c.

(** The word characters of [\w] and [\b]. *)
Definition isword (c : ascii) : bool :=
  isupper c || islower c || isdigit c || Ascii.eqb c "_".

Definition lower_char (c : ascii) : ascii :=
  if isupper c then ascii_of_N (code c + 32) else c.

Definition upper_char (c : ascii) : ascii :=
  if islower c then ascii_of_N (code c - 32) else c.

Fixpoint map_chars (f : ascii -> ascii) (s : string) : string :=
  match s with
  | EmptyString => EmptyString
  | String c s' => String (f c) (map_chars f s')
  end.

(** [s.lower()] and [s.upper()]. *)
Definition lower (s : string) : string := map_chars lower_char s.
Definition upper (s : string) : string := map_chars upper_char s.

(** [s.startswith(p)]. *)
Fixpoint startswith (s p : string) {struct p} : bool :=
  match p, s with
  | EmptyString, _ => true
  | String a p', String b s' => Ascii.eqb a b && startswith s' p'
  | String _ _, EmptyString => false
  end.

(** [sub in s]. *)
Fixpoint contains (s sub : string) : bool :=
  startswith s sub ||
  match s with
  | EmptyString => false
  | String _ s' => contains s' sub
  end.

Fixpoint lstrip (s : string) : string :=
  match s with
  | EmptyString => EmptyString
  | String c s' => if isspace c then lstrip s' else s
  end.

Fixpoint rstrip (s : string) : string :=
  match s with
  | EmptyString => EmptyString
  | String c s' =>
      match rstrip s' with
      | EmptyString => if isspace c then EmptyString else String c EmptyString
      | r => String c r
      end
  end.

(** [s.strip()]. *)
Definition strip (s : string) : string := rstrip (lstrip s).

(** [s[:n]] and [s[i:j]] for non-negative bounds. *)
Definition take (n : nat) (s : string) : string := String.substring 0 n s.
Definition slice (i j : nat) (s : string) : string := String.substring i (j - i) s.

(** [s[i]] where the source has established that the index is in range. *)
Definition at_ (i : nat) (s : string) : string := String.substring i 1 s.

(** [len(s)]. *)
Definition len (s : string) : Z := Z.of_nat (String.length s).

(** Truth value of a string: [bool(s)]. *)
Definition truthy (s : string) : bool :=
  match s with EmptyString => false | String _ _ => true end.

(** [any(w in s for w in words)]. *)
Definition any_in (words : list string) (s : string) : bool :=
  existsb (contains s) words.

(** The value of a string of decimal digits, which is all that a match
    of [\d+] can be. *)
Definition int_of_digits (s : string) : N :=
  let fix go (acc : N) (s : string) : N :=
    match s with
    | EmptyString => acc
    | String c s' => go (acc * 10 + (code c - 48))%N s'
    end in
  go 0%N s.

(** [sys.int_info.default_max_str_digits]: the longest decimal literal
    that [int] converts; the repository leaves the default in place. *)
Definition max_str_digits : nat := 4300.

(** [int(s)] for a string of decimal digits: [ValueError] beyond the
    limit, leading zeros counted, else the value. *)
Definition int10 (s : string) : Py.result N :=
  if Nat.ltb max_str_digits (String.length s) then Py.Raise Py.ValueError
  else Py.Return (int_of_digits s).

Definition hex_value (c : ascii) : option Z :=
  if isdigit c then Some (Z.of_N (code c) - 48)%Z
  else if between 97 102 c then Some (Z.of_N (code c) - 87)%Z
  else if between 65 70 c then Some (Z.of_N (code c) - 55)%Z
  else None.

(** The digits of a base-16 literal: hexadecimal digits, single
    underscores allowed between two of them ([after_digit] tells whether
    the previous character was a digit). *)
Fixpoint hex_digits (acc : Z) (after_digit : bool) (s : string) : option Z :=
  match s with
  | EmptyString => if after_digit then Some acc else None
  | String c s' =>
      if Ascii.eqb c "_" then
        if after_digit
        then match s' with
             | EmptyString => None
             | String d _ => if Ascii.eqb d "_" then None else hex_digits acc false s'
             end
        else None
      else match hex_value c with
           | Some v => hex_digits (acc * 16 + v)%Z true s'
           | None => None
           end
  end.

(** [int(s, 16)]; [None] stands for the [ValueError] of a malformed
    literal.  Surrounding whitespace, a sign and the prefix [0x] are
    accepted as Python accepts them. *)
Definition int16 (s : string) : option Z :=
  let s := strip s in
  let '(neg, s) :=
    match s with
    | String "-" s' => (true, s')
    | String "+" s' => (false, s')
    | _ => (false, s)
    end in
  let body :=
    match s with
    | String "0" (String x s') =>
        if Ascii.eqb x "x" || Ascii.eqb x "X"
        then match s' with
             | String "_" s'' => hex_digits 0 false s''
             | _ => hex_digits 0 false s'
             end
        else hex_digits 0 false s
    | _ => hex_digits 0 false s
    end in
  option_map (fun v => if neg then Z.opp v else v) body.

(** The format [f"{n:02X}"] of a non-negative integer: upper-case
    hexadecimal, padded with zeros to two places. *)
Definition format_02X (n : N) : string :=
  let h := upper (HexadecimalString.NilEmpty.string_of_uint (N.to_hex_uint n)) in
  match h with
  | String _ EmptyString => String "0" h
  | _ => h
  end.

(** [str(n)] for a non-negative count. *)
Definition of_nat (n : nat) : string := DecimalString.NilEmpty.string_of_uint (Nat.to_uint n).

(** The double quote, which a Rocq string literal cannot hold bare. *)
Definition dq : ascii := "034"%char.

(** [s.title()] on ASCII, where the cased characters are the letters: a
    letter that follows a letter is lowered, any other letter is raised. *)
Fixpoint title_from (previous_is_cased : bool) (s : string) : string :=
  match s with
  | EmptyString => EmptyString
  | String c s' =>
      if islower c || isupper c
      then String (if previous_is_cased then lower_char c else upper_char c)
                  (title_from true s')
      else String c (title_from false s')
  end.

Definition title (s : string) : string := title_from false s.

End PyStr.

(* ------------------------------------------------------------------ *)
(** ** Python lists and dicts

    A dict is kept as the list of its items in insertion order, which is
    the order in which Python iterates over it. *)

Module PyData.

(** [d.get(key)]. *)
Fixpoint dict_get {V : Type} (key : string) (d : list (string * V)) : option V :=
  match d with
  | [] => None
  | (k, v) :: d' => if String.eqb k key then Some v else dict_get key d'
  end.

(** [x in xs] for a list of strings. *)
Definition mem (x : string) (xs : list string) : bool := existsb (String.eqb x) xs.

(** [if cond: xs.append(x)]. *)
Definition append_if (cond : bool) (x : string) (xs : list string) : list string :=
  if cond then xs ++ [x] else xs.

(** [collections.Counter]: the distinct elements in the order of their
    first occurrence, each with its count. *)
Definition counter : Type := list (string * nat).

Fixpoint count_add (x : string) (c : counter) : counter :=
  match c with
  | [] => [(x, 1)]
  | (k, n) :: c' =>
      if String.eqb k x then (k, S n) :: c' else (k, n) :: count_add x c'
  end.

Definition Counter (xs : list string) : counter :=
  fold_left (fun c x => count_add x c) xs [].

(** Iterating over a counter yields its keys. *)
Definition keys (c : counter) : list string := map fst c.

(** [c.most_common(n)]: a stable sort by decreasing count (elements with
    equal counts stay in the order first encountered), then the first
    [n] items. *)
Fixpoint insert_desc (kv : string * nat) (sorted : counter) : counter :=
  match sorted with
  | [] => [kv]
  | h :: t => if Nat.ltb (snd h) (snd kv) then kv :: h :: t else h :: insert_desc kv t
  end.

Definition most_common (n : nat) (c : counter) : counter :=
  firstn n (fold_left (fun acc kv => insert_desc kv acc) c []).

End PyData.

(* ------------------------------------------------------------------ *)
(** ** Regular expressions: the fragment of [re] the three modules use

    A backtracking matcher with the priorities of Python's engine: the
    leftmost start wins, an alternation tries its left branch first, a
    greedy repeat tries the longest run first and a lazy one the shortest.
    Every unbounded or counted repeat in the source ranges over a single
    character, so [Rep] takes an [atom]; an optional group [(...)?] is the
    alternation of the group with the empty pattern.

    Where a pattern of the source is quoted in a comment, its double quote
    is written with the escape [\x22], which denotes the same character. *)

Module Re.

Inductive item : Type :=
| Lit (c : ascii)                (* a literal character *)
| Range (lo hi : ascii)          (* lo-hi inside a class *)
| ClsDigit                       (* \d *)
| ClsSpace.                      (* \s *)

Inductive atom : Type :=
| Dot                            (* . *)
| OneOf (items : list item)      (* [...] , a literal, \d, \s *)
| NoneOf (items : list item).    (* [^...] *)

Inductive regex : Type :=
| Eps
| One (a : atom)
| Seq (r1 r2 : regex)
| Alt (r1 r2 : regex)
| Rep (a : atom) (lo : nat) (hi : option nat) (greedy : bool)
| Group (n : nat) (r : regex)    (* the n-th capturing group *)
| NegLook (r : regex)            (* (?!...) *)
| WordB.                         (* \b *)

Record flags : Type := { ignorecase : bool; dotall : bool }.

Definition NOFLAGS : flags := {| ignorecase := false; dotall := false |}.
Definition IGNORECASE : flags := {| ignorecase := true; dotall := false |}.
Definition IGNORECASE_DOTALL : flags := {| ignorecase := true; dotall := true |}.

Definition item_plain (it : item) (c : ascii) : bool :=
  match it with
  | Lit x => Ascii.eqb x c
  | Range lo hi => PyStr.between (PyStr.code lo) (PyStr.code hi) c
  | ClsDigit => PyStr.isdigit c
  | ClsSpace => PyStr.isspace c
  end.

(** Under IGNORECASE a class is closed under case before it is tested. *)
Definition item_match (fl : flags) (it : item) (c : ascii) : bool :=
  item_plain it c ||
  (ignorecase fl &&
     (item_plain it (PyStr.lower_char c) || item_plain it (PyStr.upper_char c))).

Definition atom_match (fl : flags) (a : atom) (c : ascii) : bool :=
  match a with
  | Dot => dotall fl || negb (Ascii.eqb c "010")
  | OneOf items => existsb (fun it => item_match fl it c) items
  | NoneOf items => negb (existsb (fun it => item_match fl it c) items)
  end.

(** Captured groups, most recent first. *)
Definition caps : Type := list (nat * string).

Fixpoint lookup (n : nat) (c : caps) : option string :=
  match c with
  | [] => None
  | (k, v) :: c' => if Nat.eqb k n then Some v else lookup n c'
  end.

(** A position in the subject: the character before it (for [\b]) and
    the text that remains. *)
Definition cont : Type := option ascii -> string -> caps -> option (string * caps).

Definition accept : cont := fun _ s c => Some (s, c).

(** The text between a position [s] and a later position [s']. *)
Definition consumed (s s' : string) : string :=
  String.substring 0 (String.length s - String.length s') s.

Definition word_at (o : option ascii) : bool :=
  match o with Some c => PyStr.isword c | None => false end.

Definition next_char (s : string) : option ascii :=
  match s with EmptyString => None | String c _ => Some c end.

Definition allows (hi : option nat) : bool :=
  match hi with Some 0 => false | _ => true end.

Definition dec (hi : option nat) : option nat := option_map Nat.pred hi.

(** Greedy repeat of one atom: take a character when the bound allows,
    fall back to stopping here once the lower bound is met. *)
Fixpoint rep_greedy (fl : flags) (a : atom) (lo : nat) (hi : option nat)
         (prev : option ascii) (s : string) (c : caps) (k : cont)
  : option (string * caps) :=
  let stop := match lo with 0 => k prev s c | S _ => None end in
  match s with
  | String x s' =>
      if allows hi && atom_match fl a x then
        match rep_greedy fl a (Nat.pred lo) (dec hi) (Some x) s' c k with
        | Some res => Some res
        | None => stop
        end
      else stop
  | EmptyString => stop
  end.

(** Lazy repeat: stop as soon as the lower bound is met and the rest of
    the pattern matches, otherwise take one more character. *)
Fixpoint rep_lazy (fl : flags) (a : atom) (lo : nat) (hi : option nat)
         (prev : option ascii) (s : string) (c : caps) (k : cont)
  : option (string * caps) :=
  let more :=
    match s with
    | String x s' =>
        if allows hi && atom_match fl a x
        then rep_lazy fl a (Nat.pred lo) (dec hi) (Some x) s' c k
        else None
    | EmptyString => None
    end in
  match lo with
  | 0 => match k prev s c with Some res => Some res | None => more end
  | S _ => more
  end.

Fixpoint exec (fl : flags) (r : regex) (prev : option ascii) (s : string)
         (c : caps) (k : cont) : option (string * caps) :=
  match r with
  | Eps => k prev s c
  | One a =>
      match s with
      | String x s' => if atom_match fl a x then k (Some x) s' c else None
      | EmptyString => None
      end
  | Seq r1 r2 => exec fl r1 prev s c (fun p' s' c' => exec fl r2 p' s' c' k)
  | Alt r1 r2 =>
      match exec fl r1 prev s c k with
      | Some res => Some res
      | None => exec fl r2 prev s c k
      end
  | Rep a lo hi true => rep_greedy fl a lo hi prev s c k
  | Rep a lo hi false => rep_lazy fl a lo hi prev s c k
  | Group n r1 =>
      exec fl r1 prev s c (fun p' s' c' => k p' s' ((n, consumed s s') :: c'))
  | NegLook r1 =>
      match exec fl r1 prev s c accept with
      | Some _ => None
      | None => k prev s c
      end
  | WordB =>
      if xorb (word_at prev) (word_at (next_char s)) then k prev s c else None
  end.

(** A match object: the whole match and the groups. *)
Record rmatch : Type := { whole : string; groups : caps }.

(** [m.group(n)] for a group that took part; [findall] yields the empty
    string for a group that did not. *)
Definition group (n : nat) (m : rmatch) : string :=
  match lookup n (groups m) with Some v => v | None => EmptyString end.

Definition match_at (fl : flags) (r : regex) (prev : option ascii) (s : string)
  : option (rmatch * string) :=
  match exec fl r prev s [] accept with
  | Some (rest, c) => Some ({| whole := consumed s rest; groups := c |}, rest)
  | None => None
  end.

Fixpoint search_from (fl : flags) (r : regex) (prev : option ascii) (s : string)
  : option rmatch :=
  match match_at fl r prev s with
  | Some (m, _) => Some m
  | None =>
      match s with
      | String x s' => search_from fl r (Some x) s'
      | EmptyString => None
      end
  end.

(** [re.search(pattern, s, flags)]. *)
Definition search (fl : flags) (r : regex) (s : string) : option rmatch :=
  search_from fl r None s.

(** [bool(re.search(pattern, s, flags))]. *)
Definition found (fl : flags) (r : regex) (s : string) : bool :=
  match search fl r s with Some _ => true | None => false end.

(** The scan of [re.findall]: after a match the scan resumes where the
    match ended ([skip] counts the characters still to step over); after
    an empty match it moves one character on. *)
Fixpoint scan (fl : flags) (r : regex) (prev : option ascii) (s : string)
         (skip : nat) : list rmatch :=
  match skip with
  | S n =>
      match s with
      | String x s' => scan fl r (Some x) s' n
      | EmptyString => []
      end
  | 0 =>
      match match_at fl r prev s with
      | Some (m, _) =>
          m :: match s with
               | String x s' => scan fl r (Some x) s' (Nat.pred (String.length (whole m)))
               | EmptyString => []
               end
      | None =>
          match s with
          | String x s' => scan fl r (Some x) s' 0
          | EmptyString => []
          end
      end
  end.

(** [re.findall] for a pattern without groups (whole matches), with one
    group (its text) and with several (here as the match objects). *)
Definition finditer (fl : flags) (r : regex) (s : string) : list rmatch :=
  scan fl r None s 0.

Definition findall (fl : flags) (r : regex) (s : string) : list string :=
  map whole (finditer fl r s).

Definition findall1 (fl : flags) (r : regex) (s : string) : list string :=
  map (group 1) (finditer fl r s).

(** [re.sub(pattern, repl, s, flags)] for a replacement without group
    references: the same scan, the text outside the matches kept. *)
Fixpoint sub_scan (fl : flags) (r : regex) (repl : string) (prev : option ascii)
         (s : string) (skip : nat) : string :=
  match skip with
  | S n =>
      match s with
      | String x s' => sub_scan fl r repl (Some x) s' n
      | EmptyString => EmptyString
      end
  | 0 =>
      match match_at fl r prev s with
      | Some (m, _) =>
          (repl ++
           match s with
           | String x s' =>
               match String.length (whole m) with
               | 0 => String x (sub_scan fl r repl (Some x) s' 0)
               | S n => sub_scan fl r repl (Some x) s' n
               end
           | EmptyString => EmptyString
           end)%string
      | None =>
          match s with
          | String x s' => String x (sub_scan fl r repl (Some x) s' 0)
          | EmptyString => EmptyString
          end
      end
  end.

Definition sub (fl : flags) (r : regex) (repl : string) (s : string) : string :=
  sub_scan fl r repl None s 0.

(** *** Pattern combinators *)

Definition chr (c : ascii) : regex := One (OneOf [Lit c]).

Fixpoint lit (s : string) : regex :=
  match s with
  | EmptyString => Eps
  | String c EmptyString => chr c
  | String c s' => Seq (chr c) (lit s')
  end.

Definition cat (rs : list regex) : regex := fold_right Seq Eps rs.

Fixpoint alts (rs : list regex) : regex :=
  match rs with
  | [] => Eps
  | [r] => r
  | r :: rs' => Alt r (alts rs')
  end.

Definition star (a : atom) : regex := Rep a 0 None true.
Definition plus (a : atom) : regex := Rep a 1 None true.
Definition opt1 (a : atom) : regex := Rep a 0 (Some 1) true.
Definition lazy_star (a : atom) : regex := Rep a 0 None false.
Definition times (a : atom) (lo hi : nat) : regex := Rep a lo (Some hi) true.
Definition at_least (a : atom) (lo : nat) : regex := Rep a lo None true.
Definition opt (r : regex) : regex := Alt r Eps.

Definition c_ (c : ascii) : atom := OneOf [Lit c].
Definition quote : atom := OneOf [Lit PyStr.dq; Lit "'"].       (* [\x22\'] *)
Definition not_quote : atom := NoneOf [Lit PyStr.dq; Lit "'"].  (* [^\x22\'] *)
Definition not_gt : atom := NoneOf [Lit ">"].                   (* [^>] *)
Definition space : atom := OneOf [ClsSpace].                    (* \s *)
Definition digit : atom := OneOf [ClsDigit].                    (* \d *)
Definition hexdigit : atom :=                                   (* [0-9a-fA-F] *)
  OneOf [Range "0" "9"; Range "a" "f"; Range "A" "F"].

(** [w1\s+w2\s+...]: literal words separated by runs of whitespace. *)
Fixpoint words (ws : list string) : regex :=
  match ws with
  | [] => Eps
  | [w] => lit w
  | w :: ws' => Seq (lit w) (Seq (plus space) (words ws'))
  end.

End Re.

(* ------------------------------------------------------------------ *)
(** ** Python floats: binary64 *)

Module PyFloat.

(** [float(n)] for an [int] in the range of a signed machine word, which
    covers every length and score of the pipeline. *)
Definition of_int (z : Z) : float :=
  if Z.ltb z 0
  then PrimFloat.opp (PrimFloat.of_uint63 (Uint63.of_Z (Z.opp z)))
  else PrimFloat.of_uint63 (Uint63.of_Z z).

(** The exact value of a finite float. *)
Definition to_Q (x : float) : Q :=
  match Prim2SF x with
  | S754_finite s m e =>
      let q := match e with
               | Z0 => Qmake (Zpos m) 1
               | Zpos p => Qmake (Zpos m * Z.pow_pos 2 p) 1
               | Zneg p => Qmake (Zpos m) (Pos.pow 2 p)
               end in
      if s then Qopp q else q
  | _ => Qmake 0 1
  end.

(** [int(x)]: truncation toward zero. *)
Definition to_int (x : float) : Z :=
  let q := to_Q x in Z.quot (Qnum q) (Zpos (Qden q)).

(** Rounding to the nearest integer, ties to the even one. *)
Definition round_half_even (q : Q) : Z :=
  let f := Qfloor q in
  match Qcompare (Qminus q (inject_Z f)) (Qmake 1 2) with
  | Lt => f
  | Gt => Z.succ f
  | Eq => if Z.even f then f else Z.succ f
  end.

(** [round(x, ndigits)]: the decimal of [ndigits] places nearest to the
    exact value of [x] (ties to even), as the nearest float. *)
Definition round (x : float) (ndigits : nat) : float :=
  let scale := Z.pow 10 (Z.of_nat ndigits) in
  let n := round_half_even (Qmult (to_Q x) (inject_Z scale)) in
  PrimFloat.div (of_int n) (of_int scale).

(** The format [f"{x:.0f}"] of a non-negative float. *)
Definition format_0f (x : float) : string :=
  DecimalString.NilEmpty.string_of_uint (N.to_uint (Z.to_N (round_half_even (to_Q x)))).

End PyFloat.

(* ------------------------------------------------------------------ *)
(** ** app/services/gap_analyzer.py *)

Module gap_analyzer.
Import Re PyData.

(** A check returns a dict with the keys ["score"], ["issues"] and
    ["severity"] and, per check, further keys; those are [details]. *)
Record report (D : Type) : Type := mk_report
  { score : Z;
    details : D;
    issues : list string;
    severity : string }.

Arguments mk_report {D}.
Arguments score {D}.
Arguments details {D}.
Arguments issues {D}.
Arguments severity {D}.

(** The running pair of the local variables [issues] and [score]. *)
Definition acc : Type := (list string * Z)%type.

Definition start : acc := ([], 100%Z).

(** [issues.append(msg); score -= pts]. *)
Definition penalize (msg : string) (pts : Z) (st : acc) : acc :=
  (fst st ++ [msg], (snd st - pts)%Z).

(** [if cond: issues.append(msg); score -= pts]. *)
Definition penalize_if (cond : bool) (msg : string) (pts : Z) (st : acc) : acc :=
  if cond then penalize msg pts st else st.

(** [feature.replace('_', ' ')]. *)
Definition unscore (s : string) : string :=
  PyStr.map_chars (fun c => if Ascii.eqb c "_" then " "%char else c) s.

(** *** check_mobile_responsiveness *)

Record mobile_details : Type :=
  { has_viewport : bool;
    has_media_queries : bool;
    has_mobile_framework : bool }.

(* <meta[^>]+name=[\x22\']viewport[\x22\'][^>]*> *)
Definition viewport_pattern : regex :=
  cat [lit "<meta"; plus not_gt; lit "name="; One quote; lit "viewport";
       One quote; star not_gt; chr ">"].

(* @media[^{]+\([^)]*\) *)
Definition media_pattern : regex :=
  cat [lit "@media"; plus (NoneOf [Lit "{"]); chr "("; star (NoneOf [Lit ")"]);
       chr ")"].

Definition check_mobile_responsiveness (html_content : string)
  : report mobile_details :=
  let st := start in
  let has_viewport := found IGNORECASE viewport_pattern html_content in
  let st := penalize_if (negb has_viewport)
              "Missing viewport meta tag for mobile devices" 40 st in
  let has_media_queries := found IGNORECASE media_pattern html_content in
  let st := penalize_if (negb has_media_queries)
              "No CSS media queries detected (likely not responsive)" 30 st in
  let has_mobile_framework :=
    existsb (PyStr.contains (PyStr.lower html_content))
      ["bootstrap"; "tailwind"; "foundation"; "mobile"; "responsive"] in
  let st := penalize_if (negb has_mobile_framework)
              "No mobile-friendly CSS framework detected" 20 st in
  let score := snd st in
  {| score := Z.max 0 score;
     details := {| has_viewport := has_viewport;
                   has_media_queries := has_media_queries;
                   has_mobile_framework := has_mobile_framework |};
     issues := fst st;
     severity := if (score <? 40)%Z then "critical"
                 else if (score <? 70)%Z then "high" else "medium" |}.

(** *** check_design_modernity *)

Record design_details : Type :=
  { modern_indicators : Z;
    outdated_indicators : Z }.

Definition modern_features : list (string * regex) :=
  [ (* display:\s*flex *)
    ("flexbox", cat [lit "display:"; star space; lit "flex"]);
    (* display:\s*grid *)
    ("grid", cat [lit "display:"; star space; lit "grid"]);
    (* var\(--[^)]+\) *)
    ("css_variables", cat [lit "var(--"; plus (NoneOf [Lit ")"]); chr ")"]);
    (* font-family:[^;]*(sans-serif|roboto|open\s+sans|lato|montserrat) *)
    ("modern_fonts",
     cat [lit "font-family:"; star (NoneOf [Lit ";"]);
          Group 1 (alts [lit "sans-serif"; lit "roboto"; words ["open"; "sans"];
                         lit "lato"; lit "montserrat"])]);
    (* rgba?\s*\( *)
    ("modern_colors", cat [lit "rgb"; opt1 (c_ "a"); star space; chr "("]);
    (* transition: *)
    ("transitions", lit "transition:");
    (* @keyframes|animation: *)
    ("animations", Alt (lit "@keyframes") (lit "animation:")) ].

(** A value of the dict [outdated_features]: a pattern, or the boolean
    the source has already evaluated. *)
Definition outdated_features (html_content : string)
  : list (string * (regex + bool)) :=
  [ (* <table[^>]*>\s*<tr[^>]*>\s*<td[^>]*>.*?layout|design *)
    ("tables_layout",
     inl (Alt (cat [lit "<table"; star not_gt; chr ">"; star space;
                    lit "<tr"; star not_gt; chr ">"; star space;
                    lit "<td"; star not_gt; chr ">"; lazy_star Dot; lit "layout"])
              (lit "design")));
    (* <frame|<frameset *)
    ("frames", inl (Alt (lit "<frame") (lit "<frameset")));
    (* \.swf|flash *)
    ("flash", inl (Alt (lit ".swf") (lit "flash")));
    (* <marquee *)
    ("marquee", inl (lit "<marquee"));
    (* <font[^>]*> *)
    ("font_tags", inl (cat [lit "<font"; star not_gt; chr ">"]));
    (* len(re.findall(r'style=[\x22\']', html_content)) > 50 *)
    ("inline_styles_heavy",
     inr (Nat.ltb 50 (List.length
            (findall NOFLAGS (cat [lit "style="; One quote]) html_content))));
    (* r'comic\s+sans' in html_content.lower(): a substring test for
       the pattern text itself *)
    ("comic_sans", inr (PyStr.contains (PyStr.lower html_content) "comic\s+sans")) ].

(** One turn of the loop over [modern_features]. *)
Definition modern_step (html_content : string) (n : Z) (kv : string * regex) : Z :=
  if found IGNORECASE (snd kv) html_content then (n + 1)%Z else n.

(** One turn of the loop over [outdated_features]; the state is
    [(outdated_indicators, issues)]. *)
Definition outdated_step (html_content : string) (st : Z * list string)
           (kv : string * (regex + bool)) : Z * list string :=
  let hit := match snd kv with
             | inr b => b
             | inl pattern => found IGNORECASE pattern html_content
             end in
  if hit
  then ((fst st + 1)%Z, snd st ++ [("Outdated: " ++ unscore (fst kv))%string])
  else st.

Definition check_design_modernity (html_content : string)
  : report design_details :=
  let issues := [] in
  let modern_indicators :=
    fold_left (modern_step html_content) modern_features 0%Z in
  let '(outdated_indicators, issues) :=
    fold_left (outdated_step html_content) (outdated_features html_content)
              (0%Z, issues) in
  let score := (modern_indicators * 10 - outdated_indicators * 15)%Z in
  let score := Z.max 0 (Z.min 100 score) in
  let issues :=
    if (modern_indicators <? 2)%Z
    then issues ++ ["Very few modern CSS features detected"] else issues in
  let issues :=
    if (outdated_indicators =? 0)%Z && (modern_indicators <? 3)%Z
    then issues ++ ["Design appears basic/minimal (not necessarily bad, but could be enhanced)"]
    else issues in
  {| score := score;
     details := {| modern_indicators := modern_indicators;
                   outdated_indicators := outdated_indicators |};
     issues := issues;
     severity := if (score <? 30)%Z then "critical"
                 else if (score <? 60)%Z then "high"
                 else if (score <? 80)%Z then "medium" else "low" |}.

(** *** check_seo_basics *)

Record seo_details : Type :=
  { has_title : bool;
    has_meta_description : bool;
    h1_count : nat;
    has_schema : bool;
    images_without_alt : nat }.

(* <title[^>]*>([^<]+)</title> *)
Definition title_pattern : regex :=
  cat [lit "<title"; star not_gt; chr ">"; Group 1 (plus (NoneOf [Lit "<"]));
       lit "</title>"].

(* <meta[^>]+name=[\x22\']description[\x22\'][^>]*content=[\x22\']([^\x22\']{20,})[\x22\'] *)
Definition meta_description_pattern : regex :=
  cat [lit "<meta"; plus not_gt; lit "name="; One quote; lit "description";
       One quote; star not_gt; lit "content="; One quote;
       Group 1 (at_least not_quote 20); One quote].

(* <h1[^>]*> and <h2[^>]*> *)
Definition h1_pattern : regex := cat [lit "<h1"; star not_gt; chr ">"].
Definition h2_pattern : regex := cat [lit "<h2"; star not_gt; chr ">"].

(* <img(?![^>]*alt=)[^>]*> *)
Definition img_without_alt_pattern : regex :=
  cat [lit "<img"; NegLook (cat [star not_gt; lit "alt="]); star not_gt; chr ">"].

(* schema\.org|itemtype=|@type *)
Definition schema_pattern : regex :=
  alts [lit "schema.org"; lit "itemtype="; lit "@type"].

(** The parameter [business_name] is not read by the body. *)
Definition check_seo_basics (html_content : string) (business_name : string)
  : report seo_details :=
  let st := start in
  let title_match := search IGNORECASE title_pattern html_content in
  let has_title := match title_match with Some _ => true | None => false end in
  let title_text := match title_match with
                    | Some m => group 1 m
                    | None => ""
                    end in
  let st :=
    if negb has_title || (PyStr.len (PyStr.strip title_text) <? 10)%Z
    then penalize "Missing or too-short title tag" 20 st
    else if (60 <? PyStr.len title_text)%Z
         then penalize "Title tag too long (>60 chars)" 5 st
         else st in
  let has_meta_description :=
    found IGNORECASE meta_description_pattern html_content in
  let st := penalize_if (negb has_meta_description) "Missing meta description" 20 st in
  let h1_count := List.length (findall IGNORECASE h1_pattern html_content) in
  let st :=
    if Nat.eqb h1_count 0
    then penalize "No H1 heading found" 15 st
    else if Nat.ltb 1 h1_count
         then penalize "Multiple H1 headings (should be only one)" 5 st
         else st in
  let has_h2 := found IGNORECASE h2_pattern html_content in
  let st := penalize_if (negb has_h2)
              "No H2 headings found (poor content structure)" 10 st in
  let images_without_alt :=
    List.length (findall IGNORECASE img_without_alt_pattern html_content) in
  let st := penalize_if (Nat.ltb 3 images_without_alt)
              (PyStr.of_nat images_without_alt ++ " images missing alt attributes")%string
              15 st in
  let has_schema := found IGNORECASE schema_pattern html_content in
  let st := penalize_if (negb has_schema)
              "No schema.org structured data found" 15 st in
  let score := snd st in
  {| score := Z.max 0 score;
     details := {| has_title := has_title;
                   has_meta_description := has_meta_description;
                   h1_count := h1_count;
                   has_schema := has_schema;
                   images_without_alt := images_without_alt |};
     issues := fst st;
     severity := if (score <? 50)%Z then "high"
                 else if (score <? 75)%Z then "medium" else "low" |}.

(** *** check_performance_indicators *)

Record performance_details : Type :=
  { page_size_kb : float;
    script_count : nat;
    stylesheet_count : nat;
    has_lazy_loading : bool;
    is_minified : bool }.

(* <script[^>]+src= *)
Definition script_pattern : regex := cat [lit "<script"; plus not_gt; lit "src="].

(* <link[^>]+rel=[\x22\']stylesheet[\x22\'] *)
Definition stylesheet_pattern : regex :=
  cat [lit "<link"; plus not_gt; lit "rel="; One quote; lit "stylesheet"; One quote].

(* loading=[\x22\']lazy[\x22\']|lazy-load *)
Definition lazy_pattern : regex :=
  Alt (cat [lit "loading="; One quote; lit "lazy"; One quote]) (lit "lazy-load").

(** Two line feeds. *)
Definition blank_line : string := String "010" (String "010" EmptyString).

Definition check_performance_indicators (html_content : string)
  : report performance_details :=
  let st := start in
  let page_size_kb :=
    PrimFloat.div (PyFloat.of_int (PyStr.len html_content)) (PyFloat.of_int 1024) in
  let st :=
    if PrimFloat.ltb (PyFloat.of_int 500) page_size_kb
    then penalize ("Large HTML size (" ++ PyFloat.format_0f page_size_kb ++ "KB)")%string
                  20 st
    else if PrimFloat.ltb (PyFloat.of_int 200) page_size_kb
         then penalize
                ("Moderate HTML size (" ++ PyFloat.format_0f page_size_kb ++ "KB)")%string
                10 st
         else st in
  let script_count := List.length (findall IGNORECASE script_pattern html_content) in
  let stylesheet_count :=
    List.length (findall IGNORECASE stylesheet_pattern html_content) in
  let st := penalize_if (Nat.ltb 10 script_count)
              ("Many external scripts (" ++ PyStr.of_nat script_count ++ ")")%string
              15 st in
  let st := penalize_if (Nat.ltb 5 stylesheet_count)
              ("Many external stylesheets (" ++ PyStr.of_nat stylesheet_count ++ ")")%string
              10 st in
  let has_lazy_loading := found IGNORECASE lazy_pattern html_content in
  let st := penalize_if (negb has_lazy_loading)
              "No lazy loading detected for images" 10 st in
  let is_minified :=
    negb (PyStr.contains (PyStr.take 1000 html_content) "<!--") &&
    negb (PyStr.contains (PyStr.take 1000 html_content) blank_line) in
  let st := penalize_if (negb is_minified)
              "HTML not minified (contains comments/excess whitespace)" 10 st in
  let score := snd st in
  {| score := Z.max 0 score;
     details := {| page_size_kb := PyFloat.round page_size_kb 1;
                   script_count := script_count;
                   stylesheet_count := stylesheet_count;
                   has_lazy_loading := has_lazy_loading;
                   is_minified := is_minified |};
     issues := fst st;
     severity := if (score <? 50)%Z then "high"
                 else if (score <? 75)%Z then "medium" else "low" |}.

(** *** check_missing_sections *)

(** The key ["missing_sections"] of this check's dict; the field is
    named apart from the sub-report of the same name in the overall
    report. *)
Record missing_details : Type :=
  { missing_sections_count : nat }.

Definition universal_sections : list (string * regex) :=
  [ (* <form[^>]*>.*?(?:email|phone|name|message) *)
    ("contact_form",
     cat [lit "<form"; star not_gt; chr ">"; lazy_star Dot;
          alts [lit "email"; lit "phone"; lit "name"; lit "message"]]);
    (* testimonial|review|customer\s+says|feedback *)
    ("testimonials",
     alts [lit "testimonial"; lit "review"; words ["customer"; "says"];
           lit "feedback"]);
    (* about\s+us|who\s+we\s+are|our\s+story|our\s+team *)
    ("about",
     alts [words ["about"; "us"]; words ["who"; "we"; "are"];
           words ["our"; "story"]; words ["our"; "team"]]);
    (* <button|<a[^>]+class=[\x22\'][^\x22\']*btn[^\x22\']*[\x22\'] *)
    ("call_to_action",
     Alt (lit "<button")
         (cat [lit "<a"; plus not_gt; lit "class="; One quote; star not_quote;
               lit "btn"; star not_quote; One quote])) ].

Definition business_specific : list (string * list (string * regex)) :=
  [ ("restaurant",
     [ (* menu|food|dishes|cuisine *)
       ("menu", alts [lit "menu"; lit "food"; lit "dishes"; lit "cuisine"]);
       (* reserv|book\s+table|book\s+now *)
       ("reservation",
        alts [lit "reserv"; words ["book"; "table"]; words ["book"; "now"]]);
       (* google.*map|map.*embed|location *)
       ("location_map",
        alts [cat [lit "google"; star Dot; lit "map"];
              cat [lit "map"; star Dot; lit "embed"]; lit "location"]) ]);
    ("home_services",
     [ (* service\s+area|we\s+serve|coverage *)
       ("service_area",
        alts [words ["service"; "area"]; words ["we"; "serve"]; lit "coverage"]);
       (* emergency|24/?7|urgent *)
       ("emergency_contact",
        alts [lit "emergency"; cat [lit "24"; opt1 (c_ "/"); chr "7"]; lit "urgent"]);
       (* licensed|insured|certified|accredited *)
       ("certifications",
        alts [lit "licensed"; lit "insured"; lit "certified"; lit "accredited"]) ]);
    ("professional",
     [ (* education|degree|certified|licensed|bar\s+admission *)
       ("credentials",
        alts [lit "education"; lit "degree"; lit "certified"; lit "licensed";
              words ["bar"; "admission"]]);
       (* case\s+study|case\s+studies|portfolio|work|results *)
       ("case_studies",
        alts [words ["case"; "study"]; words ["case"; "studies"]; lit "portfolio";
              lit "work"; lit "results"]);
       (* consultation|free\s+consult|schedule\s+appointment *)
       ("consultation",
        alts [lit "consultation"; words ["free"; "consult"];
              words ["schedule"; "appointment"]]) ]) ].

Definition universal_step (html_content : string) (st : acc) (kv : string * regex)
  : acc :=
  penalize_if (negb (found IGNORECASE_DOTALL (snd kv) html_content))
              ("Missing " ++ unscore (fst kv))%string 15 st.

Definition specific_step (html_content : string) (st : acc) (kv : string * regex)
  : acc :=
  penalize_if (negb (found IGNORECASE (snd kv) html_content))
              ("Missing business-specific: " ++ unscore (fst kv))%string 10 st.

Definition check_missing_sections (html_content : string) (business_type : string)
  : report missing_details :=
  let st := start in
  let st := fold_left (universal_step html_content) universal_sections st in
  let st :=
    match dict_get business_type business_specific with
    | Some sections => fold_left (specific_step html_content) sections st
    | None => st
    end in
  let score := snd st in
  {| score := Z.max 0 score;
     details := {| missing_sections_count := List.length (fst st) |};
     issues := fst st;
     severity := if (score <? 50)%Z then "high"
                 else if (score <? 75)%Z then "medium" else "low" |}.

(** *** analyze_website_gaps *)

Record gap_report : Type :=
  { overall_score : Z;
    priority_gaps : list string;
    mobile : report mobile_details;
    design : report design_details;
    seo : report seo_details;
    performance : report performance_details;
    missing_sections : report missing_details;
    recommendations : list string;
    gap_count : nat;
    total_issues : nat }.

(** The weighted sum of the source, evaluated left to right in binary64
    and truncated by [int]. *)
Definition weighted (mobile design seo performance missing : Z) : Z :=
  PyFloat.to_int
    (PyFloat.of_int mobile * 0.30 +
     PyFloat.of_int design * 0.20 +
     PyFloat.of_int seo * 0.25 +
     PyFloat.of_int performance * 0.15 +
     PyFloat.of_int missing * 0.10)%float.

Definition analyze_website_gaps (html_content business_name business_type : string)
  : gap_report :=
  let mobile := check_mobile_responsiveness html_content in
  let design := check_design_modernity html_content in
  let seo := check_seo_basics html_content business_name in
  let performance := check_performance_indicators html_content in
  let missing := check_missing_sections html_content business_type in
  let overall_score :=
    weighted (score mobile) (score design) (score seo) (score performance)
             (score missing) in
  let priority_gaps := [] in
  let priority_gaps :=
    append_if (mem (severity mobile) ["critical"; "high"])
              "mobile_responsiveness" priority_gaps in
  let priority_gaps :=
    append_if (mem (severity design) ["critical"; "high"])
              "modern_design" priority_gaps in
  let priority_gaps :=
    append_if (String.eqb (severity seo) "high") "seo_optimization" priority_gaps in
  let priority_gaps :=
    append_if (String.eqb (severity performance) "high") "performance" priority_gaps in
  let priority_gaps :=
    append_if (String.eqb (severity missing) "high") "key_sections" priority_gaps in
  let recommendations := [] in
  let recommendations :=
    append_if (mem "mobile_responsiveness" priority_gaps)
      "Implement mobile-first responsive design with proper viewport and media queries"
      recommendations in
  let recommendations :=
    append_if (mem "modern_design" priority_gaps)
      "Modernize design with flexbox/grid layouts, contemporary colors, and smooth animations"
      recommendations in
  let recommendations :=
    append_if (mem "seo_optimization" priority_gaps)
      "Add proper meta tags, structured headings, schema.org markup, and image alt text"
      recommendations in
  let recommendations :=
    append_if (mem "performance" priority_gaps)
      "Optimize loading speed with lazy loading, minification, and reduced external resources"
      recommendations in
  let recommendations :=
    append_if (mem "key_sections" priority_gaps)
      ("Add missing sections important for " ++ business_type ++ " businesses")%string
      recommendations in
  let recommendations :=
    append_if ((score mobile <? 100)%Z && negb (mem "mobile_responsiveness" priority_gaps))
      "Minor mobile responsiveness improvements needed" recommendations in
  let recommendations :=
    append_if ((score seo <? 100)%Z && negb (mem "seo_optimization" priority_gaps))
      "Minor SEO enhancements recommended" recommendations in
  {| overall_score := overall_score;
     priority_gaps := priority_gaps;
     mobile := mobile;
     design := design;
     seo := seo;
     performance := performance;
     missing_sections := missing;
     recommendations := recommendations;
     gap_count := List.length priority_gaps;
     total_issues :=
       List.length (issues mobile) + List.length (issues design) +
       List.length (issues seo) + List.length (issues performance) +
       List.length (issues missing) |}.

End gap_analyzer.

(* ------------------------------------------------------------------ *)
(** ** app/services/business_classifier.py *)

Module business_classifier.
Import PyData.

Record keywords : Type := { primary : list string; secondary : list string }.

Definition CATEGORY_KEYWORDS : list (string * keywords) :=
  [ ("restaurant",
     {| primary := ["restaurant"; "cafe"; "dining"; "food"; "cuisine"; "menu";
                    "chef"; "bistro"; "eatery"];
        secondary := ["pizza"; "italian"; "chinese"; "indian"; "thai"; "sushi";
                      "japanese"; "mexican"; "burger"; "barbecue"; "bbq";
                      "steakhouse"; "seafood"; "vegan"; "vegetarian"] |});
    ("professional",
     {| primary := ["lawyer"; "attorney"; "legal"; "accountant"; "accounting";
                    "consultant"; "consulting"; "financial"; "advisor"; "cpa"; "tax"];
        secondary := ["law firm"; "bookkeeping"; "audit"; "litigation"; "contract";
                      "business consulting"; "strategy"] |});
    ("home_services",
     {| primary := ["plumber"; "plumbing"; "electrician"; "electrical"; "hvac";
                    "heating"; "cooling"; "carpenter"; "carpentry"; "locksmith";
                    "handyman"];
        secondary := ["repair"; "installation"; "maintenance"; "emergency"; "24/7";
                      "licensed"; "insured"] |});
    ("health_medical",
     {| primary := ["dentist"; "dental"; "doctor"; "physician"; "clinic"; "medical";
                    "therapy"; "therapist"; "chiropractor"; "physiotherapy"];
        secondary := ["healthcare"; "wellness"; "treatment"; "patient"; "diagnosis";
                      "surgery"; "orthodontic"; "pediatric"] |});
    ("beauty_wellness",
     {| primary := ["salon"; "spa"; "massage"; "barber"; "nails"; "manicure";
                    "pedicure"; "beauty"; "hair"; "hairstylist"];
        secondary := ["facial"; "waxing"; "makeup"; "cosmetic"; "skincare";
                      "relaxation"; "aromatherapy"] |});
    ("fitness",
     {| primary := ["gym"; "fitness"; "yoga"; "pilates"; "personal training";
                    "crossfit"; "workout"; "exercise"];
        secondary := ["weight loss"; "muscle"; "cardio"; "strength"; "wellness";
                      "health club"; "boxing"; "martial arts"] |});
    ("retail",
     {| primary := ["shop"; "store"; "boutique"; "retail"; "products"; "merchandise";
                    "clothing"; "apparel"; "fashion"];
        secondary := ["ecommerce"; "shopping"; "buy"; "sale"; "discount";
                      "online store"; "marketplace"] |});
    ("real_estate",
     {| primary := ["realtor"; "real estate"; "property"; "homes"; "houses";
                    "apartments"; "estate agent"; "realty"];
        secondary := ["buying"; "selling"; "rental"; "lease"; "commercial";
                      "residential"; "investment"; "listing"] |});
    ("automotive",
     {| primary := ["mechanic"; "auto repair"; "car service"; "automotive"; "garage";
                    "vehicle"; "auto shop"];
        secondary := ["oil change"; "brake"; "transmission"; "engine"; "tire";
                      "inspection"; "diagnostic"; "body shop"] |});
    ("education",
     {| primary := ["school"; "training"; "courses"; "tutoring"; "education";
                    "learning"; "academy"; "institute"];
        secondary := ["teaching"; "lessons"; "class"; "workshop"; "certification";
                      "online learning"; "coaching"] |});
    ("creative",
     {| primary := ["photographer"; "photography"; "designer"; "design"; "agency";
                    "studio"; "creative"; "artist"];
        secondary := ["graphic design"; "web design"; "branding"; "marketing";
                      "advertising"; "video"; "production"] |});
    ("hospitality",
     {| primary := ["hotel"; "motel"; "accommodation"; "bnb"; "bed and breakfast";
                    "resort"; "inn"; "lodging"];
        secondary := ["rooms"; "booking"; "stay"; "guest"; "vacation"; "travel";
                      "amenities"; "hospitality"] |}) ].

Definition CONFIDENCE_INDICATORS : list (string * list string) :=
  [ ("restaurant", ["menu page"; "reservation"; "delivery"; "takeout"; "hours";
                    "food photos"]);
    ("professional", ["credentials"; "case studies"; "consultation";
                      "practice areas"; "attorney"; "certified"]);
    ("home_services", ["service area"; "emergency"; "licensed"; "insured";
                       "free quote"; "24/7"]);
    ("health_medical", ["appointment"; "insurance"; "patients"; "services";
                        "doctors"; "treatments"]);
    ("beauty_wellness", ["services"; "pricing"; "booking"; "before/after";
                         "gallery"; "testimonials"]);
    ("fitness", ["classes"; "schedule"; "membership"; "trainers"; "facilities";
                 "programs"]);
    ("retail", ["products"; "cart"; "checkout"; "shipping"; "returns"; "catalog"]);
    ("real_estate", ["listings"; "properties"; "search"; "agents"; "mls"; "sold"]);
    ("automotive", ["services"; "appointment"; "diagnostics"; "warranty";
                    "certified"; "repairs"]);
    ("education", ["courses"; "enrollment"; "tuition"; "curriculum"; "instructors";
                   "certification"]);
    ("creative", ["portfolio"; "work"; "clients"; "packages"; "projects"; "gallery"]);
    ("hospitality", ["rooms"; "availability"; "check-in"; "amenities"; "location";
                     "rates"]) ].

Definition SECONDARY_TAGS : list (string * list (string * list string)) :=
  [ ("restaurant",
     [ ("italian", ["italian"; "pasta"; "pizza"; "romano"]);
       ("chinese", ["chinese"; "dim sum"; "wok"; "asian"]);
       ("mexican", ["mexican"; "taco"; "burrito"; "salsa"]);
       ("fast_food", ["fast food"; "quick service"; "drive-thru"]);
       ("fine_dining", ["fine dining"; "upscale"; "gourmet"; "michelin"]);
       ("casual", ["casual"; "family"; "friendly"; "neighborhood"]);
       ("cafe", ["cafe"; "coffee"; "bakery"; "breakfast"]) ]);
    ("home_services",
     [ ("emergency", ["emergency"; "24/7"; "24 hour"; "urgent"]);
       ("residential", ["residential"; "home"; "house"]);
       ("commercial", ["commercial"; "business"; "industrial"]) ]);
    ("beauty_wellness",
     [ ("hair", ["hair"; "salon"; "barber"; "hairstylist"]);
       ("nails", ["nails"; "manicure"; "pedicure"]);
       ("spa", ["spa"; "massage"; "facial"; "relaxation"]) ]) ].

(** The result dict; the key ["warning"] is present only in the fallback. *)
Record classification : Type :=
  { primary_type : string;
    confidence : float;
    secondary_tags : list string;
    matched_keywords : list string;
    warning : option string }.

(** One turn of a keyword loop: [if keyword in search_text: score += w;
    matched.append(keyword)].  The state is [(score, matched)]. *)
Definition keyword_step (search_text : string) (w : Z) (st : Z * list string)
           (keyword : string) : Z * list string :=
  if PyStr.contains search_text keyword
  then ((fst st + w)%Z, snd st ++ [keyword])
  else st.

(** One turn of the indicator loop: [if indicator in search_text: score += 5]. *)
Definition indicator_step (search_text : string) (score : Z) (indicator : string) : Z :=
  if PyStr.contains search_text indicator then (score + 5)%Z else score.

(** The body of the loop over [CATEGORY_KEYWORDS.items()] for one
    category: its score and its matched keywords. *)
Definition score_category (search_text website_text : string)
           (cat_name : string) (kw : keywords) : Z * list string :=
  let st := (0%Z, []) in
  let st := fold_left (keyword_step search_text 10) (primary kw) st in
  let st := fold_left (keyword_step search_text 3) (secondary kw) st in
  let score :=
    if PyStr.truthy website_text
    then fold_left (indicator_step search_text)
           (match dict_get cat_name CONFIDENCE_INDICATORS with
            | Some l => l
            | None => []
            end)
           (fst st)
    else fst st in
  (score, snd st).

(** The two dicts [category_scores] and [matched_keywords_by_category],
    both keyed by category in declaration order. *)
Definition score_all (search_text website_text : string)
  : list (string * (Z * list string)) :=
  map (fun kv => (fst kv, score_category search_text website_text (fst kv) (snd kv)))
      CATEGORY_KEYWORDS.

(** [max(d.values())] for non-negative scores. *)
Definition max_value (d : list (string * Z)) : Z :=
  fold_left (fun m kv => Z.max m (snd kv)) d 0%Z.

(** [max(d, key=d.get)]: the first key whose value is maximal. *)
Fixpoint argmax_from (best : string * Z) (d : list (string * Z)) : string :=
  match d with
  | [] => fst best
  | kv :: d' => if (snd best <? snd kv)%Z then argmax_from kv d' else argmax_from best d'
  end.

Definition argmax (d : list (string * Z)) : string :=
  match d with
  | [] => ""
  | kv :: d' => argmax_from kv d'
  end.

(** [d[key]] for a key of the dict. *)
Definition dict_at {V : Type} (dflt : V) (key : string) (d : list (string * V)) : V :=
  match dict_get key d with Some v => v | None => dflt end.

(** The confidence curve, before rounding. *)
Definition confidence_of (max_score : Z) : float :=
  if (30 <=? max_score)%Z then
    let x := (0.7 + PyFloat.of_int (max_score - 30) * 0.01)%float in
    if PrimFloat.ltb x 0.95 then x else 0.95%float      (* min(0.95, x) *)
  else if (20 <=? max_score)%Z then
    (0.7 + PyFloat.of_int (max_score - 20) * 0.02)%float
  else if (10 <=? max_score)%Z then
    (0.5 + PyFloat.of_int (max_score - 10) * 0.02)%float
  else
    (PyFloat.of_int max_score * 0.05)%float.

(** [list(set(xs))].  The language does not fix the order in which a set
    is iterated; the model keeps the order of first occurrence, and no
    statement below depends on the order. *)
Definition list_set (xs : list string) : list string := nodup string_dec xs.

(** [f"{category} {business_name} {website_text}".lower()]. *)
Definition search_text_of (category website_text business_name : string) : string :=
  PyStr.lower (category ++ " " ++ business_name ++ " " ++ website_text)%string.

(** The dict [category_scores] once the loop has ended. *)
Definition category_scores_of (search_text website_text : string) : list (string * Z) :=
  map (fun kv => (fst kv, fst (snd kv))) (score_all search_text website_text).

(** The dict [matched_keywords_by_category] once the loop has ended. *)
Definition matched_keywords_of (search_text website_text : string)
  : list (string * list string) :=
  map (fun kv => (fst kv, snd (snd kv))) (score_all search_text website_text).

Definition classify_business (category website_text business_name : string)
  : classification :=
  let search_text := search_text_of category website_text business_name in
  let category_scores := category_scores_of search_text website_text in
  let matched_keywords_by_category := matched_keywords_of search_text website_text in
  if match category_scores with [] => true | _ => false end
     || (max_value category_scores =? 0)%Z
  then
    {| primary_type := "general";
       confidence := 0.0%float;
       secondary_tags := [];
       matched_keywords := [];
       warning := Some "Could not classify business type" |}
  else
    let primary_type := argmax category_scores in
    let max_score := dict_at 0%Z primary_type category_scores in
    let confidence := confidence_of max_score in
    let secondary_tags :=
      match dict_get primary_type SECONDARY_TAGS with
      | Some tags =>
          fold_left
            (fun acc tk =>
               if existsb (PyStr.contains search_text) (snd tk)
               then acc ++ [fst tk] else acc)
            tags []
      | None => []
      end in
    {| primary_type := primary_type;
       confidence := PyFloat.round confidence 2;
       secondary_tags := list_set secondary_tags;
       matched_keywords :=
         firstn 5 (dict_at [] primary_type matched_keywords_by_category);
       warning := None |}.

(** [get_all_business_types]. *)
Definition get_all_business_types : list string := map fst CATEGORY_KEYWORDS.

(** [get_business_type_display_name]. *)
Definition display_names : list (string * string) :=
  [ ("restaurant", "Restaurant/Cafe");
    ("professional", "Professional Services");
    ("home_services", "Home Services");
    ("health_medical", "Health/Medical");
    ("beauty_wellness", "Beauty/Wellness");
    ("fitness", "Fitness");
    ("retail", "Retail/Shop");
    ("real_estate", "Real Estate");
    ("automotive", "Automotive");
    ("education", "Education");
    ("creative", "Creative Services");
    ("hospitality", "Hospitality");
    ("general", "General Business") ].

Definition get_business_type_display_name (business_type : string) : string :=
  match dict_get business_type display_names with
  | Some name => name
  | None =>
      PyStr.title
        (PyStr.map_chars (fun c => if Ascii.eqb c "_" then " "%char else c) business_type)
  end.

(** [get_category_keywords]. *)
Definition get_category_keywords (business_type : string) : keywords :=
  match dict_get business_type CATEGORY_KEYWORDS with
  | Some kw => kw
  | None => {| primary := []; secondary := [] |}
  end.

End business_classifier.

(* ------------------------------------------------------------------ *)
(** ** app/services/content_extractor.py *)

Module content_extractor.
Import Re PyData.

(** *** extract_colors_from_text *)

(* #(?:[0-9a-fA-F]{3}|[0-9a-fA-F]{6})\b *)
Definition hex_pattern : regex :=
  cat [chr "#"; Alt (times hexdigit 3 3) (times hexdigit 6 6); WordB].

(* rgba?\s*\(\s*(\d+)\s*,\s*(\d+)\s*,\s*(\d+)(?:\s*,\s*[\d.]+)?\s*\) *)
Definition rgb_pattern : regex :=
  cat [lit "rgb"; opt1 (c_ "a"); star space; chr "("; star space;
       Group 1 (plus digit); star space; chr ","; star space;
       Group 2 (plus digit); star space; chr ","; star space;
       Group 3 (plus digit);
       opt (cat [star space; chr ","; star space; plus (OneOf [ClsDigit; Lit "."])]);
       star space; chr ")"].

(* (?:background-color|color|border-color|fill|stroke)\s*:\s*([#]?[0-9a-fA-F]{3,6}|rgba?\([^)]+\)) *)
Definition css_color_pattern : regex :=
  cat [alts [lit "background-color"; lit "color"; lit "border-color"; lit "fill";
             lit "stroke"];
       star space; chr ":"; star space;
       Group 1 (Alt (cat [opt1 (c_ "#"); times hexdigit 3 6])
                    (cat [lit "rgb"; opt1 (c_ "a"); chr "(";
                          plus (NoneOf [Lit ")"]); chr ")"]))].

(* style\s*=\s*[\x22\'][^\x22\']*(?:background-color|color)\s*:\s*([^;\x22\']+) *)
Definition inline_style_pattern : regex :=
  cat [lit "style"; star space; chr "="; star space; One quote; star not_quote;
       Alt (lit "background-color") (lit "color"); star space; chr ":"; star space;
       Group 1 (plus (NoneOf [Lit ";"; Lit PyStr.dq; Lit "'"]))].

(** [f"#{color[1]}{color[1]}{color[2]}{color[2]}{color[3]}{color[3]}"]. *)
Definition expand3 (color : string) : string :=
  ("#" ++ PyStr.at_ 1 color ++ PyStr.at_ 1 color
       ++ PyStr.at_ 2 color ++ PyStr.at_ 2 color
       ++ PyStr.at_ 3 color ++ PyStr.at_ 3 color)%string.

(** [if len(color) == 4: color = <expanded>] followed by
    [colors.append(color.upper())]. *)
Definition append_hex (colors : list string) (color : string) : list string :=
  let color := if Nat.eqb (String.length color) 4 then expand3 color else color in
  colors ++ [PyStr.upper color].

(** [f"#{int(r):02X}{int(g):02X}{int(b):02X}"]; the three conversions
    run from left to right and each may raise. *)
Definition rgb_hex (r g b : string) : Py.result string :=
  r <- PyStr.int10 r ;;
  g <- PyStr.int10 g ;;
  b <- PyStr.int10 b ;;
  Py.Return ("#" ++ PyStr.format_02X r ++ PyStr.format_02X g ++ PyStr.format_02X b)%string.

Definition css_step (colors : list string) (color : string) : Py.result (list string) :=
  if PyStr.startswith color "#" then Py.Return (append_hex colors color)
  else if PyStr.startswith color "rgb" then
    match findall NOFLAGS (plus digit) color with
    | r :: g :: b :: _ =>
        hex_color <- rgb_hex r g b ;;
        Py.Return (colors ++ [hex_color])
    | _ => Py.Return colors
    end
  else Py.Return colors.

Definition inline_step (colors : list string) (color : string) : list string :=
  let color := PyStr.strip color in
  if PyStr.startswith color "#" then append_hex colors color else colors.

Definition rgb_step (colors : list string) (m : rmatch) : Py.result (list string) :=
  hex_color <- rgb_hex (group 1 m) (group 2 m) (group 3 m) ;;
  Py.Return (colors ++ [hex_color]).

(** The body of the filter loop: [true] when the colour is skipped.  The
    bare [except] of the source turns a failed parse into "keep". *)
Definition skipped (color : string) : bool :=
  if mem color ["#FFFFFF"; "#000000"; "#FFF"; "#000"; "#FEFEFE"; "#010101"]
  then true
  else if Nat.eqb (String.length color) 7 then
    match PyStr.int16 (PyStr.slice 1 3 color) with
    | Some r =>
        match PyStr.int16 (PyStr.slice 3 5 color) with
        | Some g =>
            match PyStr.int16 (PyStr.slice 5 7 color) with
            | Some b =>
                ((250 <? r) && (250 <? g) && (250 <? b)
                 || (r <? 5) && (g <? 5) && (b <? 5))%Z
            | None => false
            end
        | None => false
        end
    | None => false
    end
  else false.

(** The list [colors] after the four loops that fill it. *)
Definition collect_colors (html_content : string) : Py.result (list string) :=
  let colors := [] in
  let hex_matches := findall NOFLAGS hex_pattern html_content in
  let rgb_matches := finditer NOFLAGS rgb_pattern html_content in
  let css_matches := findall1 IGNORECASE css_color_pattern html_content in
  let inline_matches := findall1 IGNORECASE inline_style_pattern html_content in
  let colors := fold_left append_hex hex_matches colors in
  colors <- Py.foldM css_step css_matches colors ;;
  let colors := fold_left inline_step inline_matches colors in
  Py.foldM rgb_step rgb_matches colors.

Definition extract_colors_from_text (html_content : string) : Py.result (list string) :=
  colors <- collect_colors html_content ;;
  let color_counts := Counter colors in
  let filtered_colors := filter (fun color => negb (skipped color)) (keys color_counts) in
  Py.Return (map fst (most_common 8 (Counter filtered_colors))).

(** *** extract_text_content *)

Record text_sections : Type :=
  { full_text : string;
    about : string;
    services : string;
    contact_section : string }.   (* the key "contact" of this dict *)

(* <script[^>]*>.*?</script> and <style[^>]*>.*?</style> *)
Definition script_block : regex :=
  cat [lit "<script"; star not_gt; chr ">"; lazy_star Dot; lit "</script>"].
Definition style_block : regex :=
  cat [lit "<style"; star not_gt; chr ">"; lazy_star Dot; lit "</style>"].

(* <[^>]+> *)
Definition tag_pattern : regex := cat [chr "<"; plus not_gt; chr ">"].

(* (?:about\s+us|about|who\s+we\s+are|our\s+story)[\s:]*([^.]{50,500}) *)
Definition about_pattern : regex :=
  cat [alts [words ["about"; "us"]; lit "about"; words ["who"; "we"; "are"];
             words ["our"; "story"]];
       star (OneOf [ClsSpace; Lit ":"]); Group 1 (times (NoneOf [Lit "."]) 50 500)].

(* (?:our\s+services|services|what\s+we\s+do|offerings)[\s:]*([^.]{50,500}) *)
Definition services_pattern : regex :=
  cat [alts [words ["our"; "services"]; lit "services"; words ["what"; "we"; "do"];
             lit "offerings"];
       star (OneOf [ClsSpace; Lit ":"]); Group 1 (times (NoneOf [Lit "."]) 50 500)].

(** [re.sub(r'\s+', ' ', re.sub(r'<[^>]+>', ' ', t)).strip()[:500]]. *)
Definition section_text (t : string) : string :=
  PyStr.take 500
    (PyStr.strip (sub NOFLAGS (plus space) " " (sub NOFLAGS tag_pattern " " t))).

Definition extract_text_content (html_content : string) : text_sections :=
  let cleaned := sub IGNORECASE_DOTALL script_block "" html_content in
  let cleaned := sub IGNORECASE_DOTALL style_block "" cleaned in
  let text := sub NOFLAGS tag_pattern " " cleaned in
  let text := PyStr.strip (sub NOFLAGS (plus space) " " text) in
  {| full_text := PyStr.take 5000 text;
     about := match search IGNORECASE_DOTALL about_pattern html_content with
              | Some m => section_text (group 1 m)
              | None => ""
              end;
     services := match search IGNORECASE_DOTALL services_pattern html_content with
                 | Some m => section_text (group 1 m)
                 | None => ""
                 end;
     contact_section := "" |}.

(** *** extract_contact_info *)

Record contact_info : Type :=
  { phone : option string;
    email : option string;
    address : option string }.

Definition sep : atom := OneOf [Lit "-"; Lit "."; ClsSpace].   (* [-.\s] *)

Definition phone_patterns : list regex :=
  [ (* \+?\d{1,4}[-.\s]?\(?\d{1,4}\)?[-.\s]?\d{1,4}[-.\s]?\d{1,9} *)
    cat [opt1 (c_ "+"); times digit 1 4; opt1 sep; opt1 (c_ "("); times digit 1 4;
         opt1 (c_ ")"); opt1 sep; times digit 1 4; opt1 sep; times digit 1 9];
    (* \d{3}[-.\s]?\d{3}[-.\s]?\d{4} *)
    cat [times digit 3 3; opt1 sep; times digit 3 3; opt1 sep; times digit 4 4];
    (* \d{5}[\s]?\d{6} *)
    cat [times digit 5 5; opt1 space; times digit 6 6] ].

(* \b[A-Za-z0-9._%+-]+@[A-Za-z0-9.-]+\.[A-Z|a-z]{2,}\b *)
Definition email_pattern : regex :=
  cat [WordB;
       plus (OneOf [Range "A" "Z"; Range "a" "z"; Range "0" "9"; Lit "."; Lit "_";
                    Lit "%"; Lit "+"; Lit "-"]);
       chr "@";
       plus (OneOf [Range "A" "Z"; Range "a" "z"; Range "0" "9"; Lit "."; Lit "-"]);
       chr ".";
       at_least (OneOf [Range "A" "Z"; Lit "|"; Range "a" "z"]) 2;
       WordB].

(** Truth value of an [Optional[str]]: [None] and the empty string are
    false. *)
Definition truthy_opt (o : option string) : bool :=
  match o with Some s => PyStr.truthy s | None => false end.

(** The loop over [phone_patterns]; [phone] is [contact["phone"]].  The
    [break] ends the loop at the first pattern that assigns. *)
Fixpoint phone_loop (html_content : string) (patterns : list regex)
         (phone : option string) : option string :=
  match patterns with
  | [] => phone
  | pattern :: rest =>
      match findall NOFLAGS pattern html_content with
      | first :: _ =>
          if negb (truthy_opt phone) then Some first
          else phone_loop html_content rest phone
      | [] => phone_loop html_content rest phone
      end
  end.

Definition is_spam (email : string) : bool :=
  existsb (PyStr.contains (PyStr.lower email)) ["noreply"; "example"; "test"; "spam"].

Definition extract_contact_info (html_content : string) (business_phone : option string)
  : contact_info :=
  let phone := phone_loop html_content phone_patterns business_phone in
  let emails := findall NOFLAGS email_pattern html_content in
  let valid_emails := filter (fun e => negb (is_spam e)) emails in
  {| phone := phone;
     email := match valid_emails with e :: _ => Some e | [] => None end;
     address := None |}.

(** *** extract_logo_urls, extract_images, extract_business_content *)

Record image : Type :=
  { url : string;
    alt : string;
    type : string }.

Record metadata_info : Type :=
  { total_colors_found : nat;
    total_images_found : nat;
    has_logo : bool;
    has_about_section : bool;
    has_services_section : bool;
    has_contact_info : bool }.

Record extraction : Type :=
  { colors : list string;
    logos : list string;
    text_content : text_sections;
    contact : contact_info;
    images : list image;
    metadata : metadata_info }.

Definition src_group : regex :=      (* src=[\x22\']([^\x22\']+)[\x22\'] *)
  cat [lit "src="; One quote; Group 1 (plus not_quote); One quote].

(** [attr=[\x22\'][^\x22\']*logo[^\x22\']*[\x22\']]. *)
Definition logo_attr (attr : string) : regex :=
  cat [lit attr; chr "="; One quote; star not_quote; lit "logo"; star not_quote;
       One quote].

Definition logo_patterns : list regex :=
  [ (* <img[^>]+class=[\x22\'][^\x22\']*logo[^\x22\']*[\x22\'][^>]+src=[\x22\']([^\x22\']+)[\x22\'] *)
    cat [lit "<img"; plus not_gt; logo_attr "class"; plus not_gt; src_group];
    (* <img[^>]+src=[\x22\']([^\x22\']+)[\x22\'][^>]+class=[\x22\'][^\x22\']*logo[^\x22\']*[\x22\'] *)
    cat [lit "<img"; plus not_gt; src_group; plus not_gt; logo_attr "class"];
    (* <img[^>]+alt=[\x22\'][^\x22\']*logo[^\x22\']*[\x22\'][^>]+src=[\x22\']([^\x22\']+)[\x22\'] *)
    cat [lit "<img"; plus not_gt; logo_attr "alt"; plus not_gt; src_group];
    (* <img[^>]+id=[\x22\'][^\x22\']*logo[^\x22\']*[\x22\'][^>]+src=[\x22\']([^\x22\']+)[\x22\'] *)
    cat [lit "<img"; plus not_gt; logo_attr "id"; plus not_gt; src_group];
    (* <a[^>]+class=[\x22\'][^\x22\']*logo[^\x22\']*[\x22\'][^>]*>\s*<img[^>]+src=[\x22\']([^\x22\']+)[\x22\'] *)
    cat [lit "<a"; plus not_gt; logo_attr "class"; star not_gt; chr ">"; star space;
         lit "<img"; plus not_gt; src_group] ].

(* <img[^>]+src=[\x22\']([^\x22\']+)[\x22\'](?:[^>]+alt=[\x22\'](G2)[\x22\'])?[^>]*>
   where the second group G2 is [^\x22\']* *)
Definition img_pattern : regex :=
  cat [lit "<img"; plus not_gt; src_group;
       opt (cat [plus not_gt; lit "alt="; One quote; Group 2 (star not_quote);
                 One quote]);
       star not_gt; chr ">"].

Section with_urllib.

(** The reference resolution of [urllib.parse.urljoin] for a base and
    a reference that are both non-empty; it belongs to the standard
    library, not to the repository.  It parses both arguments and raises
    [ValueError] on one it cannot parse (an unclosed bracket in the host,
    for one), so it returns in [Py.result]. *)
Variable resolve : string -> string -> Py.result string.

(** [urljoin(base, url)]: an empty base yields the reference, an empty
    reference the base, both unparsed. *)
Definition urljoin (base url : string) : Py.result string :=
  if negb (PyStr.truthy base) then Py.Return url
  else if negb (PyStr.truthy url) then Py.Return base
  else resolve base url.

(** [if absolute_url not in logo_urls: logo_urls.append(absolute_url)]. *)
Definition logo_step (base_url : string) (logo_urls : list string) (m : string)
  : Py.result (list string) :=
  absolute_url <- urljoin base_url m ;;
  Py.Return (append_if (negb (mem absolute_url logo_urls)) absolute_url logo_urls).

Definition extract_logo_urls (html_content base_url : string) : Py.result (list string) :=
  Py.foldM
    (fun logo_urls pattern =>
       Py.foldM (logo_step base_url) (findall1 IGNORECASE pattern html_content)
                logo_urls)
    logo_patterns [].

(** The type that the words of source and alt text give an image. *)
Definition image_type (src alt : string) : string :=
  let both := PyStr.lower (src ++ alt)%string in
  if PyStr.any_in ["logo"; "brand"] both then "logo"
  else if PyStr.any_in ["hero"; "banner"; "header"] both then "hero"
  else if PyStr.any_in ["product"; "service"; "portfolio"] both then "content"
  else "general".

(** One turn of the loop over [matches[:limit]]. *)
Definition image_step (base_url : string) (images : list image) (m : rmatch)
  : Py.result (list image) :=
  let src := group 1 m in
  let alt := group 2 m in
  if PyStr.any_in ["icon"; "pixel"; "track"; "1x1"; "spacer"] (PyStr.lower src)
  then Py.Return images                                           (* continue *)
  else
    absolute_url <- urljoin base_url src ;;
    let img_type := image_type src alt in
    Py.Return (images ++ [ {| url := absolute_url; alt := alt; type := img_type |} ]).

(** [limit] is a count; the source passes 15 and defaults to 10. *)
Definition extract_images (html_content base_url : string) (limit : nat)
  : Py.result (list image) :=
  let matches := finditer IGNORECASE img_pattern html_content in
  Py.foldM (image_step base_url) (firstn limit matches) [].

Definition extract_business_content (html_content base_url : string)
           (business_phone : option string) : Py.result extraction :=
  colors <- extract_colors_from_text html_content ;;
  logos <- extract_logo_urls html_content base_url ;;
  let text_content := extract_text_content html_content in
  let contact := extract_contact_info html_content business_phone in
  images <- extract_images html_content base_url 15 ;;
  Py.Return
  {| colors := colors;
     logos := logos;
     text_content := text_content;
     contact := contact;
     images := images;
     metadata :=
       {| total_colors_found := List.length colors;
          total_images_found := List.length images;
          has_logo := Nat.ltb 0 (List.length logos);
          has_about_section := Nat.ltb 50 (String.length (about text_content));
          has_services_section := Nat.ltb 50 (String.length (services text_content));
          has_contact_info :=
            truthy_opt (phone contact) || truthy_opt (email contact)
            || truthy_opt (address contact) |} |}.

End with_urllib.

(** *** get_fallback_colors *)

Definition fallback_palettes : list (string * list string) :=
  [ ("restaurant", ["#8B4513"; "#D2691E"; "#FFF8DC"; "#2C1810"]);
    ("professional", ["#1E3A8A"; "#475569"; "#F8FAFC"; "#334155"]);
    ("home_services", ["#2563EB"; "#F97316"; "#FFFFFF"; "#1E40AF"]);
    ("health_medical", ["#3B82F6"; "#FFFFFF"; "#10B981"; "#E0F2FE"]);
    ("beauty_wellness", ["#EC4899"; "#A855F7"; "#FDF2F8"; "#F3E8FF"]);
    ("fitness", ["#DC2626"; "#171717"; "#F97316"; "#FEE2E2"]);
    ("retail", ["#8B5CF6"; "#F472B6"; "#FFFFFF"; "#DDD6FE"]);
    ("real_estate", ["#1E40AF"; "#D97706"; "#FFFFFF"; "#DBEAFE"]);
    ("automotive", ["#64748B"; "#DC2626"; "#FFFFFF"; "#F1F5F9"]);
    ("education", ["#2563EB"; "#FBBF24"; "#10B981"; "#DBEAFE"]);
    ("creative", ["#8B5CF6"; "#EC4899"; "#F59E0B"; "#F3E8FF"]);
    ("hospitality", ["#0EA5E9"; "#F5F5DC"; "#10B981"; "#E0F2FE"]) ].

Definition get_fallback_colors (business_type : string) : list string :=
  match dict_get business_type fallback_palettes with
  | Some palette => palette
  | None => ["#3B82F6"; "#FFFFFF"; "#1F2937"]
  end.

End content_extractor.

(* ------------------------------------------------------------------ *)
(** ** app/services/template_generator_premium.py: what the caller keeps

    [generate_templates_for_business] runs the three modules and gathers
    their results in the dict [business_data]; the rest of that function
    (database, media search, the generative model) lies beyond this
    development.  The entries below are the expressions of that dict which
    read the extraction. *)

Module template_generator_premium.

Section with_urllib.

Variable resolve : string -> string -> Py.result string.

(** Step 3: [extracted_content] stays the empty dict unless there is HTML
    and the extraction returns; the [except Exception] of the caller logs
    what the extraction raises and goes on.  The empty dict is [None]
    here. *)
Definition extracted_content_of (raw_html website_url : string)
           (business_phone : option string) : option content_extractor.extraction :=
  if PyStr.truthy raw_html
  then
    match content_extractor.extract_business_content resolve raw_html website_url
            business_phone with
    | Py.Return extracted_content => Some extracted_content
    | Py.Raise _ => None
    end
  else None.

End with_urllib.

(** ["extracted_colors": extracted_content.get("colors", []) or
    get_fallback_colors(business_type)]. *)
Definition extracted_colors (extracted_content : option content_extractor.extraction)
           (business_type : string) : list string :=
  match match extracted_content with
        | Some e => content_extractor.colors e
        | None => []
        end with
  | [] => content_extractor.get_fallback_colors business_type
  | found => found
  end.

(** [a or b] for two optional strings: the first that is neither [None]
    nor empty, else the second. *)
Definition or_else (a b : option string) : option string :=
  if content_extractor.truthy_opt a then a else b.

(** ["phone": extracted_content.get("contact", {}).get("phone") or
    business.phone or ""]. *)
Definition contact_phone (extracted_content : option content_extractor.extraction)
           (business_phone : option string) : string :=
  match or_else
          (or_else
             (match extracted_content with
              | Some e => content_extractor.phone (content_extractor.contact e)
              | None => None
              end)
             business_phone)
          (Some "") with
  | Some p => p
  | None => ""
  end.

End template_generator_premium.

(* ------------------------------------------------------------------ *)
(** ** app/services/premium_template_builder.py: the theme colours *)

Module premium_template_builder.




End premium_template_builder.

(* ================================================================== *)
(** * Part II: the specification's side *)

(* ------------------------------------------------------------------ *)
(** ** Quantities of the specification

    The quantities the specification speaks of, written after its words;
    the statements below compare them with what the code computes. *)

Module Spec.
Import PyData.

(** *** Gap report *)

(** "weights: mobile 0.30, design 0.20, seo 0.25, performance 0.15,
    missing-sections 0.10", as exact rationals. *)
Definition weighted_sum (mobile design seo performance missing : Z) : Q :=
  ((30 # 100) * inject_Z mobile + (20 # 100) * inject_Z design
   + (25 # 100) * inject_Z seo + (15 # 100) * inject_Z performance
   + (10 # 100) * inject_Z missing)%Q.

Definition clamp (lo hi q : Q) : Q :=
  if Qle_bool q lo then lo else if Qle_bool hi q then hi else q.

(** "the fixed weighted sum of the five sub-scores, clamped to [0,100]". *)
Definition aggregate (mobile design seo performance missing : Z) : Q :=
  clamp (inject_Z 0) (inject_Z 100) (weighted_sum mobile design seo performance missing).

(** The aggregate of a report's own five sub-scores. *)
Definition aggregate_of (r : gap_analyzer.gap_report) : Q :=
  aggregate (gap_analyzer.score (gap_analyzer.mobile r))
            (gap_analyzer.score (gap_analyzer.design r))
            (gap_analyzer.score (gap_analyzer.seo r))
            (gap_analyzer.score (gap_analyzer.performance r))
            (gap_analyzer.score (gap_analyzer.missing_sections r)).

(** "a sub-report whose severity tier is high or critical". *)
Definition is_priority (tier : string) : bool := mem tier ["high"; "critical"].

(** The priority gaps as a function of the named tiers alone. *)
Definition priority_gaps_of (tiers : list (string * string)) : list string :=
  map fst (filter (fun nt => is_priority (snd nt)) tiers).

(** The names under which the five sub-reports enter [priority_gaps],
    each with its tier. *)
Definition tiers_of (r : gap_analyzer.gap_report) : list (string * string) :=
  [ ("mobile_responsiveness", gap_analyzer.severity (gap_analyzer.mobile r));
    ("modern_design", gap_analyzer.severity (gap_analyzer.design r));
    ("seo_optimization", gap_analyzer.severity (gap_analyzer.seo r));
    ("performance", gap_analyzer.severity (gap_analyzer.performance r));
    ("key_sections", gap_analyzer.severity (gap_analyzer.missing_sections r)) ].

(** "starting from a score of 100 and subtracting fixed per-issue
    penalties, floored at 0": the score that a list of issues yields
    under a table [penalty] of penalties. *)
Definition total (penalty : string -> Z) (issues : list string) : Z :=
  fold_right (fun i t => (penalty i + t)%Z) 0%Z issues.

Definition penalty_score (penalty : string -> Z) (issues : list string) : Z :=
  Z.max 0 (100 - total penalty issues).

(** The penalty tables of the four subtracting checks, by issue text. *)
Definition mobile_penalty (issue : string) : Z :=
  if String.eqb issue "Missing viewport meta tag for mobile devices" then 40
  else if String.eqb issue "No CSS media queries detected (likely not responsive)" then 30
  else if String.eqb issue "No mobile-friendly CSS framework detected" then 20
  else 0.

Definition seo_penalty (issue : string) : Z :=
  if PyStr.contains issue " images missing alt attributes" then 15
  else if String.eqb issue "Missing or too-short title tag" then 20
  else if String.eqb issue "Title tag too long (>60 chars)" then 5
  else if String.eqb issue "Missing meta description" then 20
  else if String.eqb issue "No H1 heading found" then 15
  else if String.eqb issue "Multiple H1 headings (should be only one)" then 5
  else if String.eqb issue "No H2 headings found (poor content structure)" then 10
  else if String.eqb issue "No schema.org structured data found" then 15
  else 0.

Definition performance_penalty (issue : string) : Z :=
  if PyStr.startswith issue "Large HTML size (" then 20
  else if PyStr.startswith issue "Moderate HTML size (" then 10
  else if PyStr.startswith issue "Many external scripts (" then 15
  else if PyStr.startswith issue "Many external stylesheets (" then 10
  else if String.eqb issue "No lazy loading detected for images" then 10
  else if String.eqb issue "HTML not minified (contains comments/excess whitespace)" then 10
  else 0.

Definition missing_penalty (issue : string) : Z :=
  if PyStr.startswith issue "Missing business-specific: " then 10
  else if PyStr.startswith issue "Missing " then 15
  else 0.

(** Section 4.4 on design modernity: "+10 per detected modern feature and -15
    per detected outdated feature, net score clamped to [0,100]". *)
Definition design_score (modern outdated : Z) : Z :=
  Z.max 0 (Z.min 100 (10 * modern - 15 * outdated)).

(** *** Classifier *)

(** The winning score: the largest of the twelve category scores. *)
Definition winning_score (category website_text business_name : string) : Z :=
  business_classifier.max_value
    (business_classifier.category_scores_of
       (business_classifier.search_text_of category website_text business_name)
       website_text).

(** The taxonomy of section 3: twelve niches. *)
Definition taxonomy : list string :=
  ["restaurant"; "professional"; "home_services"; "health_medical"; "beauty_wellness";
   "fitness"; "retail"; "real_estate"; "automotive"; "education"; "creative";
   "hospitality"].

(** "one of the twelve fixed taxonomy entries or general". *)
Definition known_types : list string := taxonomy ++ ["general"].

(** *** Extractor *)

Definition is_hex_digit (c : ascii) : bool :=
  PyStr.isdigit c || PyStr.between 65 70 c || PyStr.between 97 102 c.

Fixpoint all_chars (p : ascii -> bool) (s : string) : bool :=
  match s with
  | EmptyString => true
  | String c s' => p c && all_chars p s'
  end.

(** "a well-formed 6-digit hex code of the form #RRGGBB". *)
Definition well_formed_hex6 (color : string) : bool :=
  match color with
  | String "#" digits => Nat.eqb (String.length digits) 6 && all_chars is_hex_digit digits
  | _ => false
  end.

(** "pure white, pure black, or their abbreviated forms". *)
Definition pure_white_or_black (color : string) : bool :=
  mem color ["#FFFFFF"; "#000000"; "#FFF"; "#000"].

(** The three components of a colour of the form #RRGGBB. *)
Definition components (color : string) : option (Z * Z * Z) :=
  if well_formed_hex6 color then
    match PyStr.int16 (PyStr.slice 1 3 color), PyStr.int16 (PyStr.slice 3 5 color),
          PyStr.int16 (PyStr.slice 5 7 color) with
    | Some r, Some g, Some b => Some (r, g, b)
    | _, _, _ => None
    end
  else None.

(** "componentwise >250 or <5". *)
Definition near_white_or_black (color : string) : bool :=
  match components color with
  | Some (r, g, b) =>
      ((250 <? r) && (250 <? g) && (250 <? b) || (r <? 5) && (g <? 5) && (b <? 5))%Z
  | None => false
  end.

(** "an ordered list of phone-number patterns (first match wins)": the
    first match of the first pattern, in order, that matches at all. *)
Fixpoint first_pattern_match (patterns : list Re.regex) (html_content : string)
  : option string :=
  match patterns with
  | [] => None
  | pattern :: rest =>
      match Re.findall Re.NOFLAGS pattern html_content with
      | first :: _ => Some first
      | [] => first_pattern_match rest html_content
      end
  end.

(** The claim on the phone field: pattern extraction first, the known
    number "only as a fallback when pattern extraction finds no phone". *)
Definition phone_with_fallback (html_content : string) (known : option string)
  : option string :=
  match first_pattern_match content_extractor.phone_patterns html_content with
  | Some found => Some found
  | None => known
  end.

(** What the code does instead: the known number, when there is one,
    comes first. *)
Definition phone_known_first (html_content : string) (known : option string)
  : option string :=
  if content_extractor.truthy_opt known then known
  else phone_with_fallback html_content known.

(** "skipping URLs that look like tracking pixels or icons". *)
Definition looks_like_pixel_or_icon (src : string) : bool :=
  PyStr.any_in ["icon"; "pixel"; "track"; "1x1"; "spacer"] (PyStr.lower src).

(** An image match that is not skipped. *)
Definition kept (m : Re.rmatch) : bool :=
  negb (looks_like_pixel_or_icon (Re.group 1 m)).


(** *** Scenario E: the empty page *)

(** The extraction in which nothing was found; the phone is the known
    number as it was passed in. *)
Definition empty_extraction (known : option string) : content_extractor.extraction :=
  {| content_extractor.colors := [];
     content_extractor.logos := [];
     content_extractor.text_content :=
       {| content_extractor.full_text := "";
          content_extractor.about := "";
          content_extractor.services := "";
          content_extractor.contact_section := "" |};
     content_extractor.contact :=
       {| content_extractor.phone := known;
          content_extractor.email := None;
          content_extractor.address := None |};
     content_extractor.images := [];
     content_extractor.metadata :=
       {| content_extractor.total_colors_found := 0;
          content_extractor.total_images_found := 0;
          content_extractor.has_logo := false;
          content_extractor.has_about_section := false;
          content_extractor.has_services_section := false;
          content_extractor.has_contact_info := content_extractor.truthy_opt known |} |}.

(** A gap report that is empty: no issue, no priority gap, no
    recommendation. *)
Definition blank (r : gap_analyzer.gap_report) : bool :=
  match gap_analyzer.priority_gaps r, gap_analyzer.recommendations r with
  | [], [] => Nat.eqb (gap_analyzer.total_issues r) 0
  | _, _ => false
  end.

(** The sections that the table of business-specific sections holds for
    a business type (none for a type outside the table). *)
Definition specific_sections (business_type : string) : list string :=
  match dict_get business_type gap_analyzer.business_specific with
  | Some sections => map fst sections
  | None => []
  end.

(** The report of a page on which no detector fires. *)
Definition empty_page_report (business_type : string) : gap_analyzer.gap_report :=
  let specific := specific_sections business_type in
  {| gap_analyzer.overall_score := match specific with [] => 25 | _ => 22 end;
     gap_analyzer.priority_gaps :=
       ["mobile_responsiveness"; "modern_design"; "seo_optimization"; "key_sections"];
     gap_analyzer.mobile :=
       {| gap_analyzer.score := 10;
          gap_analyzer.details :=
            {| gap_analyzer.has_viewport := false;
               gap_analyzer.has_media_queries := false;
               gap_analyzer.has_mobile_framework := false |};
          gap_analyzer.issues :=
            ["Missing viewport meta tag for mobile devices";
             "No CSS media queries detected (likely not responsive)";
             "No mobile-friendly CSS framework detected"];
          gap_analyzer.severity := "critical" |};
     gap_analyzer.design :=
       {| gap_analyzer.score := 0;
          gap_analyzer.details :=
            {| gap_analyzer.modern_indicators := 0;
               gap_analyzer.outdated_indicators := 0 |};
          gap_analyzer.issues :=
            ["Very few modern CSS features detected";
             "Design appears basic/minimal (not necessarily bad, but could be enhanced)"];
          gap_analyzer.severity := "critical" |};
     gap_analyzer.seo :=
       {| gap_analyzer.score := 20;
          gap_analyzer.details :=
            {| gap_analyzer.has_title := false;
               gap_analyzer.has_meta_description := false;
               gap_analyzer.h1_count := 0;
               gap_analyzer.has_schema := false;
               gap_analyzer.images_without_alt := 0 |};
          gap_analyzer.issues :=
            ["Missing or too-short title tag"; "Missing meta description";
             "No H1 heading found"; "No H2 headings found (poor content structure)";
             "No schema.org structured data found"];
          gap_analyzer.severity := "high" |};
     gap_analyzer.performance :=
       {| gap_analyzer.score := 90;
          gap_analyzer.details :=
            {| gap_analyzer.page_size_kb := 0%float;
               gap_analyzer.script_count := 0;
               gap_analyzer.stylesheet_count := 0;
               gap_analyzer.has_lazy_loading := false;
               gap_analyzer.is_minified := true |};
          gap_analyzer.issues := ["No lazy loading detected for images"];
          gap_analyzer.severity := "low" |};
     gap_analyzer.missing_sections :=
       {| gap_analyzer.score := 40 - 10 * Z.of_nat (List.length specific);
          gap_analyzer.details :=
            {| gap_analyzer.missing_sections_count := 4 + List.length specific |};
          gap_analyzer.issues :=
            ["Missing contact form"; "Missing testimonials"; "Missing about";
             "Missing call to action"]
            ++ map (fun section =>
                      ("Missing business-specific: " ++ gap_analyzer.unscore section)%string)
                   specific;
          gap_analyzer.severity := "high" |};
     gap_analyzer.recommendations :=
       ["Implement mobile-first responsive design with proper viewport and media queries";
        "Modernize design with flexbox/grid layouts, contemporary colors, and smooth animations";
        "Add proper meta tags, structured headings, schema.org markup, and image alt text";
        ("Add missing sections important for " ++ business_type ++ " businesses")%string];
     gap_analyzer.gap_count := 4;
     gap_analyzer.total_issues := 15 + List.length specific |}.

End Spec.

(* ------------------------------------------------------------------ *)
(** ** Auxiliary notions of the proofs *)

Module Aux.

(** The integers [lo, lo+1, ..., lo+n-1]. *)
Definition zrange (lo : Z) (n : nat) : list Z :=
  map (fun i => (lo + Z.of_nat i)%Z) (seq 0 n).

(** A score on the grid 0, 5, 10, ..., 100. *)
Definition on_grid (z : Z) : Prop := exists k : Z, (0 <= k <= 20)%Z /\ z = (5 * k)%Z.

(** The float that is exactly [n/4]. *)
Definition q4 (n : Z) : float := PrimFloat.div (PyFloat.of_int n) (PyFloat.of_int 4).

(** The five products of the weighted sum are exact on the grid. *)
Definition products_exact (k : Z) : bool :=
  PrimFloat.Leibniz.eqb (PyFloat.of_int (5 * k) * 0.30)%float (q4 (6 * k))
  && PrimFloat.Leibniz.eqb (PyFloat.of_int (5 * k) * 0.20)%float (q4 (4 * k))
  && PrimFloat.Leibniz.eqb (PyFloat.of_int (5 * k) * 0.25)%float (q4 (5 * k))
  && PrimFloat.Leibniz.eqb (PyFloat.of_int (5 * k) * 0.15)%float (q4 (3 * k))
  && PrimFloat.Leibniz.eqb (PyFloat.of_int (5 * k) * 0.10)%float (q4 (2 * k)).

(** Sums of quarters in the range of the weighted sum are exact. *)
Definition sums_exact (a : Z) : bool :=
  forallb (fun b => PrimFloat.Leibniz.eqb (q4 a + q4 b)%float (q4 (a + b)))
          (zrange 0 101).

(** [int] of a quarter is its integer part. *)
Definition trunc_exact (n : Z) : bool := (PyFloat.to_int (q4 n) =? n / 4)%Z.

(** The loop invariant of a subtracting check: the running score is 100
    less the penalties of the issues recorded so far, it is a multiple
    of five, and it lies between [lo] and 100. *)
Definition tracks (penalty : string -> Z) (lo : Z) (st : gap_analyzer.acc) : Prop :=
  snd st = (100 - Spec.total penalty (fst st))%Z
  /\ (exists k : Z, snd st = (5 * k)%Z)
  /\ (lo <= snd st <= 100)%Z.

(** A penalty the invariant admits: a non-negative multiple of five. *)
Definition fair (pts : Z) : bool := ((0 <=? pts) && (pts mod 5 =? 0))%Z.

(** The confidence that [classify_business] reports for a winning
    score: the curve, rounded to two places. *)
Definition reported (s : Z) : float :=
  PyFloat.round (business_classifier.confidence_of s) 2.

(** The bands of the confidence curve, as one test on a winning score. *)
Definition in_band (s : Z) : bool :=
  let c := reported s in
  (PrimFloat.leb 0 c && PrimFloat.leb c 1)
  && (if (30 <=? s)%Z then PrimFloat.leb 0.70 c && PrimFloat.leb c 0.95
      else if (20 <=? s)%Z then PrimFloat.leb 0.70 c && PrimFloat.leb c 0.88
      else if (10 <=? s)%Z then PrimFloat.leb 0.50 c && PrimFloat.leb c 0.68
      else PrimFloat.ltb c 0.5).

(** The largest score a category can reach: eleven primary keywords,
    fifteen secondary ones and six indicators at most. *)
Definition score_bound : Z := 11 * 10 + 15 * 3 + 6 * 5.

(** The sizes of the keyword tables stay within that bound. *)
Definition table_sizes_ok : bool :=
  forallb
    (fun kv =>
       Nat.leb (List.length (business_classifier.primary (snd kv))) 11
       && Nat.leb (List.length (business_classifier.secondary (snd kv))) 15
       && Nat.leb (List.length
                     (match PyData.dict_get (fst kv)
                              business_classifier.CONFIDENCE_INDICATORS with
                      | Some l => l
                      | None => []
                      end)) 6)
    business_classifier.CATEGORY_KEYWORDS.

End Aux.

(* ------------------------------------------------------------------ *)
(** ** Notions used to state the further properties of Part IV *)

Module Behaviour.
Import PyData.

(** The thresholds of the severity tiers, as functions of a score. *)
Definition mobile_tier_of (score : Z) : string :=
  if (score <? 40)%Z then "critical" else if (score <? 70)%Z then "high" else "medium".

Definition design_tier_of (score : Z) : string :=
  if (score <? 30)%Z then "critical"
  else if (score <? 60)%Z then "high"
  else if (score <? 80)%Z then "medium" else "low".

Definition common_tier_of (score : Z) : string :=
  if (score <? 50)%Z then "high" else if (score <? 75)%Z then "medium" else "low".

(** [1] for a true condition, [0] for a false one. *)
Definition count_if (b : bool) : Z := if b then 1%Z else 0%Z.

(** The recommendations as the source appends them, over the five tests
    on the tiers and the two on the scores. *)
Definition recommendations_from (business_type : string) (b1 b2 b3 b4 b5 c1 c3 : bool)
  : list string * list string :=
  let priority_gaps :=
    PyData.append_if b5 "key_sections"
      (PyData.append_if b4 "performance"
         (PyData.append_if b3 "seo_optimization"
            (PyData.append_if b2 "modern_design"
               (PyData.append_if b1 "mobile_responsiveness" [])))) in
  (priority_gaps,
   PyData.append_if (c3 && negb (PyData.mem "seo_optimization" priority_gaps))
     "Minor SEO enhancements recommended"
     (PyData.append_if (c1 && negb (PyData.mem "mobile_responsiveness" priority_gaps))
        "Minor mobile responsiveness improvements needed"
        (PyData.append_if (PyData.mem "key_sections" priority_gaps)
           ("Add missing sections important for " ++ business_type ++ " businesses")%string
           (PyData.append_if (PyData.mem "performance" priority_gaps)
              "Optimize loading speed with lazy loading, minification, and reduced external resources"
              (PyData.append_if (PyData.mem "seo_optimization" priority_gaps)
                 "Add proper meta tags, structured headings, schema.org markup, and image alt text"
                 (PyData.append_if (PyData.mem "modern_design" priority_gaps)
                    "Modernize design with flexbox/grid layouts, contemporary colors, and smooth animations"
                    (PyData.append_if (PyData.mem "mobile_responsiveness" priority_gaps)
                       "Implement mobile-first responsive design with proper viewport and media queries"
                       []))))))).

(** All 256 characters. *)
Definition all_ascii : list ascii := map ascii_of_nat (seq 0 256).

(** A text without upper-case letters. *)
Definition no_upper (w : string) : bool :=
  Spec.all_chars (fun c => negb (PyStr.isupper c)) w.

(** Under IGNORECASE a literal that is not an upper-case letter matches a
    character exactly when it equals the lowered character. *)
Definition literal_agrees (a x : ascii) : bool :=
  PyStr.isupper a
  || Bool.eqb (Re.item_match Re.IGNORECASE (Re.Lit a) x) (Ascii.eqb a (PyStr.lower_char x)).

(** [true] when a search has found a match. *)
Definition hit {A : Type} (o : option A) : bool :=
  match o with Some _ => true | None => false end.

(** Whether a value of the dict [outdated_features] fires on a page. *)
Definition fires (html_content : string) (v : Re.regex + bool) : bool :=
  match v with
  | inr b => b
  | inl pattern => Re.found Re.IGNORECASE pattern html_content
  end.

(** The fallback record of the classifier. *)
Definition fallback : business_classifier.classification :=
  {| business_classifier.primary_type := "general";
     business_classifier.confidence := 0%float;
     business_classifier.secondary_tags := [];
     business_classifier.matched_keywords := [];
     business_classifier.warning := Some "Could not classify business type" |}.

(** The secondary tags that the loop over [SECONDARY_TAGS[primary_type]]
    collects, before duplicates are removed. *)
Definition tags_found (search_text primary_type : string) : list string :=
  match dict_get primary_type business_classifier.SECONDARY_TAGS with
  | Some tags =>
      fold_left
        (fun acc tk =>
           if existsb (PyStr.contains search_text) (snd tk)
           then acc ++ [fst tk] else acc)
        tags []
  | None => []
  end.

(** The band of the confidence curve a score falls in. *)
Definition band (s : Z) : Z :=
  if (30 <=? s)%Z then 3 else if (20 <=? s)%Z then 2 else if (10 <=? s)%Z then 1 else 0.

(** Two scores of one band, the first not above the second, are reported
    in that order. *)
Definition monotone_pair (a b : Z) : bool :=
  negb ((a <=? b)%Z && (band a =? band b)%Z)
  || PrimFloat.leb (Aux.reported a) (Aux.reported b).

(** The highest score among the categories, for the three inputs of the
    classifier. *)
Definition top_score (category website_text business_name : string) : Z :=
  business_classifier.max_value
    (business_classifier.category_scores_of
       (business_classifier.search_text_of category website_text business_name)
       website_text).

(** A text without the underscore. *)
Definition no_underscore (s : string) : bool :=
  Spec.all_chars (fun c => negb (Ascii.eqb c "_")) s.

(** Facts on the case of one character: lowering is idempotent, and
    changing the case of a character other than the underscore never
    yields an underscore. *)
Definition case_facts (c : ascii) : bool :=
  Ascii.eqb (PyStr.lower_char (PyStr.lower_char c)) (PyStr.lower_char c)
  && (Ascii.eqb c "_"
      || negb (Ascii.eqb (PyStr.lower_char c) "_") && negb (Ascii.eqb (PyStr.upper_char c) "_")).

End Behaviour.

(* ================================================================== *)
(** * Part III: statements and proofs *)

Local Open Scope string_scope.
Local Open Scope list_scope.
(* ------------------------------------------------------------------ *)
(** ** Severity tiers of the five checks *)

Section Tiers.
Import gap_analyzer.

Variable html_content : string.

Lemma mobile_tier :
  In (severity (check_mobile_responsiveness html_content)) ["critical"; "high"; "medium"].
Proof.
  unfold check_mobile_responsiveness; cbn [severity].
  repeat match goal with |- context [if ?b then _ else _] => destruct b end;
    cbn; auto.
Qed.

Lemma design_tier :
  In (severity (check_design_modernity html_content))
     ["critical"; "high"; "medium"; "low"].
Proof.
  unfold check_design_modernity.
  destruct (fold_left _ (outdated_features _) _) as [o iss].
  cbn [severity].
  repeat match goal with |- context [if (?a <? ?b)%Z then _ else _] =>
                           destruct (a <? b)%Z end;
    cbn; auto.
Qed.

Lemma seo_tier (business_name : string) :
  In (severity (check_seo_basics html_content business_name)) ["high"; "medium"; "low"].
Proof.
  unfold check_seo_basics; cbn [severity].
  repeat match goal with |- context [if (?a <? ?b)%Z then _ else _] =>
                           destruct (a <? b)%Z end;
    cbn; auto.
Qed.

Lemma performance_tier :
  In (severity (check_performance_indicators html_content)) ["high"; "medium"; "low"].
Proof.
  unfold check_performance_indicators; cbn [severity].
  repeat match goal with |- context [if (?a <? ?b)%Z then _ else _] =>
                           destruct (a <? b)%Z end;
    cbn; auto.
Qed.

Lemma missing_tier (business_type : string) :
  In (severity (check_missing_sections html_content business_type))
     ["high"; "medium"; "low"].
Proof.
  unfold check_missing_sections; cbn [severity].
  repeat match goal with |- context [if (?a <? ?b)%Z then _ else _] =>
                           destruct (a <? b)%Z end;
    cbn; auto.
Qed.

End Tiers.

(* ------------------------------------------------------------------ *)
(** ** Priority gaps and tiers of the whole report *)

Section Report.
Import gap_analyzer PyData.

Variables html_content business_name business_type : string.

(** The five sub-reports of the overall report are the results of the
    five checks. *)
Lemma report_mobile :
  mobile (analyze_website_gaps html_content business_name business_type)
  = check_mobile_responsiveness html_content.
Proof. reflexivity. Qed.

Lemma report_design :
  design (analyze_website_gaps html_content business_name business_type)
  = check_design_modernity html_content.
Proof. reflexivity. Qed.

Lemma report_seo :
  seo (analyze_website_gaps html_content business_name business_type)
  = check_seo_basics html_content business_name.
Proof. reflexivity. Qed.

Lemma report_performance :
  performance (analyze_website_gaps html_content business_name business_type)
  = check_performance_indicators html_content.
Proof. reflexivity. Qed.

Lemma report_missing :
  missing_sections (analyze_website_gaps html_content business_name business_type)
  = check_missing_sections html_content business_type.
Proof. reflexivity. Qed.

(** The five appends of the source, read off the report. *)
Lemma report_priority_gaps :
  priority_gaps (analyze_website_gaps html_content business_name business_type)
  = append_if
      (String.eqb (severity (check_missing_sections html_content business_type)) "high")
      "key_sections"
      (append_if
         (String.eqb (severity (check_performance_indicators html_content)) "high")
         "performance"
         (append_if
            (String.eqb (severity (check_seo_basics html_content business_name)) "high")
            "seo_optimization"
            (append_if
               (mem (severity (check_design_modernity html_content)) ["critical"; "high"])
               "modern_design"
               (append_if
                  (mem (severity (check_mobile_responsiveness html_content))
                       ["critical"; "high"])
                  "mobile_responsiveness" [])))).
Proof. reflexivity. Qed.

Lemma report_overall :
  overall_score (analyze_website_gaps html_content business_name business_type)
  = weighted (score (check_mobile_responsiveness html_content))
             (score (check_design_modernity html_content))
             (score (check_seo_basics html_content business_name))
             (score (check_performance_indicators html_content))
             (score (check_missing_sections html_content business_type)).
Proof. reflexivity. Qed.

End Report.

Ltac split_tier H :=
  repeat (destruct H as [H | H]; [symmetry in H | ]); try contradiction.

(** C4: the priority gaps of a report are exactly the sub-reports whose
    severity tier is "high" or "critical", under the names
    mobile_responsiveness, modern_design, seo_optimization, performance and
    key_sections and in that order; the list is a function of the five tiers
    alone ([Spec.priority_gaps_of] reads nothing else). *)
Theorem C4_priority_gaps_from_tiers :
  forall html_content business_name business_type : string,
    let r := gap_analyzer.analyze_website_gaps html_content business_name business_type in
    gap_analyzer.priority_gaps r = Spec.priority_gaps_of (Spec.tiers_of r).
Proof.
  intros h n t r; subst r.
  rewrite (report_priority_gaps h n t).
  unfold Spec.tiers_of.
  rewrite (report_mobile h n t), (report_design h n t), (report_seo h n t),
    (report_performance h n t), (report_missing h n t).
  pose proof (mobile_tier h) as Hm.
  pose proof (design_tier h) as Hd.
  pose proof (seo_tier h n) as Hs.
  pose proof (performance_tier h) as Hp.
  pose proof (missing_tier h t) as Hx.
  generalize dependent (gap_analyzer.severity (gap_analyzer.check_mobile_responsiveness h)).
  generalize dependent (gap_analyzer.severity (gap_analyzer.check_design_modernity h)).
  generalize dependent (gap_analyzer.severity (gap_analyzer.check_seo_basics h n)).
  generalize dependent (gap_analyzer.severity (gap_analyzer.check_performance_indicators h)).
  generalize dependent (gap_analyzer.severity (gap_analyzer.check_missing_sections h t)).
  intros sx Hx sp Hp ss Hs sd Hd sm Hm.
  split_tier Hm; split_tier Hd; split_tier Hs; split_tier Hp; split_tier Hx;
    subst; reflexivity.
Qed.

(** C10: the seo, performance and missing_sections sub-reports always carry
    one of the tiers "high", "medium", "low", hence never "critical"; the
    mobile and the design sub-report do reach "critical" (both on the empty
    page). *)
Theorem C10_critical_only_mobile_and_design :
  (forall html_content business_name business_type : string,
     let r := gap_analyzer.analyze_website_gaps html_content business_name business_type in
     (In (gap_analyzer.severity (gap_analyzer.seo r)) ["high"; "medium"; "low"]
      /\ In (gap_analyzer.severity (gap_analyzer.performance r)) ["high"; "medium"; "low"]
      /\ In (gap_analyzer.severity (gap_analyzer.missing_sections r))
            ["high"; "medium"; "low"])
     /\ gap_analyzer.severity (gap_analyzer.seo r) <> "critical"
     /\ gap_analyzer.severity (gap_analyzer.performance r) <> "critical"
     /\ gap_analyzer.severity (gap_analyzer.missing_sections r) <> "critical")
  /\ (let r := gap_analyzer.analyze_website_gaps "" "" "general" in
      gap_analyzer.severity (gap_analyzer.mobile r) = "critical"
      /\ gap_analyzer.severity (gap_analyzer.design r) = "critical").
Proof.
  split.
  - intros h n t r; subst r.
    pose proof (seo_tier h n) as Hs. rewrite <- (report_seo h n t) in Hs.
    pose proof (performance_tier h) as Hp.
    rewrite <- (report_performance h n t) in Hp.
    pose proof (missing_tier h t) as Hx.
    rewrite <- (report_missing h n t) in Hx.
    repeat split; try assumption.
    + intro E; rewrite E in Hs; split_tier Hs; discriminate.
    + intro E; rewrite E in Hp; split_tier Hp; discriminate.
    + intro E; rewrite E in Hx; split_tier Hx; discriminate.
  - split; vm_compute; reflexivity.
Qed.

(* ------------------------------------------------------------------ *)
(** ** The weighted sum in binary64 *)

Section Ranges.
Import Aux.

Lemma in_zrange (lo : Z) (n : nat) (z : Z) :
  (lo <= z < lo + Z.of_nat n)%Z -> In z (zrange lo n).
Proof.
  intros H. unfold zrange. apply in_map_iff.
  exists (Z.to_nat (z - lo)). split; [lia | apply in_seq; lia].
Qed.

Lemma forallb_zrange (f : Z -> bool) (lo : Z) (n : nat) :
  forallb f (zrange lo n) = true ->
  forall z, (lo <= z < lo + Z.of_nat n)%Z -> f z = true.
Proof.
  intros H z Hz. rewrite forallb_forall in H. apply H, in_zrange, Hz.
Qed.

Lemma products_exact_all : forallb products_exact (zrange 0 21) = true.
Proof. vm_compute. reflexivity. Qed.

Lemma sums_exact_all : forallb sums_exact (zrange 0 361) = true.
Proof. vm_compute. reflexivity. Qed.

Lemma trunc_exact_all : forallb trunc_exact (zrange 0 401) = true.
Proof. vm_compute. reflexivity. Qed.

Lemma q4_add (a b : Z) :
  (0 <= a <= 360)%Z -> (0 <= b <= 100)%Z -> (q4 a + q4 b)%float = q4 (a + b).
Proof.
  intros Ha Hb.
  pose proof (forallb_zrange _ _ _ sums_exact_all a ltac:(lia)) as H.
  unfold sums_exact in H.
  pose proof (forallb_zrange _ _ _ H b ltac:(lia)) as H'.
  apply FloatAxioms.Leibniz.eqb_spec in H'. exact H'.
Qed.

(** On the grid the evaluation in binary64 loses nothing: the result is
    the integer part of the exact sum. *)
Lemma weighted_on_grid (k1 k2 k3 k4 k5 : Z) :
  (0 <= k1 <= 20)%Z -> (0 <= k2 <= 20)%Z -> (0 <= k3 <= 20)%Z ->
  (0 <= k4 <= 20)%Z -> (0 <= k5 <= 20)%Z ->
  gap_analyzer.weighted (5 * k1) (5 * k2) (5 * k3) (5 * k4) (5 * k5)
  = ((6 * k1 + 4 * k2 + 5 * k3 + 3 * k4 + 2 * k5) / 4)%Z.
Proof.
  intros H1 H2 H3 H4 H5. unfold gap_analyzer.weighted.
  assert (P : forall k, (0 <= k <= 20)%Z -> products_exact k = true)
    by (intros k Hk; apply (forallb_zrange _ _ _ products_exact_all); lia).
  pose proof (P k1 H1) as E1. pose proof (P k2 H2) as E2. pose proof (P k3 H3) as E3.
  pose proof (P k4 H4) as E4. pose proof (P k5 H5) as E5.
  unfold products_exact in *.
  repeat match goal with
         | H : (_ && _)%bool = true |- _ => apply andb_prop in H; destruct H
         | H : PrimFloat.Leibniz.eqb _ _ = true |- _ =>
             apply FloatAxioms.Leibniz.eqb_spec in H
         end.
  repeat match goal with
         | H : (PyFloat.of_int (5 * ?k) * ?w)%float = _ |- context [(PyFloat.of_int (5 * ?k) * ?w)%float] =>
             rewrite H
         end.
  rewrite !q4_add by lia.
  pose proof (forallb_zrange _ _ _ trunc_exact_all
                (6 * k1 + 4 * k2 + 5 * k3 + 3 * k4 + 2 * k5)%Z ltac:(lia)) as T.
  unfold trunc_exact in T. apply Z.eqb_eq in T. exact T.
Qed.

End Ranges.

(* ------------------------------------------------------------------ *)
(** ** The aggregate of the specification *)

Lemma weighted_sum_fraction (m d s p x : Z) :
  (Spec.weighted_sum m d s p x == (30 * m + 20 * d + 25 * s + 15 * p + 10 * x) # 100)%Q.
Proof.
  unfold Spec.weighted_sum, Qeq, Qplus, Qmult, inject_Z. cbn [Qnum Qden].
  rewrite !Pos2Z.inj_mul. ring.
Qed.

Lemma aggregate_floor (m d s p x : Z) :
  (0 <= m <= 100)%Z -> (0 <= d <= 100)%Z -> (0 <= s <= 100)%Z ->
  (0 <= p <= 100)%Z -> (0 <= x <= 100)%Z ->
  Qfloor (Spec.aggregate m d s p x)
  = ((30 * m + 20 * d + 25 * s + 15 * p + 10 * x) / 100)%Z.
Proof.
  intros Hm Hd Hs Hp Hx. unfold Spec.aggregate, Spec.clamp.
  set (n := (30 * m + 20 * d + 25 * s + 15 * p + 10 * x)%Z).
  pose proof (weighted_sum_fraction m d s p x) as E. fold n in E.
  assert (Hn : (0 <= n <= 10000)%Z) by (unfold n; lia).
  clearbody n.
  destruct (Qle_bool _ (inject_Z 0)) eqn:L0.
  - apply Qle_bool_iff in L0. rewrite E in L0.
    unfold Qle, inject_Z in L0; cbn [Qnum Qden] in L0.
    assert (n = 0)%Z by lia. subst n. reflexivity.
  - destruct (Qle_bool (inject_Z 100) _) eqn:L1.
    + apply Qle_bool_iff in L1. rewrite E in L1.
      unfold Qle, inject_Z in L1; cbn [Qnum Qden] in L1.
      assert (n = 10000)%Z by lia. subst n. reflexivity.
    + rewrite (Qfloor_comp _ _ E). reflexivity.
Qed.

(* ------------------------------------------------------------------ *)
(** ** Scores of the subtracting checks *)

Section Tracking.
Import gap_analyzer Aux.

Variable penalty : string -> Z.

Lemma total_snoc (l : list string) (msg : string) :
  Spec.total penalty (l ++ [msg]) = (Spec.total penalty l + penalty msg)%Z.
Proof.
  induction l as [| i l IH]; cbn [Spec.total app fold_right] in *; [lia |].
  fold (Spec.total penalty (l ++ [msg])). fold (Spec.total penalty l).
  rewrite IH. lia.
Qed.

Lemma tracks_start : tracks penalty 100 start.
Proof. unfold tracks; cbn. split; [| split]; try lia. exists 20%Z; reflexivity. Qed.

Lemma tracks_penalize (lo : Z) (st : acc) (msg : string) (pts : Z) :
  tracks penalty lo st -> penalty msg = pts -> fair pts = true ->
  tracks penalty (lo - pts) (penalize msg pts st).
Proof.
  intros (Hs & (k & Hk) & Hlo) Hp Hf.
  unfold fair in Hf. apply andb_prop in Hf. destruct Hf as [H0 H5].
  apply Z.leb_le in H0. apply Z.eqb_eq in H5.
  apply Z.mod_divide in H5; [| lia]. destruct H5 as [j Hj].
  unfold tracks, penalize; cbn [fst snd]. split; [| split].
  - rewrite total_snoc, Hp. lia.
  - exists (k - j)%Z. lia.
  - lia.
Qed.

Lemma tracks_weaken (lo lo' : Z) (st : acc) :
  tracks penalty lo st -> (lo' <= lo)%Z -> tracks penalty lo' st.
Proof. intros (Hs & Hk & Hlo) H. unfold tracks. split; [| split]; try assumption; lia. Qed.

Lemma tracks_penalize_if (lo : Z) (st : acc) (c : bool) (msg : string) (pts : Z) :
  tracks penalty lo st -> penalty msg = pts -> fair pts = true ->
  tracks penalty (lo - pts) (penalize_if c msg pts st).
Proof.
  intros H Hp Hf. unfold penalize_if. destruct c.
  - apply tracks_penalize; assumption.
  - apply (tracks_weaken lo); [assumption |].
    unfold fair in Hf. apply andb_prop in Hf. destruct Hf as [H0 _].
    apply Z.leb_le in H0. lia.
Qed.

Lemma tracks_if (lo1 lo2 : Z) (c : bool) (st1 st2 : acc) :
  tracks penalty lo1 st1 -> tracks penalty lo2 st2 ->
  tracks penalty (Z.min lo1 lo2) (if c then st1 else st2).
Proof.
  intros H1 H2. destruct c; [apply (tracks_weaken lo1) | apply (tracks_weaken lo2)];
    try assumption; lia.
Qed.

(** What the invariant gives at the end of a check. *)
Lemma tracks_score (lo : Z) (st : acc) :
  tracks penalty lo st -> (0 <=? lo)%Z = true ->
  Z.max 0 (snd st) = Spec.penalty_score penalty (fst st)
  /\ on_grid (Z.max 0 (snd st)).
Proof.
  intros (Hs & (k & Hk) & Hlo) H0. apply Z.leb_le in H0.
  unfold Spec.penalty_score. rewrite <- Hs. split; [reflexivity |].
  exists k. lia.
Qed.

End Tracking.

Ltac track :=
  repeat first
    [ apply tracks_start
    | eapply tracks_penalize_if; [ | try reflexivity | reflexivity ]
    | eapply tracks_penalize; [ | try reflexivity | reflexivity ]
    | eapply tracks_if ].

Lemma contains_suffix (x sfx : string) : PyStr.contains (x ++ sfx) sfx = true.
Proof.
  assert (R : forall s, PyStr.startswith s s = true).
  { induction s as [| c s IH]; cbn; [reflexivity |].
    rewrite Ascii.eqb_refl. exact IH. }
  induction x as [| c x IH].
  - cbn [append]. destruct sfx; cbn; [reflexivity |].
    rewrite Ascii.eqb_refl, R. reflexivity.
  - cbn [append PyStr.contains]. fold PyStr.contains. rewrite IH. apply orb_true_r.
Qed.

Section CheckScores.
Import gap_analyzer Aux.

Variable html_content : string.

Lemma mobile_score :
  score (check_mobile_responsiveness html_content)
  = Spec.penalty_score Spec.mobile_penalty
      (issues (check_mobile_responsiveness html_content))
  /\ on_grid (score (check_mobile_responsiveness html_content)).
Proof.
  unfold check_mobile_responsiveness; cbn [score issues].
  eapply tracks_score; [track | reflexivity].
Qed.

Lemma seo_score (business_name : string) :
  score (check_seo_basics html_content business_name)
  = Spec.penalty_score Spec.seo_penalty
      (issues (check_seo_basics html_content business_name))
  /\ on_grid (score (check_seo_basics html_content business_name)).
Proof.
  unfold check_seo_basics; cbn [score issues].
  eapply tracks_score; [track | reflexivity].
  unfold Spec.seo_penalty.
  rewrite contains_suffix. reflexivity.
Qed.

Lemma performance_score :
  score (check_performance_indicators html_content)
  = Spec.penalty_score Spec.performance_penalty
      (issues (check_performance_indicators html_content))
  /\ on_grid (score (check_performance_indicators html_content)).
Proof.
  unfold check_performance_indicators; cbn [score issues].
  eapply tracks_score; [track | reflexivity].
Qed.

Lemma missing_score (business_type : string) :
  score (check_missing_sections html_content business_type)
  = Spec.penalty_score Spec.missing_penalty
      (issues (check_missing_sections html_content business_type))
  /\ on_grid (score (check_missing_sections html_content business_type)).
Proof.
  unfold check_missing_sections; cbn [score issues].
  unfold business_specific, PyData.dict_get.
  repeat match goal with
         | |- context [if String.eqb ?a ?b then _ else _] => destruct (String.eqb a b)
         end;
    cbn [fold_left universal_sections universal_step specific_step fst snd];
    (eapply tracks_score; [track | reflexivity]).
Qed.

Lemma design_score :
  score (check_design_modernity html_content)
  = Spec.design_score
      (modern_indicators (details (check_design_modernity html_content)))
      (outdated_indicators (details (check_design_modernity html_content)))
  /\ on_grid (score (check_design_modernity html_content)).
Proof.
  unfold check_design_modernity.
  destruct (fold_left _ (outdated_features _) _) as [o iss].
  cbn [score details modern_indicators outdated_indicators].
  set (m := fold_left _ modern_features _). clearbody m.
  unfold Spec.design_score. split; [f_equal; f_equal; lia |].
  unfold on_grid.
  destruct (Z.max_spec 0 (Z.min 100 (m * 10 - o * 15))) as [[? E] | [? E]];
    destruct (Z.min_spec 100 (m * 10 - o * 15)) as [[? E'] | [? E']];
    rewrite E; try rewrite E'.
  - exists 20%Z; lia.
  - exists (2 * m - 3 * o)%Z; lia.
  - exists 0%Z; lia.
  - exists 0%Z; lia.
Qed.

End CheckScores.

(* ------------------------------------------------------------------ *)
(** ** The overall score *)

(** On the empty page the five scores are 10, 0, 20, 90 and 40: their
    weighted sum is 25.5, the reported overall score is 25. *)
Lemma C1_overall_is_not_the_weighted_sum :
  let r := gap_analyzer.analyze_website_gaps "" "" "general" in
  gap_analyzer.overall_score r = 25%Z
  /\ (Spec.aggregate_of r == 51 # 2)%Q
  /\ ~ (inject_Z (gap_analyzer.overall_score r) == Spec.aggregate_of r)%Q.
Proof.
  cbv zeta.
  assert (E : gap_analyzer.overall_score
                (gap_analyzer.analyze_website_gaps "" "" "general") = 25%Z)
    by (vm_compute; reflexivity).
  assert (A : (Spec.aggregate_of (gap_analyzer.analyze_website_gaps "" "" "general")
               == 51 # 2)%Q) by (vm_compute; reflexivity).
  split; [exact E | split; [exact A |]].
  rewrite E, A. intro H. vm_compute in H. discriminate H.
Qed.

(** C1 (amended): for every HTML input, business name and business type the
    overall score is the integer part of the fixed weighted sum of the five
    sub-scores (mobile 0.30, design 0.20, seo 0.25, performance 0.15,
    missing-sections 0.10) clamped to [0,100]: [int] truncates the sum, and
    the binary64 evaluation of the source loses nothing on the scores the
    checks produce.  The result lies in [0,100]. *)
Theorem C1_overall_score_is_floor_of_weighted_sum :
  forall html_content business_name business_type : string,
    let r := gap_analyzer.analyze_website_gaps html_content business_name business_type in
    gap_analyzer.overall_score r = Qfloor (Spec.aggregate_of r)
    /\ (0 <= gap_analyzer.overall_score r <= 100)%Z.
Proof.
  intros h n t r; subst r.
  rewrite (report_overall h n t). unfold Spec.aggregate_of.
  rewrite (report_mobile h n t), (report_design h n t), (report_seo h n t),
    (report_performance h n t), (report_missing h n t).
  destruct (mobile_score h) as [_ (k1 & H1 & E1)].
  destruct (design_score h) as [_ (k2 & H2 & E2)].
  destruct (seo_score h n) as [_ (k3 & H3 & E3)].
  destruct (performance_score h) as [_ (k4 & H4 & E4)].
  destruct (missing_score h t) as [_ (k5 & H5 & E5)].
  rewrite E1, E2, E3, E4, E5.
  rewrite weighted_on_grid by assumption.
  rewrite aggregate_floor by lia.
  replace (30 * (5 * k1) + 20 * (5 * k2) + 25 * (5 * k3) + 15 * (5 * k4) + 10 * (5 * k5))%Z
    with ((6 * k1 + 4 * k2 + 5 * k3 + 3 * k4 + 2 * k5) * 25)%Z by ring.
  change 100%Z with (4 * 25)%Z.
  rewrite Z.div_mul_cancel_r by lia.
  split; [reflexivity |].
  split; [apply Z.div_pos; lia | apply Z.div_le_upper_bound; lia].
Qed.

(* ------------------------------------------------------------------ *)
(** ** How the five checks score *)

(** A page with three modern features and nothing outdated has no design
    issue at all, yet its design score is 30, not 100: no table of
    per-issue penalties subtracted from 100 yields the design score. *)
Lemma C5_design_does_not_start_from_100 :
  let d := gap_analyzer.check_design_modernity
             "a { display: flex; transition: all 1s } b { display: grid }" in
  gap_analyzer.issues d = []
  /\ gap_analyzer.score d = 30%Z
  /\ forall penalty : string -> Z,
       gap_analyzer.score d <> Spec.penalty_score penalty (gap_analyzer.issues d).
Proof.
  cbv zeta.
  set (d := gap_analyzer.check_design_modernity _).
  assert (I : gap_analyzer.issues d = []) by (vm_compute; reflexivity).
  assert (S : gap_analyzer.score d = 30%Z) by (vm_compute; reflexivity).
  split; [exact I | split; [exact S |]].
  intros penalty. rewrite I, S. vm_compute. discriminate.
Qed.

(** C5 (amended): the mobile, seo, performance and missing_sections checks
    start from 100 and subtract a fixed penalty per issue they report,
    floored at 0; the design check does not: its score is 10 per modern
    feature less 15 per outdated one, clamped to [0,100]. *)
Theorem C5_scores_of_the_five_checks :
  forall html_content business_name business_type : string,
    let r := gap_analyzer.analyze_website_gaps html_content business_name business_type in
    gap_analyzer.score (gap_analyzer.mobile r)
      = Spec.penalty_score Spec.mobile_penalty (gap_analyzer.issues (gap_analyzer.mobile r))
    /\ gap_analyzer.score (gap_analyzer.seo r)
      = Spec.penalty_score Spec.seo_penalty (gap_analyzer.issues (gap_analyzer.seo r))
    /\ gap_analyzer.score (gap_analyzer.performance r)
      = Spec.penalty_score Spec.performance_penalty
          (gap_analyzer.issues (gap_analyzer.performance r))
    /\ gap_analyzer.score (gap_analyzer.missing_sections r)
      = Spec.penalty_score Spec.missing_penalty
          (gap_analyzer.issues (gap_analyzer.missing_sections r))
    /\ gap_analyzer.score (gap_analyzer.design r)
      = Spec.design_score
          (gap_analyzer.modern_indicators (gap_analyzer.details (gap_analyzer.design r)))
          (gap_analyzer.outdated_indicators (gap_analyzer.details (gap_analyzer.design r))).
Proof.
  intros h n t r; subst r.
  rewrite (report_mobile h n t), (report_design h n t), (report_seo h n t),
    (report_performance h n t), (report_missing h n t).
  repeat split.
  - apply mobile_score.
  - apply seo_score.
  - apply performance_score.
  - apply missing_score.
  - apply design_score.
Qed.

(* ------------------------------------------------------------------ *)
(** ** The classifier: scores *)

Section Scores.
Import business_classifier PyData Aux.

Variables search_text website_text : string.

Lemma keyword_fold_bounds (w : Z) (l : list string) (st : Z * list string) :
  (0 <= w)%Z ->
  (fst st <= fst (fold_left (keyword_step search_text w) l st)
   <= fst st + w * Z.of_nat (List.length l))%Z.
Proof.
  intros Hw. revert st.
  induction l as [| k l IH]; intros st; cbn [fold_left List.length].
  - lia.
  - specialize (IH (keyword_step search_text w st k)).
    unfold keyword_step in *.
    destruct (PyStr.contains search_text k); cbn [fst] in *; lia.
Qed.

Lemma indicator_fold_bounds (l : list string) (n : Z) :
  (n <= fold_left (indicator_step search_text) l n <= n + 5 * Z.of_nat (List.length l))%Z.
Proof.
  revert n. induction l as [| k l IH]; intros n; cbn [fold_left List.length].
  - lia.
  - specialize (IH (indicator_step search_text n k)).
    unfold indicator_step in *.
    destruct (PyStr.contains search_text k); lia.
Qed.

Lemma score_category_bounds (cat_name : string) (kw : keywords) :
  (0 <= fst (score_category search_text website_text cat_name kw)
   <= 10 * Z.of_nat (List.length (primary kw))
      + 3 * Z.of_nat (List.length (secondary kw))
      + 5 * Z.of_nat (List.length
                        (match dict_get cat_name CONFIDENCE_INDICATORS with
                         | Some l => l
                         | None => []
                         end)))%Z.
Proof.
  unfold score_category.
  set (st1 := fold_left (keyword_step search_text 10) (primary kw) (0%Z, [])).
  pose proof (keyword_fold_bounds 10 (primary kw) (0%Z, []) ltac:(lia)) as B1.
  fold st1 in B1. cbn [fst] in B1.
  pose proof (keyword_fold_bounds 3 (secondary kw) st1 ltac:(lia)) as B2.
  set (st2 := fold_left (keyword_step search_text 3) (secondary kw) st1) in *.
  destruct (PyStr.truthy website_text); cbn [fst].
  - pose proof (indicator_fold_bounds
                  (match dict_get cat_name CONFIDENCE_INDICATORS with
                   | Some l => l
                   | None => []
                   end) (fst st2)) as B3.
    lia.
  - lia.
Qed.

Lemma table_sizes : table_sizes_ok = true.
Proof. vm_compute. reflexivity. Qed.

(** Every entry of [category_scores] is a taxonomy name with a score
    between 0 and the bound. *)
Lemma category_scores_entries (name : string) (s : Z) :
  In (name, s) (category_scores_of search_text website_text) ->
  In name get_all_business_types /\ (0 <= s <= score_bound)%Z.
Proof.
  unfold category_scores_of, score_all. rewrite map_map. cbn [fst snd].
  intros H. apply in_map_iff in H. destruct H as ([k kw] & E & Hin).
  cbn [fst snd] in E. apply pair_equal_spec in E. destruct E as [<- <-].
  split.
  - unfold get_all_business_types. apply in_map_iff. exists (k, kw). auto.
  - pose proof table_sizes as T. unfold table_sizes_ok in T.
    rewrite forallb_forall in T. specialize (T _ Hin). cbn [fst snd] in T.
    apply andb_prop in T. destruct T as [T T3]. apply andb_prop in T.
    destruct T as [T1 T2].
    apply Nat.leb_le in T1, T2, T3.
    pose proof (score_category_bounds k kw) as B. unfold score_bound. lia.
Qed.

Lemma category_scores_keys :
  map fst (category_scores_of search_text website_text) = get_all_business_types.
Proof.
  unfold category_scores_of, score_all, get_all_business_types.
  rewrite !map_map. reflexivity.
Qed.

End Scores.

Section Argmax.
Import business_classifier PyData.

Lemma argmax_from_spec (d : list (string * Z)) :
  forall best : string * Z,
  exists kv : string * Z,
    In kv (best :: d) /\ argmax_from best d = fst kv
    /\ snd kv = fold_left (fun m kv => Z.max m (snd kv)) d (snd best).
Proof.
  induction d as [| x d IH]; intros best; cbn [argmax_from fold_left].
  - exists best. cbn. auto.
  - destruct (snd best <? snd x)%Z eqn:L.
    + apply Z.ltb_lt in L. destruct (IH x) as (kv & Hin & Ha & Hv).
      exists kv. split; [right; exact Hin |]. split; [exact Ha |].
      rewrite Hv. f_equal. lia.
    + apply Z.ltb_ge in L. destruct (IH best) as (kv & Hin & Ha & Hv).
      exists kv. split; [destruct Hin; [left | right; right]; assumption |].
      split; [exact Ha |]. rewrite Hv. f_equal. lia.
Qed.

Lemma dict_get_in {V : Type} (d : list (string * V)) (k : string) (v : V) :
  NoDup (map fst d) -> In (k, v) d -> dict_get k d = Some v.
Proof.
  induction d as [| [k' v'] d IH]; intros N Hin; [contradiction |].
  cbn [dict_get]. cbn [map fst] in N. inversion N as [| ? ? Hn N']; subst.
  destruct Hin as [E | Hin].
  - inversion E; subst. rewrite String.eqb_refl. reflexivity.
  - destruct (String.eqb k' k) eqn:Ek.
    + apply String.eqb_eq in Ek. subst k'. exfalso. apply Hn.
      apply in_map_iff. exists (k, v). auto.
    + apply IH; assumption.
Qed.

Lemma max_value_from (d : list (string * Z)) (m : Z) :
  (0 <= m)%Z ->
  fold_left (fun m kv => Z.max m (snd kv)) d m
  = Z.max m (fold_left (fun m kv => Z.max m (snd kv)) d 0%Z).
Proof.
  revert m. induction d as [| x d IH]; intros m Hm; cbn [fold_left]; [lia |].
  rewrite (IH (Z.max m (snd x))) by lia.
  destruct (Z.le_ge_cases 0 (snd x)) as [Hx | Hx].
  - rewrite (IH (Z.max 0 (snd x))) by lia. lia.
  - replace (Z.max 0 (snd x)) with 0%Z by lia. lia.
Qed.

(** The key that [max(d, key=d.get)] returns is a key of [d], and the
    value stored under it is the largest one. *)
Lemma argmax_spec (d : list (string * Z)) :
  d <> [] -> NoDup (map fst d) -> (forall k v, In (k, v) d -> (0 <= v)%Z) ->
  In (argmax d) (map fst d) /\ dict_at 0%Z (argmax d) d = max_value d.
Proof.
  intros Hne N Hpos. destruct d as [| x d]; [contradiction |].
  unfold argmax. destruct (argmax_from_spec d x) as ([k v] & Hin & Ha & Hv).
  cbn [fst snd] in Ha, Hv. rewrite Ha. split.
  - apply in_map_iff. exists (k, v). auto.
  - unfold dict_at. rewrite (dict_get_in _ _ _ N Hin).
    unfold max_value. cbn [fold_left]. rewrite Hv.
    destruct x as [k0 v0]. cbn [snd].
    assert (0 <= v0)%Z by (apply (Hpos k0); left; reflexivity).
    f_equal. lia.
Qed.

Lemma max_value_bounds (d : list (string * Z)) (b : Z) :
  (0 <= b)%Z -> (forall k v, In (k, v) d -> (0 <= v <= b)%Z) ->
  (0 <= max_value d <= b)%Z.
Proof.
  intros Hb H. unfold max_value.
  assert (G : forall m, (0 <= m <= b)%Z ->
                        (0 <= fold_left (fun m kv => Z.max m (snd kv)) d m <= b)%Z).
  { induction d as [| [k v] d IH]; intros m Hm; cbn [fold_left]; [exact Hm |].
    apply IH.
    - intros k' v' Hin. apply (H k'). right. exact Hin.
    - cbn [snd]. specialize (H k v (or_introl eq_refl)). lia. }
  apply G. lia.
Qed.

Lemma max_value_zero (d : list (string * Z)) :
  (forall k v, In (k, v) d -> v = 0%Z) -> max_value d = 0%Z.
Proof.
  intros H.
  assert (B : (0 <= max_value d <= 0)%Z).
  { apply max_value_bounds; [lia |]. intros k v Hin. rewrite (H k v Hin). lia. }
  lia.
Qed.

End Argmax.

(* ------------------------------------------------------------------ *)
(** ** The classifier: confidence and primary type *)

Section Confidence.
Import business_classifier PyData Aux.

Lemma in_band_all : forallb in_band (zrange 0 186) = true.
Proof. vm_compute. reflexivity. Qed.

Lemma in_band_upto_bound (s : Z) : (0 <= s <= score_bound)%Z -> in_band s = true.
Proof.
  intros H. apply (forallb_zrange _ _ _ in_band_all). unfold score_bound in H. lia.
Qed.

Lemma taxonomy_is_the_table : get_all_business_types = Spec.taxonomy.
Proof. reflexivity. Qed.

Lemma taxonomy_nodup : NoDup get_all_business_types.
Proof.
  assert (E : nodup string_dec get_all_business_types = get_all_business_types)
    by (vm_compute; reflexivity).
  rewrite <- E. apply NoDup_nodup.
Qed.

Lemma below_ten_is_linear (s : Z) :
  (s < 10)%Z -> confidence_of s = (PyFloat.of_int s * 0.05)%float.
Proof.
  intros H. unfold confidence_of.
  replace (30 <=? s)%Z with false by (symmetry; apply Z.leb_gt; lia).
  replace (20 <=? s)%Z with false by (symmetry; apply Z.leb_gt; lia).
  replace (10 <=? s)%Z with false by (symmetry; apply Z.leb_gt; lia).
  reflexivity.
Qed.

(** The bands, read off the one test [in_band]. *)
Lemma bands_of_in_band (s : Z) :
  in_band s = true ->
  let c := reported s in
  (PrimFloat.leb 0 c = true /\ PrimFloat.leb c 1 = true)
  /\ ((30 <= s)%Z -> PrimFloat.leb 0.70 c = true /\ PrimFloat.leb c 0.95 = true)
  /\ ((20 <= s <= 29)%Z -> PrimFloat.leb 0.70 c = true /\ PrimFloat.leb c 0.88 = true)
  /\ ((10 <= s <= 19)%Z -> PrimFloat.leb 0.50 c = true /\ PrimFloat.leb c 0.68 = true)
  /\ ((s < 10)%Z ->
      c = PyFloat.round (PyFloat.of_int s * 0.05)%float 2
      /\ PrimFloat.ltb c 0.5 = true).
Proof.
  intros H c. unfold in_band in H. fold c in H.
  apply andb_prop in H. destruct H as [H01 Hb].
  apply andb_prop in H01. destruct H01 as [H0 H1].
  split; [split; assumption |].
  destruct (30 <=? s)%Z eqn:L30; [apply Z.leb_le in L30 | apply Z.leb_gt in L30].
  { apply andb_prop in Hb. repeat split; intros; try lia; apply Hb. }
  destruct (20 <=? s)%Z eqn:L20; [apply Z.leb_le in L20 | apply Z.leb_gt in L20].
  { apply andb_prop in Hb. repeat split; intros; try lia; apply Hb. }
  destruct (10 <=? s)%Z eqn:L10; [apply Z.leb_le in L10 | apply Z.leb_gt in L10].
  { apply andb_prop in Hb. repeat split; intros; try lia; apply Hb. }
  repeat split; intros; try lia; try exact Hb.
  unfold c, reported. rewrite below_ten_is_linear by lia. reflexivity.
Qed.

End Confidence.

(** C2: for every category, business name and website text the confidence
    of [classify_business] lies in [0,1] and the primary type is one of the
    twelve taxonomy entries or "general"; with s the winning score, the
    confidence lies in [0.70,0.95] when s >= 30, in [0.70,0.88] when s is
    20-29, in [0.50,0.68] when s is 10-19, and for s below 10 it is
    0.05 * s (rounded to two places), a value in [0,0.5). *)
Theorem C2_confidence_bands_and_known_type :
  forall category website_text business_name : string,
    let r := business_classifier.classify_business category website_text business_name in
    let s := Spec.winning_score category website_text business_name in
    let c := business_classifier.confidence r in
    (PrimFloat.leb 0 c = true /\ PrimFloat.leb c 1 = true)
    /\ In (business_classifier.primary_type r) Spec.known_types
    /\ ((30 <= s)%Z -> PrimFloat.leb 0.70 c = true /\ PrimFloat.leb c 0.95 = true)
    /\ ((20 <= s <= 29)%Z -> PrimFloat.leb 0.70 c = true /\ PrimFloat.leb c 0.88 = true)
    /\ ((10 <= s <= 19)%Z -> PrimFloat.leb 0.50 c = true /\ PrimFloat.leb c 0.68 = true)
    /\ ((s < 10)%Z ->
        c = PyFloat.round (PyFloat.of_int s * 0.05)%float 2
        /\ PrimFloat.ltb c 0.5 = true).
Proof.
  intros category website_text business_name.
  unfold Spec.winning_score, business_classifier.classify_business.
  set (st := business_classifier.search_text_of category website_text business_name).
  set (scores := business_classifier.category_scores_of st website_text).
  pose proof (category_scores_entries st website_text) as Hent. fold scores in Hent.
  pose proof (category_scores_keys st website_text) as Hkeys. fold scores in Hkeys.
  assert (Hne : scores <> []).
  { intro E. rewrite E in Hkeys. discriminate Hkeys. }
  assert (Hb : (0 <= business_classifier.max_value scores <= Aux.score_bound)%Z).
  { apply max_value_bounds; [unfold Aux.score_bound; lia |].
    intros k v Hin. apply (Hent k v Hin). }
  assert (Hcond : match scores with [] => true | _ :: _ => false end = false)
    by (destruct scores; [contradiction | reflexivity]).
  rewrite Hcond, orb_false_l.
  pose proof (in_band_upto_bound _ Hb) as Hband.
  apply bands_of_in_band in Hband. cbv zeta in Hband.
  destruct (business_classifier.max_value scores =? 0)%Z eqn:Z0.
  - (* the fallback: the winning score is 0 *)
    apply Z.eqb_eq in Z0. cbv zeta. cbn [business_classifier.confidence
                                          business_classifier.primary_type].
    rewrite Z0.
    split; [split; vm_compute; reflexivity |].
    split; [unfold Spec.known_types; apply in_or_app; right; left; reflexivity |].
    repeat split; intros; try lia; vm_compute; reflexivity.
  - apply Z.eqb_neq in Z0. cbv zeta. cbn [business_classifier.confidence
                                           business_classifier.primary_type].
    destruct (argmax_spec scores Hne) as [Hin Hval].
    { rewrite Hkeys. apply taxonomy_nodup. }
    { intros k v H. apply (Hent k v H). }
    rewrite Hval. unfold Aux.reported in Hband.
    destruct Hband as (H01 & H30 & H20 & H10 & Hlin).
    split; [exact H01 |].
    split; [unfold Spec.known_types; apply in_or_app; left;
          rewrite <- taxonomy_is_the_table, <- Hkeys; exact Hin |].
    repeat split; intros;
      solve [apply H30; assumption | apply H20; assumption | apply H10; assumption
            | apply Hlin; assumption].
Qed.

(** C8: whenever every taxonomy category scores zero, [classify_business]
    returns the fallback: primary type "general", confidence 0.0, no
    secondary tags, no matched keywords, and the warning set.  The function
    is total: it returns on every input. *)
Theorem C8_all_zero_gives_general_fallback :
  forall category website_text business_name : string,
    Forall (fun kv : string * Z => snd kv = 0%Z)
      (business_classifier.category_scores_of
         (business_classifier.search_text_of category website_text business_name)
         website_text) ->
    business_classifier.classify_business category website_text business_name
    = {| business_classifier.primary_type := "general";
         business_classifier.confidence := 0%float;
         business_classifier.secondary_tags := [];
         business_classifier.matched_keywords := [];
         business_classifier.warning := Some "Could not classify business type" |}.
Proof.
  intros category website_text business_name H.
  unfold business_classifier.classify_business.
  rewrite (max_value_zero _).
  - rewrite orb_true_r. reflexivity.
  - intros k v Hin. rewrite Forall_forall in H. exact (H (k, v) Hin).
Qed.

(** Scenario D: empty category, name and text. *)
Lemma C8_empty_inputs :
  Forall (fun kv : string * Z => snd kv = 0%Z)
    (business_classifier.category_scores_of
       (business_classifier.search_text_of "" "" "") "")
  /\ business_classifier.classify_business "" "" ""
     = {| business_classifier.primary_type := "general";
          business_classifier.confidence := 0%float;
          business_classifier.secondary_tags := [];
          business_classifier.matched_keywords := [];
          business_classifier.warning := Some "Could not classify business type" |}.
Proof.
  assert (Z0 : Forall (fun kv : string * Z => snd kv = 0%Z)
                 (business_classifier.category_scores_of
                    (business_classifier.search_text_of "" "" "") ""))
    by (vm_compute; repeat constructor).
  split; [exact Z0 | apply (C8_all_zero_gives_general_fallback "" "" "" Z0)].
Defined.

(* ------------------------------------------------------------------ *)
(** ** The extractor: colours *)

Lemma in_firstn {A : Type} (n : nat) (l : list A) (x : A) :
  In x (firstn n l) -> In x l.
Proof.
  intros H. rewrite <- (firstn_skipn n l). apply in_or_app. left. exact H.
Qed.


Section Counters.
Import PyData.

Lemma count_add_keys (x : string) (c : counter) (k : string) :
  In k (keys (count_add x c)) -> k = x \/ In k (keys c).
Proof.
  unfold keys. induction c as [| [k' n] c IH]; cbn [count_add map fst In].
  - intros [E | []]. left. symmetry. exact E.
  - destruct (String.eqb k' x); cbn [map fst In]; intros [E | H]; auto.
    destruct (IH H); auto.
Qed.

Lemma Counter_keys (xs : list string) (k : string) :
  In k (keys (Counter xs)) -> In k xs.
Proof.
  unfold Counter.
  assert (G : forall c, In k (keys (fold_left (fun c x => count_add x c) xs c)) ->
                        In k xs \/ In k (keys c)).
  { induction xs as [| x xs IH]; intros c H; cbn [fold_left] in H; [right; exact H |].
    destruct (IH _ H) as [Hx | Hc]; [left; right; exact Hx |].
    destruct (count_add_keys _ _ _ Hc) as [E | Hc']; [left; left; symmetry; exact E |].
    right; exact Hc'. }
  intros H. destruct (G [] H) as [Hx | []]. exact Hx.
Qed.

Lemma insert_desc_keys (kv : string * nat) (sorted : counter) (k : string) :
  In k (keys (insert_desc kv sorted)) -> k = fst kv \/ In k (keys sorted).
Proof.
  unfold keys. induction sorted as [| h t IH]; cbn [insert_desc map In].
  - intros [E | []]. left. symmetry. exact E.
  - destruct (Nat.ltb (snd h) (snd kv)); cbn [map In].
    + intros [E | H]; [left; symmetry; exact E | right; exact H].
    + intros [E | H]; [right; left; exact E |].
      destruct (IH H); auto.
Qed.

Lemma sorted_keys (c acc : counter) (k : string) :
  In k (keys (fold_left (fun acc kv => insert_desc kv acc) c acc)) ->
  In k (keys c) \/ In k (keys acc).
Proof.
  revert acc. induction c as [| kv c IH]; intros acc H; cbn [fold_left] in H;
    [right; exact H |].
  destruct (IH _ H) as [Hc | Ha]; [left; right; exact Hc |].
  destruct (insert_desc_keys _ _ _ Ha) as [E | Ha']; [| right; exact Ha'].
  left. left. symmetry. exact E.
Qed.

Lemma most_common_keys (n : nat) (c : counter) (k : string) :
  In k (keys (most_common n c)) -> In k (keys c).
Proof.
  unfold most_common. intros H.
  assert (H' : In k (keys (fold_left (fun acc kv => insert_desc kv acc) c []))).
  { unfold keys in *. apply in_map_iff in H. destruct H as (kv & E & Hin).
    apply in_map_iff. exists kv. split; [exact E |]. eapply in_firstn; exact Hin. }
  destruct (sorted_keys _ _ _ H') as [Hc | []]. exact Hc.
Qed.

Lemma most_common_length (n : nat) (c : counter) :
  List.length (most_common n c) <= n.
Proof. unfold most_common. apply firstn_le_length. Qed.

End Counters.

Section Colours.
Import content_extractor PyData.

Variable html_content : string.

(** What the function returns, when it returns: the most common among
    the colours that pass the filter. *)
Lemma colors_returned (found : list string) :
  extract_colors_from_text html_content = Py.Return found ->
  exists colors : list string,
    collect_colors html_content = Py.Return colors
    /\ found
       = map fst
           (most_common 8
              (Counter (filter (fun color => negb (skipped color))
                          (keys (Counter colors))))).
Proof.
  unfold extract_colors_from_text.
  destruct (collect_colors html_content) as [colors | e]; cbn [Py.bind];
    [| discriminate].
  intros E. injection E as E. exists colors. split; [reflexivity | symmetry; exact E].
Qed.

(** The part of the claim on the length that the code keeps. *)
Lemma colors_at_most_eight (found : list string) :
  extract_colors_from_text html_content = Py.Return found ->
  List.length found <= 8.
Proof.
  intros E. destruct (colors_returned found E) as (colors & _ & ->).
  rewrite length_map. apply most_common_length.
Qed.

(** Every returned colour passed the filter of the source. *)
Lemma colors_pass_the_filter (found : list string) (color : string) :
  extract_colors_from_text html_content = Py.Return found ->
  In color found -> skipped color = false.
Proof.
  intros E H. destruct (colors_returned found E) as (colors & _ & ->).
  apply (most_common_keys 8) in H. apply Counter_keys in H.
  apply filter_In in H. destruct H as [_ H]. apply negb_true_iff in H. exact H.
Qed.

Lemma well_formed_length (color : string) :
  Spec.well_formed_hex6 color = true -> String.length color = 7.
Proof.
  unfold Spec.well_formed_hex6. destruct color as [| c digits]; [discriminate |].
  destruct (Ascii.eqb_spec c "#") as [-> | Hne].
  - intros H. apply andb_prop in H. destruct H as [H _].
    apply Nat.eqb_eq in H. cbn [String.length]. rewrite H. reflexivity.
  - destruct c as [[] [] [] [] [] [] [] []]; try discriminate. contradiction.
Qed.

(** The parts of the claim on white and black that the code keeps: no
    returned colour is pure white or black, in full or abbreviated, and
    none of the form #RRGGBB has all components above 250 or all below 5. *)
Lemma colors_not_white_or_black (found : list string) (color : string) :
  extract_colors_from_text html_content = Py.Return found ->
  In color found ->
  Spec.pure_white_or_black color = false /\ Spec.near_white_or_black color = false.
Proof.
  intros E H. apply (colors_pass_the_filter found color E) in H. unfold skipped in H.
  destruct (mem color ["#FFFFFF"; "#000000"; "#FFF"; "#000"; "#FEFEFE"; "#010101"])
    eqn:M; [discriminate |].
  split.
  - unfold Spec.pure_white_or_black.
    unfold mem in *. cbn [existsb] in *.
    repeat (apply orb_false_iff in M; destruct M as [? M]).
    repeat (apply orb_false_iff; split; try assumption).
  - unfold Spec.near_white_or_black, Spec.components.
    destruct (Spec.well_formed_hex6 color) eqn:W; [| reflexivity].
    apply well_formed_length in W. rewrite W in H. cbn [Nat.eqb] in H.
    destruct (PyStr.int16 (PyStr.slice 1 3 color)) as [r |]; [| reflexivity].
    destruct (PyStr.int16 (PyStr.slice 3 5 color)) as [g |]; [| reflexivity].
    destruct (PyStr.int16 (PyStr.slice 5 7 color)) as [b |]; [| reflexivity].
    exact H.
Qed.

End Colours.

(** C3: on the stylesheet fragment [a { color: #abcd; }] the code returns
    the single value "#ABCD", five characters long, which is not of the form
    #RRGGBB.  The property pattern accepts three to six hexadecimal digits
    and only the three-digit form is expanded, so a four- or five-digit run
    comes back as it was found. *)
Theorem C3_four_digit_hex_comes_back :
  content_extractor.extract_colors_from_text "a { color: #abcd; }" = Py.Return ["#ABCD"]
  /\ Spec.well_formed_hex6 "#ABCD" = false.
Proof. split; vm_compute; reflexivity. Qed.

(* ------------------------------------------------------------------ *)
(** ** The extractor: the phone number *)

Section Phone.
Import content_extractor.

Variable html_content : string.

Lemma phone_loop_known (patterns : list Re.regex) (known : option string) :
  truthy_opt known = true -> phone_loop html_content patterns known = known.
Proof.
  intros T. induction patterns as [| p rest IH]; cbn [phone_loop]; [reflexivity |].
  destruct (Re.findall Re.NOFLAGS p html_content); [exact IH |].
  rewrite T. cbn [negb]. exact IH.
Qed.

Lemma phone_loop_unknown (patterns : list Re.regex) (known : option string) :
  truthy_opt known = false ->
  phone_loop html_content patterns known
  = match Spec.first_pattern_match patterns html_content with
    | Some found => Some found
    | None => known
    end.
Proof.
  intros T. induction patterns as [| p rest IH];
    cbn [phone_loop Spec.first_pattern_match]; [reflexivity |].
  destruct (Re.findall Re.NOFLAGS p html_content); [exact IH |].
  rewrite T. reflexivity.
Qed.

End Phone.

(** The page has a phone number that the first pattern finds, yet the known
    number is what the contact record holds. *)
Lemma C6_known_phone_is_not_a_fallback :
  let html := "Call 555-123-4567 today" in
  let known := Some "01234 567890" in
  Spec.first_pattern_match content_extractor.phone_patterns html = Some "555-123-4567"
  /\ content_extractor.phone (content_extractor.extract_contact_info html known) = known
  /\ content_extractor.phone (content_extractor.extract_contact_info html known)
     <> Spec.phone_with_fallback html known.
Proof.
  cbv zeta. split; [vm_compute; reflexivity |].
  split; [vm_compute; reflexivity |].
  vm_compute. discriminate.
Qed.

(** C6 (amended): a known business phone that is given and not empty is
    kept as the phone of the contact record, whatever the page holds; only
    when none is given is the field filled from the ordered list of phone
    patterns, the first pattern that matches supplying its first match; when
    no pattern matches, the field stays as it was given. *)
Theorem C6_known_phone_first_then_patterns :
  forall (html_content : string) (business_phone : option string),
    content_extractor.phone
      (content_extractor.extract_contact_info html_content business_phone)
    = Spec.phone_known_first html_content business_phone.
Proof.
  intros h known. unfold content_extractor.extract_contact_info.
  cbn [content_extractor.phone]. unfold Spec.phone_known_first, Spec.phone_with_fallback.
  destruct (content_extractor.truthy_opt known) eqn:T.
  - apply phone_loop_known. exact T.
  - apply phone_loop_unknown. exact T.
Qed.

(* ------------------------------------------------------------------ *)
(** ** The extractor: images *)

Section Images.
Import content_extractor.

Variable resolve : string -> string -> Py.result string.
Variables html_content base_url : string.







End Images.




(** A reference with an unclosed bracket, which [urljoin] rejects
    ("Invalid IPv6 URL"): the extraction raises, and the caller is left
    without a result. *)
Lemma extraction_raises_on_a_rejected_reference
      (resolve : string -> string -> Py.result string) :
  resolve "https://shop.test/" "http://[x" = Py.Raise Py.ValueError ->
  content_extractor.extract_business_content resolve
    "<img src='http://[x'>" "https://shop.test/" None
  = Py.Raise Py.ValueError.
Proof.
  intros H. unfold content_extractor.extract_business_content.
  replace (content_extractor.extract_colors_from_text "<img src='http://[x'>")
    with (@Py.Return (list string) []) by (vm_compute; reflexivity).
  replace (content_extractor.extract_logo_urls resolve "<img src='http://[x'>"
             "https://shop.test/")
    with (@Py.Return (list string) []) by (vm_compute; reflexivity).
  cbn [Py.bind]. unfold content_extractor.extract_images.
  replace (firstn 15 (Re.finditer Re.IGNORECASE content_extractor.img_pattern
                        "<img src='http://[x'>"))
    with (firstn 1 (Re.finditer Re.IGNORECASE content_extractor.img_pattern
                      "<img src='http://[x'>")) by (vm_compute; reflexivity).
  destruct (Re.finditer Re.IGNORECASE content_extractor.img_pattern
              "<img src='http://[x'>") as [| m l] eqn:F; [vm_compute in F; discriminate F |].
  assert (G : Re.group 1 m = "http://[x").
  { vm_compute in F. injection F as F _. subst m. vm_compute. reflexivity. }
  cbn [firstn Py.foldM]. unfold content_extractor.image_step. rewrite G.
  replace (PyStr.any_in ["icon"; "pixel"; "track"; "1x1"; "spacer"]
             (PyStr.lower "http://[x")) with false by (vm_compute; reflexivity).
  unfold content_extractor.urljoin. cbn [PyStr.truthy negb]. rewrite H. reflexivity.
Qed.

(* ------------------------------------------------------------------ *)
(** ** Scenario E: the empty page *)

(** On the empty page the gap report is far from empty: four priority
    gaps, four recommendations, fifteen issues. *)
Lemma C9_gap_report_of_empty_page_is_not_blank :
  let r := gap_analyzer.analyze_website_gaps "" "" "general" in
  Spec.blank r = false
  /\ gap_analyzer.priority_gaps r
     = ["mobile_responsiveness"; "modern_design"; "seo_optimization"; "key_sections"]
  /\ gap_analyzer.total_issues r = 15.
Proof. cbv zeta. repeat split; vm_compute; reflexivity. Qed.

(** C9 (amended): on empty HTML both functions return, whatever
    [urljoin] would do: no conversion and no resolution is reached.  The
    extractor returns the empty extraction: no colour, logo or image, empty
    text sections, no email or address, the phone being the known number as
    passed in; of the metadata flags, those for logo, about and services
    are false, and the one for contact information is true exactly when a
    known phone that is not empty was passed in.  The gap analyzer returns
    a complete report, the one of a page on which no detector fires: scores
    10, 0, 20, 90 and 40 (less 10 for each section specific to the business
    type), every issue of that state listed, four priority gaps. *)
Theorem C9_empty_page_reports :
  forall (resolve : string -> string -> Py.result string)
         (base_url business_name business_type : string) (business_phone : option string),
    content_extractor.extract_business_content resolve "" base_url business_phone
    = Py.Return (Spec.empty_extraction business_phone)
    /\ content_extractor.has_logo
         (content_extractor.metadata (Spec.empty_extraction business_phone)) = false
    /\ content_extractor.has_about_section
         (content_extractor.metadata (Spec.empty_extraction business_phone)) = false
    /\ content_extractor.has_services_section
         (content_extractor.metadata (Spec.empty_extraction business_phone)) = false
    /\ content_extractor.has_contact_info
         (content_extractor.metadata (Spec.empty_extraction business_phone))
       = match business_phone with
         | Some number => negb (String.eqb number "")
         | None => false
         end
    /\ gap_analyzer.analyze_website_gaps "" business_name business_type
       = Spec.empty_page_report business_type.
Proof.
  intros resolve base name t known. split; [| split; [| split; [| split; [| split]]]].
  - destruct known as [[| c s] |]; vm_compute; reflexivity.
  - reflexivity.
  - reflexivity.
  - reflexivity.
  - destruct known as [[| c s] |]; reflexivity.
  - unfold gap_analyzer.analyze_website_gaps, gap_analyzer.check_missing_sections,
      Spec.empty_page_report, Spec.specific_sections, gap_analyzer.business_specific,
      PyData.dict_get.
    repeat match goal with
           | |- context [if String.eqb ?a ?b then _ else _] => destruct (String.eqb a b)
           end;
      vm_compute; reflexivity.
Qed.

(* ================================================================== *)
(** * Part IV: further properties of the code *)

(* ------------------------------------------------------------------ *)
(** ** Ranges of the five scores *)

Section ScoreRanges.
Import gap_analyzer Aux.

Variable html_content : string.

Lemma tracks_range (penalty : string -> Z) (lo b : Z) (st : acc) :
  tracks penalty lo st -> (0 <=? b)%Z = true -> (b <=? lo)%Z = true ->
  Z.max 0 (snd st) = snd st /\ (b <= snd st <= 100)%Z.
Proof.
  intros (_ & _ & Hlo) H0 Hb. apply Z.leb_le in H0, Hb. split; lia.
Qed.

Lemma modern_fold_bounds (l : list (string * Re.regex)) (n : Z) :
  (n <= fold_left (modern_step html_content) l n <= n + Z.of_nat (List.length l))%Z.
Proof.
  revert n. induction l as [| kv l IH]; intros n; cbn [fold_left List.length]; [lia |].
  specialize (IH (modern_step html_content n kv)). unfold modern_step in *.
  destruct (Re.found Re.IGNORECASE (snd kv) html_content); lia.
Qed.

Lemma outdated_fold_bounds (l : list (string * (Re.regex + bool))) (st : Z * list string) :
  (fst st <= fst (fold_left (outdated_step html_content) l st)
   <= fst st + Z.of_nat (List.length l))%Z.
Proof.
  revert st. induction l as [| kv l IH]; intros st; cbn [fold_left List.length]; [lia |].
  specialize (IH (outdated_step html_content st kv)). unfold outdated_step in *.
  destruct (match snd kv with inl _ => _ | inr _ => _ end); cbn [fst] in *; lia.
Qed.

Lemma mobile_range :
  let m := check_mobile_responsiveness html_content in
  (10 <= score m <= 100)%Z /\ severity m = Behaviour.mobile_tier_of (score m).
Proof.
  unfold check_mobile_responsiveness; cbn [score severity].
  match goal with |- context [Z.max 0 (snd ?st)] =>
    destruct (tracks_range Spec.mobile_penalty _ 10 st ltac:(track) eq_refl eq_refl)
      as [E B]
  end.
  rewrite E. split; [exact B | reflexivity].
Qed.

Lemma seo_range (business_name : string) :
  let s := check_seo_basics html_content business_name in
  (5 <= score s <= 100)%Z /\ severity s = Behaviour.common_tier_of (score s).
Proof.
  unfold check_seo_basics; cbn [score severity].
  match goal with |- context [Z.max 0 (snd ?st)] =>
    assert (T : exists lo, tracks Spec.seo_penalty lo st /\ (5 <=? lo)%Z = true)
  end.
  { eexists. split; [track | reflexivity].
    unfold Spec.seo_penalty. rewrite contains_suffix. reflexivity. }
  destruct T as (lo & T & Hlo).
  destruct (tracks_range _ _ 5 _ T eq_refl Hlo) as [E B].
  rewrite E. split; [exact B | reflexivity].
Qed.

Lemma performance_range :
  let p := check_performance_indicators html_content in
  (35 <= score p <= 100)%Z /\ severity p = Behaviour.common_tier_of (score p).
Proof.
  unfold check_performance_indicators; cbn [score severity].
  match goal with |- context [Z.max 0 (snd ?st)] =>
    destruct (tracks_range Spec.performance_penalty _ 35 st ltac:(track) eq_refl eq_refl)
      as [E B]
  end.
  rewrite E. split; [exact B | reflexivity].
Qed.

Lemma missing_range (business_type : string) :
  let x := check_missing_sections html_content business_type in
  (10 <= score x <= 100)%Z /\ severity x = Behaviour.common_tier_of (score x)
  /\ (PyData.dict_get business_type business_specific = None -> (40 <= score x)%Z).
Proof.
  unfold check_missing_sections; cbn [score severity].
  unfold business_specific, PyData.dict_get.
  repeat match goal with
         | |- context [if String.eqb ?a ?b then _ else _] => destruct (String.eqb a b)
         end;
    cbn [fold_left universal_sections universal_step specific_step fst snd];
    match goal with |- context [Z.max 0 (snd ?st)] =>
      first
        [ destruct (tracks_range Spec.missing_penalty _ 40 st ltac:(track) eq_refl eq_refl)
            as [E B]
        | destruct (tracks_range Spec.missing_penalty _ 10 st ltac:(track) eq_refl eq_refl)
            as [E B] ]
    end;
    rewrite E; (split; [lia | split; [reflexivity | intros D; first [discriminate D | lia]]]).
Qed.

Lemma design_range :
  let d := check_design_modernity html_content in
  (0 <= score d <= 70)%Z /\ severity d = Behaviour.design_tier_of (score d)
  /\ (0 <= modern_indicators (details d) <= 7)%Z
  /\ (0 <= outdated_indicators (details d) <= 7)%Z.
Proof.
  unfold check_design_modernity.
  pose proof (modern_fold_bounds modern_features 0) as Bm.
  pose proof (outdated_fold_bounds (outdated_features html_content) (0%Z, [])) as Bo.
  destruct (fold_left _ (outdated_features _) _) as [o iss].
  cbn [score severity details modern_indicators outdated_indicators fst] in *.
  set (m := fold_left _ modern_features _) in *. clearbody m.
  cbn [List.length modern_features outdated_features] in Bm, Bo.
  split; [lia |]. split; [reflexivity | lia].
Qed.

End ScoreRanges.

(** X1: whatever the page, the mobile score lies in [10,100], the design
    score in [0,70], the seo score in [5,100], the performance score in
    [35,100] and the missing-sections score in [10,100] (in [40,100] for a
    business type without sections of its own): the floor at 0 acts in none
    of the four subtracting checks, and no page reaches a design score
    above 70. *)
Theorem X1_ranges_of_the_sub_scores :
  forall html_content business_name business_type : string,
    (10 <= gap_analyzer.score (gap_analyzer.check_mobile_responsiveness html_content) <= 100)%Z
    /\ (0 <= gap_analyzer.score (gap_analyzer.check_design_modernity html_content) <= 70)%Z
    /\ (5 <= gap_analyzer.score (gap_analyzer.check_seo_basics html_content business_name)
        <= 100)%Z
    /\ (35 <= gap_analyzer.score (gap_analyzer.check_performance_indicators html_content)
        <= 100)%Z
    /\ (10 <= gap_analyzer.score
                (gap_analyzer.check_missing_sections html_content business_type) <= 100)%Z
    /\ (PyData.dict_get business_type gap_analyzer.business_specific = None ->
        (40 <= gap_analyzer.score
                 (gap_analyzer.check_missing_sections html_content business_type))%Z).
Proof.
  intros h n t.
  pose proof (mobile_range h) as Hm. pose proof (design_range h) as Hd.
  pose proof (seo_range h n) as Hs. pose proof (performance_range h) as Hp.
  pose proof (missing_range h t) as Hx. cbv zeta in *.
  repeat split; try tauto; try lia; apply Hx.
Qed.

(** An unlisted business type and a small page. *)
Lemma X1_ranges_witness :
  PyData.dict_get "general" gap_analyzer.business_specific = None
  /\ (40 <= gap_analyzer.score
              (gap_analyzer.check_missing_sections "<button>Call us</button>" "general"))%Z.
Proof.
  split; [reflexivity |].
  apply (X1_ranges_of_the_sub_scores "<button>Call us</button>" "" "general").
  reflexivity.
Defined.

(** X2: in each of the five sub-reports the severity tier is a function of
    the reported score alone, by fixed thresholds (mobile: below 40
    critical, below 70 high, else medium; design: below 30 critical, below
    60 high, below 80 medium; the other three: below 50 high, below 75
    medium, else low).  As the design score never exceeds 70, the design
    tier is never "low"; as the mobile tier has no "low", a perfect mobile
    score is still "medium". *)
Theorem X2_tier_is_a_function_of_the_score :
  forall html_content business_name business_type : string,
    let m := gap_analyzer.check_mobile_responsiveness html_content in
    let d := gap_analyzer.check_design_modernity html_content in
    let s := gap_analyzer.check_seo_basics html_content business_name in
    let p := gap_analyzer.check_performance_indicators html_content in
    let x := gap_analyzer.check_missing_sections html_content business_type in
    gap_analyzer.severity m = Behaviour.mobile_tier_of (gap_analyzer.score m)
    /\ gap_analyzer.severity d = Behaviour.design_tier_of (gap_analyzer.score d)
    /\ gap_analyzer.severity s = Behaviour.common_tier_of (gap_analyzer.score s)
    /\ gap_analyzer.severity p = Behaviour.common_tier_of (gap_analyzer.score p)
    /\ gap_analyzer.severity x = Behaviour.common_tier_of (gap_analyzer.score x)
    /\ gap_analyzer.severity d <> "low"
    /\ gap_analyzer.severity m <> "low".
Proof.
  intros h n t.
  pose proof (mobile_range h) as Hm. pose proof (design_range h) as Hd.
  pose proof (seo_range h n) as Hs. pose proof (performance_range h) as Hp.
  pose proof (missing_range h t) as Hx. cbv zeta in *.
  destruct Hm as [Bm Em]. destruct Hd as (Bd & Ed & _). destruct Hs as [_ Es].
  destruct Hp as [_ Ep]. destruct Hx as (_ & Ex & _).
  repeat split; try assumption.
  - rewrite Ed. unfold Behaviour.design_tier_of.
    repeat match goal with |- context [if (?a <? ?b)%Z then _ else _] =>
                             destruct (Z.ltb_spec a b) end; try discriminate; lia.
  - rewrite Em. unfold Behaviour.mobile_tier_of.
    repeat match goal with |- context [if (?a <? ?b)%Z then _ else _] =>
                             destruct (Z.ltb_spec a b) end; discriminate.
Qed.

(** X3: the mobile score is 100 less 40 for a missing viewport tag, 30 for
    missing media queries and 20 for a missing framework signal, as the
    three flags of the report say; hence the mobile tier is "critical"
    exactly when both the viewport tag and the media queries are missing,
    whatever the third flag. *)
Theorem X3_mobile_score_from_its_flags :
  forall html_content : string,
    let m := gap_analyzer.check_mobile_responsiveness html_content in
    let f := gap_analyzer.details m in
    gap_analyzer.score m
    = (100 - 40 * Behaviour.count_if (negb (gap_analyzer.has_viewport f))
           - 30 * Behaviour.count_if (negb (gap_analyzer.has_media_queries f))
           - 20 * Behaviour.count_if (negb (gap_analyzer.has_mobile_framework f)))%Z
    /\ (gap_analyzer.severity m = "critical"
        <-> gap_analyzer.has_viewport f = false
            /\ gap_analyzer.has_media_queries f = false)
    /\ List.length (gap_analyzer.issues m)
       = Z.to_nat (Behaviour.count_if (negb (gap_analyzer.has_viewport f))
                   + Behaviour.count_if (negb (gap_analyzer.has_media_queries f))
                   + Behaviour.count_if (negb (gap_analyzer.has_mobile_framework f))).
Proof.
  intros h. unfold gap_analyzer.check_mobile_responsiveness.
  cbn [gap_analyzer.score gap_analyzer.severity gap_analyzer.details gap_analyzer.issues
       gap_analyzer.has_viewport gap_analyzer.has_media_queries
       gap_analyzer.has_mobile_framework].
  destruct (Re.found Re.IGNORECASE gap_analyzer.viewport_pattern h);
    destruct (Re.found Re.IGNORECASE gap_analyzer.media_pattern h);
    destruct (existsb _ _);
    cbn; (split; [reflexivity | split; [| reflexivity]]);
    split; intros H; try discriminate H; try (destruct H; discriminate); auto.
Qed.

(** X4: the overall score of every report lies between 10 and 94: no page
    is rated below 10, and no page, however good, reaches 95. *)
Theorem X4_overall_score_between_10_and_94 :
  forall html_content business_name business_type : string,
    (10 <= gap_analyzer.overall_score
             (gap_analyzer.analyze_website_gaps html_content business_name business_type)
     <= 94)%Z.
Proof.
  intros h n t. rewrite (report_overall h n t).
  destruct (mobile_score h) as [_ (k1 & H1 & E1)].
  destruct (design_score h) as [_ (k2 & H2 & E2)].
  destruct (seo_score h n) as [_ (k3 & H3 & E3)].
  destruct (performance_score h) as [_ (k4 & H4 & E4)].
  destruct (missing_score h t) as [_ (k5 & H5 & E5)].
  pose proof (mobile_range h) as [Bm _]. pose proof (design_range h) as [Bd _].
  pose proof (seo_range h n) as [Bs _]. pose proof (performance_range h) as [Bp _].
  pose proof (missing_range h t) as [Bx _].
  rewrite E1 in *. rewrite E2 in *. rewrite E3 in *. rewrite E4 in *. rewrite E5 in *.
  rewrite weighted_on_grid by assumption.
  split.
  - apply Z.div_le_lower_bound; lia.
  - apply Z.div_le_upper_bound; lia.
Qed.

(* ------------------------------------------------------------------ *)
(** ** Recommendations *)

Section Recommendations.
Import gap_analyzer PyData.

Lemma report_recommendations (html_content business_name business_type : string) :
  let r := analyze_website_gaps html_content business_name business_type in
  (priority_gaps r, recommendations r)
  = Behaviour.recommendations_from business_type
      (mem (severity (check_mobile_responsiveness html_content)) ["critical"; "high"])
      (mem (severity (check_design_modernity html_content)) ["critical"; "high"])
      (String.eqb (severity (check_seo_basics html_content business_name)) "high")
      (String.eqb (severity (check_performance_indicators html_content)) "high")
      (String.eqb (severity (check_missing_sections html_content business_type)) "high")
      (score (check_mobile_responsiveness html_content) <? 100)%Z
      (score (check_seo_basics html_content business_name) <? 100)%Z.
Proof. reflexivity. Qed.

Lemma recommendation_counts (business_type : string) (b1 b2 b3 b4 b5 c1 c3 : bool) :
  let pr := Behaviour.recommendations_from business_type b1 b2 b3 b4 b5 c1 c3 in
  NoDup (fst pr)
  /\ List.length (fst pr) <= List.length (snd pr) <= 5
  /\ List.length (snd pr)
     = List.length (fst pr)
       + (if c1 && negb b1 then 1 else 0) + (if c3 && negb b3 then 1 else 0)
  /\ (mem "mobile_responsiveness" (fst pr) = b1 /\ mem "modern_design" (fst pr) = b2
      /\ mem "seo_optimization" (fst pr) = b3 /\ mem "performance" (fst pr) = b4
      /\ mem "key_sections" (fst pr) = b5).
Proof.
  destruct b1, b2, b3, b4, b5, c1, c3; cbn;
    (split; [repeat constructor; cbn; intuition discriminate |]);
    repeat split; lia.
Qed.

End Recommendations.

(** X5: a report holds no priority gap twice, at least one recommendation
    for each priority gap and never more than five recommendations; beyond
    those for the priority gaps there is one "minor" note for a mobile score
    below 100 that is not a priority gap and one such note for seo.  So the
    recommendations are exactly the number of priority gaps plus those
    notes. *)
Theorem X5_recommendations_follow_the_priority_gaps :
  forall html_content business_name business_type : string,
    let r := gap_analyzer.analyze_website_gaps html_content business_name business_type in
    NoDup (gap_analyzer.priority_gaps r)
    /\ gap_analyzer.gap_count r <= List.length (gap_analyzer.recommendations r) <= 5
    /\ List.length (gap_analyzer.recommendations r)
       = gap_analyzer.gap_count r
         + (if (gap_analyzer.score (gap_analyzer.mobile r) <? 100)%Z
               && negb (PyData.mem "mobile_responsiveness" (gap_analyzer.priority_gaps r))
            then 1 else 0)
         + (if (gap_analyzer.score (gap_analyzer.seo r) <? 100)%Z
               && negb (PyData.mem "seo_optimization" (gap_analyzer.priority_gaps r))
            then 1 else 0).
Proof.
  intros h n t r.
  pose proof (report_recommendations h n t) as E. cbv zeta in E. fold r in E.
  assert (G : gap_analyzer.gap_count r = List.length (gap_analyzer.priority_gaps r))
    by reflexivity.
  rewrite G.
  change (gap_analyzer.score (gap_analyzer.mobile r))
    with (gap_analyzer.score (gap_analyzer.check_mobile_responsiveness h)).
  change (gap_analyzer.score (gap_analyzer.seo r))
    with (gap_analyzer.score (gap_analyzer.check_seo_basics h n)).
  pose proof (f_equal fst E) as Ep. pose proof (f_equal snd E) as Er.
  cbn [fst snd] in Ep, Er. rewrite Ep, Er. clear E Ep Er G.
  match goal with
  | |- context [Behaviour.recommendations_from t ?b1 ?b2 ?b3 ?b4 ?b5 ?c1 ?c3] =>
      pose proof (recommendation_counts t b1 b2 b3 b4 b5 c1 c3) as C;
      cbv zeta in C;
      generalize dependent (Behaviour.recommendations_from t b1 b2 b3 b4 b5 c1 c3)
  end.
  intros pr (N & B & L & M1 & _ & M3 & _).
  rewrite M1, M3. repeat split; try assumption; lia.
Qed.

(* ------------------------------------------------------------------ *)
(** ** Searching for a literal, and for one of several patterns *)

Section Literals.
Import Re Behaviour.

Lemma all_ascii_complete (c : ascii) : In c all_ascii.
Proof.
  unfold all_ascii. apply in_map_iff. exists (nat_of_ascii c).
  split; [apply ascii_nat_embedding |].
  apply in_seq. pose proof (nat_ascii_bounded c). lia.
Qed.

Lemma literal_agrees_all :
  forallb (fun a => forallb (literal_agrees a) all_ascii) all_ascii = true.
Proof. vm_compute. reflexivity. Qed.

Lemma literal_char (fl : flags) (a x : ascii) :
  ignorecase fl = true -> PyStr.isupper a = false ->
  item_match fl (Lit a) x = Ascii.eqb a (PyStr.lower_char x).
Proof.
  intros Hfl Ha.
  replace (item_match fl (Lit a) x) with (item_match IGNORECASE (Lit a) x)
    by (unfold item_match; rewrite Hfl; reflexivity).
  pose proof literal_agrees_all as H.
  rewrite forallb_forall in H. specialize (H a (all_ascii_complete a)).
  rewrite forallb_forall in H. specialize (H x (all_ascii_complete x)).
  unfold literal_agrees in H. rewrite Ha in H. cbn [orb] in H.
  apply Bool.eqb_prop in H. exact H.
Qed.

Lemma exec_lit_cons (fl : flags) (a : ascii) (w : string) (prev : option ascii)
      (s : string) (c : caps) (k : cont) :
  exec fl (lit (String a w)) prev s c k
  = exec fl (chr a) prev s c (fun p' s' c' => exec fl (lit w) p' s' c' k).
Proof. destruct w; reflexivity. Qed.

Lemma exec_lit (fl : flags) (w : string) :
  ignorecase fl = true -> no_upper w = true ->
  forall (prev : option ascii) (s : string) (c : caps) (k : cont),
    (PyStr.startswith (PyStr.lower s) w = false ->
     exec fl (lit w) prev s c k = None)
    /\ (PyStr.startswith (PyStr.lower s) w = true ->
        exists (prev' : option ascii) (s' : string),
          exec fl (lit w) prev s c k = k prev' s' c).
Proof.
  intros Hfl. induction w as [| a w IH]; intros Hw prev s c k.
  - split; [cbn; discriminate | intros _; exists prev, s; reflexivity].
  - unfold no_upper in Hw. cbn [Spec.all_chars] in Hw.
    apply andb_prop in Hw. destruct Hw as [Ha Hw]. apply negb_true_iff in Ha.
    rewrite exec_lit_cons. unfold chr. cbn [exec].
    destruct s as [| x s]; cbn [PyStr.lower PyStr.map_chars PyStr.startswith].
    + split; [reflexivity | discriminate].
    + fold (PyStr.lower s). cbn [atom_match existsb]. rewrite orb_false_r.
      rewrite (literal_char fl a x Hfl Ha).
      destruct (Ascii.eqb a (PyStr.lower_char x)); cbn [andb].
      * apply (IH Hw).
      * split; [reflexivity | discriminate].
Qed.

(** A literal without upper-case letters matches at a position exactly
    when the lowered text starts with it there. *)
Lemma match_at_lit (fl : flags) (w : string) (prev : option ascii) (s : string) :
  ignorecase fl = true -> no_upper w = true ->
  hit (match_at fl (lit w) prev s) = PyStr.startswith (PyStr.lower s) w.
Proof.
  intros Hfl Hw. unfold match_at.
  destruct (exec_lit fl w Hfl Hw prev s [] accept) as [Hmiss Hhit].
  destruct (PyStr.startswith (PyStr.lower s) w).
  - destruct (Hhit eq_refl) as (p' & s' & E). rewrite E. reflexivity.
  - rewrite (Hmiss eq_refl). reflexivity.
Qed.

Lemma search_from_step (fl : flags) (r : regex) (prev : option ascii) (s : string) :
  hit (search_from fl r prev s)
  = hit (match_at fl r prev s)
    || match s with
       | String x s' => hit (search_from fl r (Some x) s')
       | EmptyString => false
       end.
Proof.
  destruct s as [| x s]; cbn [search_from];
    destruct (match_at fl r prev _) as [[m rest] |]; reflexivity.
Qed.

Lemma found_is_hit (fl : flags) (r : regex) (s : string) :
  found fl r s = hit (search_from fl r None s).
Proof. reflexivity. Qed.

(** [re.search] for a literal, ignoring case, is the substring test on the
    lowered text. *)
Lemma found_lit (fl : flags) (w s : string) :
  ignorecase fl = true -> no_upper w = true ->
  found fl (lit w) s = PyStr.contains (PyStr.lower s) w.
Proof.
  intros Hfl Hw. rewrite found_is_hit. generalize (@None ascii).
  induction s as [| x s IH]; intros prev;
    rewrite search_from_step, match_at_lit by assumption.
  - cbn. rewrite orb_false_r. reflexivity.
  - rewrite IH. reflexivity.
Qed.

Lemma match_at_alt (fl : flags) (r1 r2 : regex) (prev : option ascii) (s : string) :
  hit (match_at fl (Alt r1 r2) prev s)
  = hit (match_at fl r1 prev s) || hit (match_at fl r2 prev s).
Proof.
  unfold match_at. cbn [exec].
  destruct (exec fl r1 prev s [] accept) as [[rest c] |]; [reflexivity |].
  destruct (exec fl r2 prev s [] accept) as [[rest c] |]; reflexivity.
Qed.

(** A search for an alternation succeeds exactly when the search for one
    of its branches does. *)
Lemma found_alt (fl : flags) (r1 r2 : regex) (s : string) :
  found fl (Alt r1 r2) s = found fl r1 s || found fl r2 s.
Proof.
  rewrite !found_is_hit. generalize (@None ascii).
  induction s as [| x s IH]; intros prev;
    rewrite (search_from_step fl (Alt r1 r2) prev), (search_from_step fl r1 prev),
      (search_from_step fl r2 prev), match_at_alt.
  - rewrite !orb_false_r. reflexivity.
  - rewrite IH.
    destruct (hit (match_at fl r1 prev (String x s))),
             (hit (match_at fl r2 prev (String x s))),
             (hit (search_from fl r1 (Some x) s)),
             (hit (search_from fl r2 (Some x) s)); reflexivity.
Qed.

(** A search finds nothing exactly when [findall] yields nothing. *)
Lemma finditer_nil (fl : flags) (r : regex) (s : string) :
  found fl r s = negb (match finditer fl r s with [] => true | _ => false end).
Proof.
  rewrite found_is_hit. unfold finditer. generalize (@None ascii).
  induction s as [| x s IH]; intros prev; rewrite search_from_step; cbn [scan];
    destruct (match_at fl r prev _) as [[m rest] |]; cbn [hit orb negb]; try reflexivity.
  apply IH.
Qed.

End Literals.

(* ------------------------------------------------------------------ *)
(** ** Detectors that are substring tests *)

Section Outdated.
Import gap_analyzer.

Variable html_content : string.

Lemma outdated_fold_keeps (l : list (string * (Re.regex + bool))) (st : Z * list string)
      (issue : string) :
  In issue (snd st) -> In issue (snd (fold_left (outdated_step html_content) l st)).
Proof.
  revert st. induction l as [| kv l IH]; intros st H; cbn [fold_left]; [exact H |].
  apply IH. unfold outdated_step.
  destruct (match snd kv with inl _ => _ | inr _ => _ end); cbn [snd]; [| exact H].
  apply in_or_app. left. exact H.
Qed.

(** A feature of the table that fires is counted and reported. *)
Lemma outdated_hit (l : list (string * (Re.regex + bool))) (st : Z * list string)
      (name : string) (v : Re.regex + bool) :
  In (name, v) l -> Behaviour.fires html_content v = true ->
  In ("Outdated: " ++ unscore name)%string
     (snd (fold_left (outdated_step html_content) l st))
  /\ (fst st + 1 <= fst (fold_left (outdated_step html_content) l st))%Z.
Proof.
  revert st. induction l as [| kv l IH]; intros st Hin Hf; [contradiction |].
  cbn [fold_left]. destruct Hin as [E | Hin].
  - subst kv. split.
    + apply outdated_fold_keeps. unfold outdated_step. cbn [snd fst].
      unfold Behaviour.fires in Hf. rewrite Hf. cbn [snd]. apply in_or_app. right. left. reflexivity.
    + pose proof (outdated_fold_bounds html_content l
                    (outdated_step html_content st (name, v))) as B.
      unfold outdated_step in B at 1. cbn [snd fst] in B. unfold Behaviour.fires in Hf.
      rewrite Hf in B. cbn [fst] in B. lia.
  - destruct (IH (outdated_step html_content st kv) Hin Hf) as [I B]. split; [exact I |].
    assert (fst st <= fst (outdated_step html_content st kv))%Z; [| lia].
    unfold outdated_step.
    destruct (match snd kv with inl _ => _ | inr _ => _ end); cbn [fst]; lia.
Qed.

End Outdated.

(** X6: a page that contains the word "design" anywhere, in any case,
    counts as laid out with tables (the alternation in the pattern of
    [tables_layout] has the bare word "design" as its second branch): the
    design report lists "Outdated: tables layout", its score is at most 55,
    and "modern_design" is a priority gap of the overall report. *)
Theorem X6_the_word_design_marks_a_page_outdated :
  forall html_content business_name business_type : string,
    PyStr.contains (PyStr.lower html_content) "design" = true ->
    let d := gap_analyzer.check_design_modernity html_content in
    In "Outdated: tables layout" (gap_analyzer.issues d)
    /\ (1 <= gap_analyzer.outdated_indicators (gap_analyzer.details d))%Z
    /\ (gap_analyzer.score d <= 55)%Z
    /\ PyData.mem "modern_design"
         (gap_analyzer.priority_gaps
            (gap_analyzer.analyze_website_gaps html_content business_name business_type))
       = true.
Proof.
  intros h n t Hw d.
  assert (Hit : exists v, In ("tables_layout", v) (gap_analyzer.outdated_features h)
                          /\ Behaviour.fires h v = true).
  { eexists. split; [left; reflexivity |]. unfold Behaviour.fires.
    rewrite found_alt, (found_lit Re.IGNORECASE "design") by reflexivity.
    rewrite Hw. apply orb_true_r. }
  destruct Hit as (v & Hin & Hf).
  destruct (outdated_hit h _ (0%Z, []) _ _ Hin Hf) as [I B].
  pose proof (design_range h) as R. cbv zeta in R. fold d in R.
  destruct R as (Bs & Es & Bm & Bo).
  assert (F : In "Outdated: tables layout" (gap_analyzer.issues d)
              /\ (1 <= gap_analyzer.outdated_indicators (gap_analyzer.details d))%Z
              /\ gap_analyzer.score d
                 = Z.max 0 (Z.min 100
                     (gap_analyzer.modern_indicators (gap_analyzer.details d) * 10
                      - gap_analyzer.outdated_indicators (gap_analyzer.details d) * 15))).
  { subst d. unfold gap_analyzer.check_design_modernity in *.
    destruct (fold_left _ (gap_analyzer.outdated_features h) _) as [o iss].
    cbn [gap_analyzer.issues gap_analyzer.details gap_analyzer.outdated_indicators
         gap_analyzer.modern_indicators gap_analyzer.score fst snd] in *.
    split; [| split; [lia | reflexivity]].
    repeat match goal with
           | |- In _ (if ?b then _ else _) => destruct b
           | |- In _ (_ ++ _) => apply in_or_app; left
           end; exact I. }
  destruct F as (Fi & Fo & Fs).
  assert (S55 : (gap_analyzer.score d <= 55)%Z) by lia.
  repeat split; try assumption.
  pose proof (report_recommendations h n t) as E. cbv zeta in E.
  pose proof (f_equal fst E) as Ep. cbn [fst] in Ep. rewrite Ep.
  match goal with
  | |- context [Behaviour.recommendations_from t ?b1 ?b2 ?b3 ?b4 ?b5 ?c1 ?c3] =>
      pose proof (recommendation_counts t b1 b2 b3 b4 b5 c1 c3) as C
  end.
  cbv zeta in C. destruct C as (_ & _ & _ & _ & M2 & _). rewrite M2.
  fold d. rewrite Es. unfold Behaviour.design_tier_of.
  destruct (Z.ltb_spec (gap_analyzer.score d) 30); [reflexivity |].
  destruct (Z.ltb_spec (gap_analyzer.score d) 60); [reflexivity | lia].
Qed.

(** A page of an interior design studio. *)
Lemma X6_design_word_witness :
  PyStr.contains (PyStr.lower "<h1>Interior Design Studio</h1>") "design" = true
  /\ PyData.mem "modern_design"
       (gap_analyzer.priority_gaps
          (gap_analyzer.analyze_website_gaps "<h1>Interior Design Studio</h1>" "" "creative"))
     = true.
Proof.
  split; [reflexivity |].
  apply (X6_the_word_design_marks_a_page_outdated
           "<h1>Interior Design Studio</h1>" "" "creative" eq_refl).
Defined.


(* ------------------------------------------------------------------ *)
(** ** The classifier: the two ways out *)

Section Classified.
Import business_classifier PyData.

Variables category website_text business_name : string.

(** [classify_business] either falls back (the winning score is 0) or
    returns the first category with the winning score. *)
Lemma classify_cases :
  let st := search_text_of category website_text business_name in
  let scores := category_scores_of st website_text in
  (max_value scores = 0%Z
   /\ classify_business category website_text business_name = Behaviour.fallback)
  \/ ((0 < max_value scores <= Aux.score_bound)%Z
      /\ In (argmax scores) get_all_business_types
      /\ dict_at 0%Z (argmax scores) scores = max_value scores
      /\ classify_business category website_text business_name
         = {| primary_type := argmax scores;
              confidence := Aux.reported (max_value scores);
              secondary_tags := list_set (Behaviour.tags_found st (argmax scores));
              matched_keywords :=
                firstn 5 (dict_at [] (argmax scores) (matched_keywords_of st website_text));
              warning := None |}).
Proof.
  intros st scores.
  pose proof (category_scores_entries st website_text) as Hent. fold scores in Hent.
  pose proof (category_scores_keys st website_text) as Hkeys. fold scores in Hkeys.
  assert (Hne : scores <> []) by (intro E; rewrite E in Hkeys; discriminate Hkeys).
  assert (Hb : (0 <= max_value scores <= Aux.score_bound)%Z).
  { apply max_value_bounds; [unfold Aux.score_bound; lia |].
    intros k v Hin. apply (Hent k v Hin). }
  unfold classify_business. fold st. fold scores.
  assert (Hcond : match scores with [] => true | _ :: _ => false end = false)
    by (destruct scores; [contradiction | reflexivity]).
  rewrite Hcond, orb_false_l.
  destruct (max_value scores =? 0)%Z eqn:Z0.
  - left. apply Z.eqb_eq in Z0. split; [exact Z0 | reflexivity].
  - right. apply Z.eqb_neq in Z0.
    destruct (argmax_spec scores Hne) as [Hin Hval].
    { rewrite Hkeys. apply taxonomy_nodup. }
    { intros k v H. apply (Hent k v H). }
    split; [lia |]. split; [rewrite <- Hkeys; exact Hin |]. split; [exact Hval |].
    rewrite Hval. unfold Aux.reported, Behaviour.tags_found. reflexivity.
Qed.

End Classified.

Section CaseBlind.
Import Behaviour.

Lemma case_facts_all : forallb Behaviour.case_facts all_ascii = true.
Proof. vm_compute. reflexivity. Qed.

Lemma lower_char_idempotent (c : ascii) :
  PyStr.lower_char (PyStr.lower_char c) = PyStr.lower_char c.
Proof.
  pose proof case_facts_all as H. rewrite forallb_forall in H.
  specialize (H c (all_ascii_complete c)). unfold Behaviour.case_facts in H.
  apply andb_prop in H. destruct H as [H _]. apply Ascii.eqb_eq in H. exact H.
Qed.

Lemma lower_idempotent (s : string) : PyStr.lower (PyStr.lower s) = PyStr.lower s.
Proof.
  induction s as [| c s IH]; cbn; [reflexivity |].
  fold (PyStr.lower s). fold (PyStr.lower (PyStr.lower s)).
  rewrite lower_char_idempotent. unfold PyStr.lower in *. rewrite IH. reflexivity.
Qed.

Lemma lower_append (a b : string) :
  PyStr.lower (a ++ b) = (PyStr.lower a ++ PyStr.lower b)%string.
Proof.
  unfold PyStr.lower. induction a as [| c a IH]; cbn; [reflexivity |].
  rewrite IH. reflexivity.
Qed.

Lemma truthy_lower (s : string) : PyStr.truthy (PyStr.lower s) = PyStr.truthy s.
Proof. destruct s; reflexivity. Qed.

Lemma search_text_lower (category website_text business_name : string) :
  business_classifier.search_text_of (PyStr.lower category) (PyStr.lower website_text)
    (PyStr.lower business_name)
  = business_classifier.search_text_of category website_text business_name.
Proof.
  unfold business_classifier.search_text_of.
  rewrite !lower_append, !lower_idempotent. reflexivity.
Qed.

Lemma score_all_lower (search_text website_text : string) :
  business_classifier.score_all search_text (PyStr.lower website_text)
  = business_classifier.score_all search_text website_text.
Proof.
  unfold business_classifier.score_all, business_classifier.score_category.
  rewrite truthy_lower. reflexivity.
Qed.

End CaseBlind.

(** X8: the classifier is blind to letter case: lowering the category, the
    website text and the business name changes
    nothing in the result: type, confidence, tags and matched keywords. *)
Theorem X8_classification_ignores_case :
  forall category website_text business_name : string,
    business_classifier.classify_business
      (PyStr.lower category) (PyStr.lower website_text) (PyStr.lower business_name)
    = business_classifier.classify_business category website_text business_name.
Proof.
  intros c t n. unfold business_classifier.classify_business.
  rewrite search_text_lower.
  unfold business_classifier.category_scores_of, business_classifier.matched_keywords_of.
  rewrite score_all_lower. reflexivity.
Qed.

(* ------------------------------------------------------------------ *)
(** ** The classifier: what the result is made of *)

Section Evidence.
Import business_classifier PyData.

Lemma dict_get_map {V W : Type} (g : string -> V -> W) (d : list (string * V))
      (k : string) :
  dict_get k (map (fun kv => (fst kv, g (fst kv) (snd kv))) d)
  = option_map (g k) (dict_get k d).
Proof.
  induction d as [| [k' v] d IH]; cbn [map dict_get fst snd]; [reflexivity |].
  destruct (String.eqb k' k) eqn:E; [| exact IH].
  apply String.eqb_eq in E. subst k'. reflexivity.
Qed.

Lemma dict_get_of_key {V : Type} (d : list (string * V)) (k : string) :
  In k (map fst d) -> exists v, dict_get k d = Some v /\ In (k, v) d.
Proof.
  induction d as [| [k' v] d IH]; cbn [map fst In dict_get]; [contradiction |].
  intros H. destruct (String.eqb k' k) eqn:E.
  - apply String.eqb_eq in E. subst k'. exists v. auto.
  - destruct H as [H | H]; [subst k'; rewrite String.eqb_refl in E; discriminate E |].
    destruct (IH H) as (v' & G & I). exists v'. auto.
Qed.

Lemma keyword_fold_matched (search_text : string) (w : Z) (l : list string)
      (st : Z * list string) (k : string) :
  In k (snd (fold_left (keyword_step search_text w) l st)) ->
  In k (snd st) \/ (In k l /\ PyStr.contains search_text k = true).
Proof.
  revert st. induction l as [| x l IH]; intros st H; cbn [fold_left] in H; [left; exact H |].
  destruct (IH _ H) as [Hs | [Hl Hc]]; [| right; split; [right; exact Hl | exact Hc]].
  unfold keyword_step in Hs. destruct (PyStr.contains search_text x) eqn:C; [| left; exact Hs].
  cbn [snd] in Hs. apply in_app_or in Hs. destruct Hs as [Hs | [E | []]]; [left; exact Hs |].
  subst x. right. split; [left; reflexivity | exact C].
Qed.

(** The keywords that [score_category] records are keywords of the
    category which occur in the text. *)
Lemma score_category_matched (search_text website_text cat_name : string)
      (kw : keywords) (k : string) :
  In k (snd (score_category search_text website_text cat_name kw)) ->
  (In k (primary kw) \/ In k (secondary kw)) /\ PyStr.contains search_text k = true.
Proof.
  unfold score_category.
  cbv zeta. cbn [snd]. intros H.
  apply keyword_fold_matched in H. destruct H as [H | [H C]]; [| tauto].
  apply keyword_fold_matched in H. cbn [snd] in H. destruct H as [[] | [H C]]. tauto.
Qed.

(** The keywords recorded for a category are keywords of that category,
    as [get_category_keywords] gives them, which occur in the text. *)
Lemma matched_of_category (search_text website_text p k : string) :
  In k (dict_at [] p (matched_keywords_of search_text website_text)) ->
  (In k (primary (get_category_keywords p)) \/ In k (secondary (get_category_keywords p)))
  /\ PyStr.contains search_text k = true.
Proof.
  unfold dict_at, matched_keywords_of, score_all, get_category_keywords.
  rewrite map_map. cbn [fst snd].
  rewrite (dict_get_map
             (fun name kw => snd (score_category search_text website_text name kw))
             CATEGORY_KEYWORDS p).
  destruct (dict_get p CATEGORY_KEYWORDS) as [kw |]; cbn [option_map]; [| contradiction].
  apply score_category_matched.
Qed.

Lemma tags_fold (search_text : string) (tags : list (string * list string))
      (acc : list string) (tag : string) :
  In tag (fold_left
            (fun acc tk =>
               if existsb (PyStr.contains search_text) (snd tk)
               then acc ++ [fst tk] else acc) tags acc) ->
  In tag acc
  \/ exists kws, In (tag, kws) tags /\ existsb (PyStr.contains search_text) kws = true.
Proof.
  revert acc. induction tags as [| [t kws] tags IH]; intros acc H; cbn [fold_left] in H;
    [left; exact H |].
  destruct (IH _ H) as [Ha | (kws' & I & C)]; [| right; exists kws'; split; [right |]; assumption].
  cbn [fst snd] in Ha.
  destruct (existsb (PyStr.contains search_text) kws) eqn:C; [| left; exact Ha].
  apply in_app_or in Ha. destruct Ha as [Ha | [E | []]]; [left; exact Ha |].
  subst t. right. exists kws. split; [left; reflexivity | exact C].
Qed.

End Evidence.

(** X9: the matched keywords of a classification are at most five, and
    each of them is a primary or secondary keyword of the chosen type (as
    [get_category_keywords] gives them) that occurs in the lowered text of
    category, name and website. *)
Theorem X9_matched_keywords_are_evidence :
  forall category website_text business_name : string,
    let r := business_classifier.classify_business category website_text business_name in
    let kw := business_classifier.get_category_keywords (business_classifier.primary_type r) in
    List.length (business_classifier.matched_keywords r) <= 5
    /\ forall k : string,
         In k (business_classifier.matched_keywords r) ->
         (In k (business_classifier.primary kw) \/ In k (business_classifier.secondary kw))
         /\ PyStr.contains
              (business_classifier.search_text_of category website_text business_name) k
            = true.
Proof.
  intros c t n.
  destruct (classify_cases c t n) as [[_ E] | (_ & Hin & _ & E)]; cbv zeta in *; rewrite E.
  - unfold Behaviour.fallback. cbn [business_classifier.matched_keywords List.length In].
    split; [lia | contradiction].
  - cbn [business_classifier.matched_keywords business_classifier.primary_type].
    split; [apply firstn_le_length |].
    intros k Hk. apply in_firstn in Hk.
    apply (matched_of_category _ t _ k Hk).
Qed.

(** X10: the secondary tags of a classification hold no tag twice; each is
    a tag of the table [SECONDARY_TAGS] for the chosen type, one of whose
    keywords occurs in the lowered text; a type without an entry in that
    table (nine of the twelve, and "general") gets no tag at all. *)
Theorem X10_secondary_tags_are_evidence :
  forall category website_text business_name : string,
    let r := business_classifier.classify_business category website_text business_name in
    let st := business_classifier.search_text_of category website_text business_name in
    NoDup (business_classifier.secondary_tags r)
    /\ (PyData.dict_get (business_classifier.primary_type r)
          business_classifier.SECONDARY_TAGS = None ->
        business_classifier.secondary_tags r = [])
    /\ forall tag : string,
         In tag (business_classifier.secondary_tags r) ->
         exists (tags : list (string * list string)) (kws : list string),
           PyData.dict_get (business_classifier.primary_type r)
             business_classifier.SECONDARY_TAGS = Some tags
           /\ In (tag, kws) tags
           /\ existsb (PyStr.contains st) kws = true.
Proof.
  intros c t n.
  destruct (classify_cases c t n) as [[_ E] | (_ & Hin & _ & E)]; cbv zeta in *; rewrite E.
  - cbn. split; [constructor | split; [reflexivity | contradiction]].
  - cbn [business_classifier.secondary_tags business_classifier.primary_type].
    set (st := business_classifier.search_text_of c t n) in *.
    set (p := business_classifier.argmax _) in *.
    unfold business_classifier.list_set, Behaviour.tags_found.
    split; [apply NoDup_nodup |]. split.
    + intros D. rewrite D. reflexivity.
    + intros tag H. apply nodup_In in H.
      destruct (PyData.dict_get p business_classifier.SECONDARY_TAGS) as [tags |];
        [| contradiction].
      apply tags_fold in H. destruct H as [[] | (kws & I & C)].
      exists tags, kws. auto.
Qed.

(** A type with no table of tags. *)
Lemma X10_tags_witness :
  PyData.dict_get
    (business_classifier.primary_type
       (business_classifier.classify_business "gym" "" "Iron Temple"))
    business_classifier.SECONDARY_TAGS = None
  /\ business_classifier.secondary_tags
       (business_classifier.classify_business "gym" "" "Iron Temple") = [].
Proof.
  split; [vm_compute; reflexivity |].
  apply (X10_secondary_tags_are_evidence "gym" "" "Iron Temple").
  vm_compute. reflexivity.
Defined.

(* ------------------------------------------------------------------ *)
(** ** The classifier: the choice among equal scores *)

Section FirstMaximum.
Import business_classifier PyData.

(** [argmax_from] returns the first entry with the largest value: the
    entries before it are strictly smaller, those after it are not larger. *)
Lemma argmax_from_first (d : list (string * Z)) :
  forall (pre : list (string * Z)) (best : string * Z) (mid : list (string * Z)),
    (forall kv, In kv pre -> (snd kv < snd best)%Z) ->
    (forall kv, In kv mid -> (snd kv <= snd best)%Z) ->
    exists (l1 : list (string * Z)) (e : string * Z) (l2 : list (string * Z)),
      pre ++ best :: mid ++ d = l1 ++ e :: l2
      /\ argmax_from best d = fst e
      /\ (forall kv, In kv l1 -> (snd kv < snd e)%Z)
      /\ (forall kv, In kv l2 -> (snd kv <= snd e)%Z).
Proof.
  induction d as [| x d IH]; intros pre best mid Hpre Hmid; cbn [argmax_from].
  - exists pre, best, mid. rewrite app_nil_r. auto.
  - destruct (snd best <? snd x)%Z eqn:L.
    + apply Z.ltb_lt in L.
      destruct (IH (pre ++ best :: mid) x []) as (l1 & e & l2 & E & A & B1 & B2).
      * intros kv Hin. apply in_app_or in Hin. destruct Hin as [Hin | [Hin | Hin]].
        -- specialize (Hpre kv Hin). lia.
        -- subst kv. exact L.
        -- specialize (Hmid kv Hin). lia.
      * intros kv [].
      * exists l1, e, l2. split; [| auto].
        rewrite <- E. cbn [app]. rewrite <- app_assoc. reflexivity.
    + apply Z.ltb_ge in L.
      destruct (IH pre best (mid ++ [x])) as (l1 & e & l2 & E & A & B1 & B2).
      * exact Hpre.
      * intros kv Hin. apply in_app_or in Hin. destruct Hin as [Hin | [Hin | []]].
        -- apply Hmid, Hin.
        -- subst kv. exact L.
      * exists l1, e, l2. split; [| auto].
        rewrite <- E. rewrite <- app_assoc. reflexivity.
Qed.

Lemma argmax_first (d : list (string * Z)) :
  d <> [] ->
  exists (l1 : list (string * Z)) (e : string * Z) (l2 : list (string * Z)),
    d = l1 ++ e :: l2
    /\ argmax d = fst e
    /\ (forall kv, In kv l1 -> (snd kv < snd e)%Z)
    /\ (forall kv, In kv l2 -> (snd kv <= snd e)%Z).
Proof.
  destruct d as [| x d]; [intros H; contradiction H; reflexivity | intros _].
  destruct (argmax_from_first d [] x []) as (l1 & e & l2 & E & A & B1 & B2).
  - intros kv [].
  - intros kv [].
  - exists l1, e, l2. cbn [app] in E. auto.
Qed.

End FirstMaximum.

(** X11: when the classifier names a type other than "general", that type
    is the first category, in the order of the table [CATEGORY_KEYWORDS],
    whose score is the highest: every category before it scores strictly
    less, no category after it scores more.  Among equal scores the table
    order decides. *)
Theorem X11_first_category_wins_a_tie :
  forall category website_text business_name : string,
    let r := business_classifier.classify_business category website_text business_name in
    let scores :=
      business_classifier.category_scores_of
        (business_classifier.search_text_of category website_text business_name)
        website_text in
    business_classifier.primary_type r <> "general" ->
    exists (before : list (string * Z)) (s : Z) (after : list (string * Z)),
      scores = before ++ (business_classifier.primary_type r, s) :: after
      /\ s = Behaviour.top_score category website_text business_name
      /\ (forall kv, In kv before -> (snd kv < s)%Z)
      /\ (forall kv, In kv after -> (snd kv <= s)%Z).
Proof.
  intros c t n.
  destruct (classify_cases c t n) as [[_ E] | (Hpos & Hin & Hval & E)]; cbv zeta in *;
    rewrite E; cbn [business_classifier.primary_type Behaviour.fallback].
  - intros H. contradiction H. reflexivity.
  - intros _.
    set (scores := business_classifier.category_scores_of _ _) in *.
    assert (Hkeys : map fst scores = business_classifier.get_all_business_types)
      by apply category_scores_keys.
    assert (Hne : scores <> []).
    { intros Hnil. rewrite Hnil in Hkeys. discriminate Hkeys. }
    destruct (argmax_first scores Hne) as (l1 & [k v] & l2 & Es & A & B1 & B2).
    cbn [fst snd] in *.
    exists l1, v, l2. rewrite A. split; [exact Es |].
    split; [| split; assumption].
    unfold Behaviour.top_score. fold scores. rewrite <- Hval, A.
    unfold business_classifier.dict_at.
    rewrite (dict_get_in scores k v); [reflexivity | | rewrite Es; apply in_elt].
    rewrite Hkeys. apply taxonomy_nodup.
Qed.

(** A lawyer's cafe: both "restaurant" and "professional" score 10, and
    the type is "restaurant", the earlier of the two. *)
Lemma X11_tie_witness :
  exists (before : list (string * Z)) (s : Z) (after : list (string * Z)),
    business_classifier.category_scores_of
      (business_classifier.search_text_of "lawyer" "" "The Cafe") ""
    = before
      ++ (business_classifier.primary_type
            (business_classifier.classify_business "lawyer" "" "The Cafe"), s)
      :: after
    /\ s = Behaviour.top_score "lawyer" "" "The Cafe"
    /\ (forall kv, In kv before -> (snd kv < s)%Z)
    /\ (forall kv, In kv after -> (snd kv <= s)%Z).
Proof.
  apply (X11_first_category_wins_a_tie "lawyer" "" "The Cafe").
  vm_compute. discriminate.
Defined.

(* ------------------------------------------------------------------ *)
(** ** The classifier: display names *)

Section DisplayNames.
Import business_classifier PyData.

Lemma display_names_cover_the_types :
  forallb
    (fun k => match dict_get k display_names with Some _ => true | None => false end)
    ("general" :: get_all_business_types) = true.
Proof. vm_compute. reflexivity. Qed.

Lemma display_names_plain :
  forallb (fun kv => Behaviour.no_underscore (snd kv)) display_names = true.
Proof. vm_compute. reflexivity. Qed.

Lemma case_fact (c : ascii) : Behaviour.case_facts c = true.
Proof.
  pose proof case_facts_all as H. rewrite forallb_forall in H. apply H.
  apply all_ascii_complete.
Qed.

Lemma title_from_plain (s : string) :
  forall previous_is_cased : bool,
    Behaviour.no_underscore s = true ->
    Behaviour.no_underscore (PyStr.title_from previous_is_cased s) = true.
Proof.
  unfold Behaviour.no_underscore.
  induction s as [| c s IH]; intros b H; cbn [PyStr.title_from Spec.all_chars] in *;
    [reflexivity |].
  apply andb_prop in H. destruct H as [Hc Hs].
  pose proof (case_fact c) as F. unfold Behaviour.case_facts in F.
  apply andb_prop in F. destruct F as [_ F].
  destruct (Ascii.eqb c "_") eqn:Ec; [discriminate Hc |]. cbn [orb] in F.
  apply andb_prop in F. destruct F as [Fl Fu].
  destruct (PyStr.islower c || PyStr.isupper c); cbn [Spec.all_chars].
  - rewrite (IH _ Hs). destruct b; [rewrite Fl | rewrite Fu]; reflexivity.
  - rewrite (IH _ Hs), Ec. reflexivity.
Qed.

Lemma replaced_plain (s : string) :
  Behaviour.no_underscore
    (PyStr.map_chars (fun c => if Ascii.eqb c "_" then " "%char else c) s) = true.
Proof.
  unfold Behaviour.no_underscore.
  induction s as [| c s IH]; cbn [PyStr.map_chars Spec.all_chars]; [reflexivity |].
  rewrite IH. destruct (Ascii.eqb c "_") eqn:Ec; [reflexivity |].
  rewrite Ec. reflexivity.
Qed.

End DisplayNames.

(** X12: the display name of whatever type the classifier returns is an
    entry of the table of display names, never the generated fallback; and
    for every string at all, known type or not, the display name holds no
    underscore. *)
Theorem X12_display_names :
  (forall category website_text business_name : string,
      let p :=
        business_classifier.primary_type
          (business_classifier.classify_business category website_text business_name) in
      In (p, business_classifier.get_business_type_display_name p)
         business_classifier.display_names)
  /\ (forall business_type : string,
         Behaviour.no_underscore
           (business_classifier.get_business_type_display_name business_type) = true).
Proof.
  split.
  - intros c t n p.
    assert (Hp : In p ("general" :: business_classifier.get_all_business_types)).
    { subst p.
      destruct (classify_cases c t n) as [[_ E] | (_ & Hin & _ & E)]; cbv zeta in *;
        rewrite E; [left; reflexivity | right; exact Hin]. }
    pose proof display_names_cover_the_types as H. rewrite forallb_forall in H.
    specialize (H p Hp). unfold business_classifier.get_business_type_display_name.
    destruct (PyData.dict_get p business_classifier.display_names) as [name |] eqn:D;
      [| discriminate H].
    clear - D. revert D.
    induction business_classifier.display_names as [| [k v] d IH];
      cbn [PyData.dict_get]; [discriminate |].
    destruct (String.eqb k p) eqn:Ek.
    + intros D. injection D as D. subst v. apply String.eqb_eq in Ek. subst k.
      left. reflexivity.
    + intros D. right. apply IH, D.
  - intros bt. unfold business_classifier.get_business_type_display_name.
    destruct (PyData.dict_get bt business_classifier.display_names) as [name |] eqn:D.
    + pose proof display_names_plain as H. rewrite forallb_forall in H.
      assert (Hin : In (bt, name) business_classifier.display_names).
      { clear - D. revert D.
        induction business_classifier.display_names as [| [k v] d IH];
          cbn [PyData.dict_get]; [discriminate |].
        destruct (String.eqb k bt) eqn:Ek.
        - intros D. injection D as D. subst v. apply String.eqb_eq in Ek. subst k.
          left. reflexivity.
        - intros D. right. apply IH, D. }
      apply (H _ Hin).
    + unfold PyStr.title. apply title_from_plain, replaced_plain.
Qed.

(* ------------------------------------------------------------------ *)
(** ** The classifier: the confidence as a function of the score *)

Section Curve.
Import business_classifier PyData.

Lemma reported_zero : Aux.reported 0 = 0%float.
Proof. vm_compute. reflexivity. Qed.

(** The confidence of every result is the rounded curve at the top
    score, and that score lies between 0 and the bound. *)
Lemma classify_confidence (category website_text business_name : string) :
  confidence (classify_business category website_text business_name)
  = Aux.reported (Behaviour.top_score category website_text business_name)
  /\ (0 <= Behaviour.top_score category website_text business_name <= Aux.score_bound)%Z.
Proof.
  unfold Behaviour.top_score.
  destruct (classify_cases category website_text business_name)
    as [[Z0 E] | (Hpos & _ & _ & E)]; cbv zeta in *; rewrite E.
  - rewrite Z0. cbn [confidence Behaviour.fallback]. rewrite reported_zero.
    split; [reflexivity | unfold Aux.score_bound; lia].
  - cbn [confidence]. split; [reflexivity | lia].
Qed.

Lemma monotone_in_bands_holds :
  forallb (fun a => forallb (Behaviour.monotone_pair a) (Aux.zrange 0 186))
    (Aux.zrange 0 186) = true.
Proof. vm_compute. reflexivity. Qed.

Lemma dip_after_29_holds :
  forallb (fun s => PrimFloat.ltb (Aux.reported s) (Aux.reported 29)) (Aux.zrange 30 18)
  = true.
Proof. vm_compute. reflexivity. Qed.

Lemma confidence_window_holds :
  forallb
    (fun s => PrimFloat.leb 0.15 (Aux.reported s) && PrimFloat.leb (Aux.reported s) 0.95)
    (Aux.zrange 3 183) = true.
Proof. vm_compute. reflexivity. Qed.

(** The two shapes of a result, in terms of the top score. *)
Lemma classify_shape (c t n : string) :
  (Behaviour.top_score c t n = 0%Z /\ classify_business c t n = Behaviour.fallback)
  \/ ((0 < Behaviour.top_score c t n <= Aux.score_bound)%Z
      /\ In (primary_type (classify_business c t n)) get_all_business_types
      /\ warning (classify_business c t n) = None
      /\ confidence (classify_business c t n) = Aux.reported (Behaviour.top_score c t n)).
Proof.
  unfold Behaviour.top_score.
  destruct (classify_cases c t n) as [[Z0 E] | (Hpos & Hin & _ & E)]; cbv zeta in *.
  - left. split; [exact Z0 | exact E].
  - right. split; [exact Hpos |]. rewrite E. cbn [primary_type warning confidence].
    split; [exact Hin |]. split; reflexivity.
Qed.

Lemma reported_monotone (a b : Z) :
  (0 <= a <= b)%Z -> (b <= Aux.score_bound)%Z -> Behaviour.band a = Behaviour.band b ->
  PrimFloat.leb (Aux.reported a) (Aux.reported b) = true.
Proof.
  intros Hab Hb Hband. unfold Aux.score_bound in Hb.
  pose proof (forallb_zrange _ _ _ monotone_in_bands_holds a ltac:(lia)) as H.
  cbv beta in H.
  pose proof (forallb_zrange _ _ _ H b ltac:(lia)) as H'.
  unfold Behaviour.monotone_pair in H'.
  replace (a <=? b)%Z with true in H' by (symmetry; apply Z.leb_le; lia).
  rewrite Hband, Z.eqb_refl in H'. exact H'.
Qed.

(** A score of a category is 0 or at least 3: the weights are 10, 3
    and 5. *)
Lemma keyword_fold_steps (search_text : string) (w : Z) (l : list string)
      (st : Z * list string) :
  (3 <= w)%Z -> (fst st = 0 \/ 3 <= fst st)%Z ->
  (fst (fold_left (keyword_step search_text w) l st) = 0
   \/ 3 <= fst (fold_left (keyword_step search_text w) l st))%Z.
Proof.
  intros Hw. revert st. induction l as [| x l IH]; intros st H; cbn [fold_left];
    [exact H |].
  apply IH. unfold keyword_step. destruct (PyStr.contains search_text x); cbn [fst]; lia.
Qed.

Lemma indicator_fold_steps (search_text : string) (l : list string) (s : Z) :
  (s = 0 \/ 3 <= s)%Z ->
  (fold_left (indicator_step search_text) l s = 0
   \/ 3 <= fold_left (indicator_step search_text) l s)%Z.
Proof.
  revert s. induction l as [| x l IH]; intros s H; cbn [fold_left]; [exact H |].
  apply IH. unfold indicator_step. destruct (PyStr.contains search_text x); lia.
Qed.

Lemma score_category_steps (search_text website_text cat_name : string) (kw : keywords) :
  (fst (score_category search_text website_text cat_name kw) = 0
   \/ 3 <= fst (score_category search_text website_text cat_name kw))%Z.
Proof.
  unfold score_category. cbv zeta. cbn [fst].
  assert (H : (fst (fold_left (keyword_step search_text 3) (secondary kw)
                      (fold_left (keyword_step search_text 10) (primary kw) (0%Z, []))) = 0
               \/ 3 <= fst (fold_left (keyword_step search_text 3) (secondary kw)
                              (fold_left (keyword_step search_text 10) (primary kw)
                                 (0%Z, []))))%Z).
  { apply keyword_fold_steps; [lia |]. apply keyword_fold_steps; [lia |].
    left. reflexivity. }
  destruct (PyStr.truthy website_text); [| exact H].
  apply indicator_fold_steps, H.
Qed.

Lemma top_score_steps (category website_text business_name : string) :
  (Behaviour.top_score category website_text business_name = 0
   \/ 3 <= Behaviour.top_score category website_text business_name)%Z.
Proof.
  unfold Behaviour.top_score, category_scores_of, score_all, max_value.
  rewrite map_map. cbn [fst snd].
  set (st := search_text_of category website_text business_name).
  assert (G : forall (d : list (string * keywords)) (m : Z),
             (m = 0 \/ 3 <= m)%Z ->
             (fold_left (fun m kv => Z.max m (snd kv))
                (map (fun kv : string * keywords =>
                        (fst kv, fst (score_category st website_text (fst kv) (snd kv)))) d)
                m = 0
              \/ 3 <= fold_left (fun m kv => Z.max m (snd kv))
                        (map (fun kv : string * keywords =>
                                (fst kv,
                                 fst (score_category st website_text (fst kv) (snd kv)))) d)
                        m)%Z).
  { induction d as [| [k kw] d IH]; intros m Hm; cbn [map fold_left]; [exact Hm |].
    apply IH. cbn [fst snd].
    pose proof (score_category_steps st website_text k kw). lia. }
  apply G. left. reflexivity.
Qed.

End Curve.

(** X13: within one band of the curve (scores below 10, 10 to 19, 20 to
    29, 30 and more) a higher top score never gives a lower confidence. *)
Theorem X13_confidence_grows_inside_a_band :
  forall c1 t1 n1 c2 t2 n2 : string,
    let s1 := Behaviour.top_score c1 t1 n1 in
    let s2 := Behaviour.top_score c2 t2 n2 in
    (s1 <= s2)%Z ->
    Behaviour.band s1 = Behaviour.band s2 ->
    PrimFloat.leb
      (business_classifier.confidence (business_classifier.classify_business c1 t1 n1))
      (business_classifier.confidence (business_classifier.classify_business c2 t2 n2))
    = true.
Proof.
  intros c1 t1 n1 c2 t2 n2 s1 s2 Hle Hband.
  destruct (classify_confidence c1 t1 n1) as [E1 B1].
  destruct (classify_confidence c2 t2 n2) as [E2 B2].
  rewrite E1, E2. fold s1 s2 in B1, B2 |- *.
  apply reported_monotone; [lia | lia | exact Hband].
Qed.

(** One primary keyword (10) against one primary and one secondary (13). *)
Lemma X13_band_witness :
  PrimFloat.leb
    (business_classifier.confidence
       (business_classifier.classify_business "cafe" "" "Corner"))
    (business_classifier.confidence
       (business_classifier.classify_business "cafe" "" "Corner Pizza"))
  = true.
Proof.
  apply (X13_confidence_grows_inside_a_band "cafe" "" "Corner" "cafe" "" "Corner Pizza").
  - vm_compute. discriminate.
  - vm_compute. reflexivity.
Defined.

(** X14: across the step from 29 to 30 the confidence drops: a text whose
    top score is anything from 30 to 47 is classified with strictly less
    confidence than a text whose top score is 29. *)
Theorem X14_confidence_drops_after_29 :
  forall c1 t1 n1 c2 t2 n2 : string,
    Behaviour.top_score c1 t1 n1 = 29%Z ->
    (30 <= Behaviour.top_score c2 t2 n2 <= 47)%Z ->
    PrimFloat.ltb
      (business_classifier.confidence (business_classifier.classify_business c2 t2 n2))
      (business_classifier.confidence (business_classifier.classify_business c1 t1 n1))
    = true.
Proof.
  intros c1 t1 n1 c2 t2 n2 H1 H2.
  destruct (classify_confidence c1 t1 n1) as [E1 _].
  destruct (classify_confidence c2 t2 n2) as [E2 _].
  rewrite E1, E2, H1.
  apply (forallb_zrange _ _ _ dip_after_29_holds). lia.
Qed.

(** Two primary and three secondary keywords (29) against three primary
    keywords (30). *)
Lemma X14_drop_witness :
  PrimFloat.ltb
    (business_classifier.confidence
       (business_classifier.classify_business "cafe" "" "Bistro Menu"))
    (business_classifier.confidence
       (business_classifier.classify_business "cafe bistro" "" "pizza sushi vegan"))
  = true.
Proof.
  apply (X14_confidence_drops_after_29
           "cafe bistro" "" "pizza sushi vegan" "cafe" "" "Bistro Menu").
  - vm_compute. reflexivity.
  - vm_compute. split; discriminate.
Defined.

(** X15: the classifier either returns the fallback record ("general",
    confidence 0.0, the warning set) or a taxonomy type without warning
    whose top score is at least 3 and whose confidence lies between 0.15
    and 0.95: no result has a confidence strictly between 0 and 0.15. *)
Theorem X15_fallback_or_at_least_015 :
  forall category website_text business_name : string,
    let r := business_classifier.classify_business category website_text business_name in
    (Behaviour.top_score category website_text business_name = 0%Z
     /\ r = Behaviour.fallback)
    \/ ((3 <= Behaviour.top_score category website_text business_name)%Z
        /\ In (business_classifier.primary_type r)
              business_classifier.get_all_business_types
        /\ business_classifier.warning r = None
        /\ PrimFloat.leb 0.15 (business_classifier.confidence r) = true
        /\ PrimFloat.leb (business_classifier.confidence r) 0.95 = true).
Proof.
  intros c t n r. subst r.
  pose proof (top_score_steps c t n) as S.
  destruct (classify_shape c t n) as [[Z0 E] | (Hpos & Hin & Hw & Hc)].
  - left. split; [exact Z0 | exact E].
  - right.
    assert (H3 : (3 <= Behaviour.top_score c t n)%Z) by lia.
    split; [exact H3 |]. split; [exact Hin |]. split; [exact Hw |].
    rewrite Hc.
    pose proof (forallb_zrange _ _ _ confidence_window_holds
                  (Behaviour.top_score c t n)) as W.
    cbv beta in W. apply andb_prop. apply W. unfold Aux.score_bound in Hpos. lia.
Qed.

(* ------------------------------------------------------------------ *)
(** ** Loops that may raise *)

Section Loops.

Lemma foldM_invariant {A B : Type} (P : A -> Prop) (f : A -> B -> Py.result A)
      (l : list B) :
  (forall a x a', In x l -> P a -> f a x = Py.Return a' -> P a') ->
  forall a a', P a -> Py.foldM f l a = Py.Return a' -> P a'.
Proof.
  induction l as [| x l IH]; intros Hstep a a' Ha; cbn [Py.foldM].
  - intros E. injection E as E. subst a'. exact Ha.
  - destruct (f a x) as [a1 | e] eqn:F; cbn [Py.bind]; [| discriminate].
    apply IH.
    + intros a0 y a2 Hy. apply Hstep. right. exact Hy.
    + apply (Hstep a x a1); [left; reflexivity | exact Ha | exact F].
Qed.


Lemma mem_false (x : string) (xs : list string) :
  PyData.mem x xs = false -> ~ In x xs.
Proof.
  unfold PyData.mem. induction xs as [| y xs IH]; cbn [existsb In]; [tauto |].
  intros H [E | Hin]; apply orb_false_iff in H; destruct H as [H1 H2].
  - subst y. rewrite String.eqb_refl in H1. discriminate H1.
  - exact (IH H2 Hin).
Qed.

Lemma dict_get_sound {V : Type} (d : list (string * V)) (k : string) (v : V) :
  PyData.dict_get k d = Some v -> In (k, v) d.
Proof.
  induction d as [| [k' v'] d IH]; cbn [PyData.dict_get]; [discriminate |].
  destruct (String.eqb k' k) eqn:Ek.
  - intros E. injection E as E. subst v'. apply String.eqb_eq in Ek. subst k'.
    left. reflexivity.
  - intros E. right. apply IH, E.
Qed.

Lemma nodup_firstn {A : Type} (n : nat) (l : list A) : NoDup l -> NoDup (firstn n l).
Proof.
  intros H. rewrite <- (firstn_skipn n l) in H. apply NoDup_app_remove_r in H. exact H.
Qed.

End Loops.

(* ------------------------------------------------------------------ *)
(** ** The extractor: what an extraction that returns is made of *)

Section Parts.
Import content_extractor.

Variable resolve : string -> string -> Py.result string.
Variables html_content base_url : string.
Variable business_phone : option string.

Lemma extraction_parts (r : extraction) :
  extract_business_content resolve html_content base_url business_phone = Py.Return r ->
  extract_colors_from_text html_content = Py.Return (colors r)
  /\ extract_logo_urls resolve html_content base_url = Py.Return (logos r)
  /\ text_content r = extract_text_content html_content
  /\ contact r = extract_contact_info html_content business_phone
  /\ extract_images resolve html_content base_url 15 = Py.Return (images r).
Proof.
  unfold extract_business_content.
  destruct (extract_colors_from_text html_content) as [cs | e]; cbn [Py.bind];
    [| discriminate].
  destruct (extract_logo_urls resolve html_content base_url) as [ls | e];
    cbn [Py.bind]; [| discriminate].
  destruct (extract_images resolve html_content base_url 15) as [imgs | e];
    cbn [Py.bind]; [| discriminate].
  intros E. injection E as E. subst r. cbn [colors logos text_content contact images].
  repeat split; reflexivity.
Qed.

End Parts.

(* ------------------------------------------------------------------ *)
(** ** The caller: colours, theme and phone for the template *)

Section Template.
Import content_extractor.

Lemma fallback_palettes_ok :
  forallb
    (fun kv => Nat.eqb (List.length (snd kv)) 4 && forallb Spec.well_formed_hex6 (snd kv))
    fallback_palettes = true.
Proof. vm_compute. reflexivity. Qed.

Lemma fallback_colors_ok (business_type : string) :
  3 <= List.length (get_fallback_colors business_type) <= 4
  /\ forallb Spec.well_formed_hex6 (get_fallback_colors business_type) = true.
Proof.
  unfold get_fallback_colors.
  destruct (PyData.dict_get business_type fallback_palettes) as [palette |] eqn:D.
  - apply dict_get_sound in D. pose proof fallback_palettes_ok as H.
    rewrite forallb_forall in H. specialize (H _ D). cbn [snd] in H.
    apply andb_prop in H. destruct H as [H1 H2]. apply Nat.eqb_eq in H1.
    split; [lia | exact H2].
  - split; [cbn [List.length]; lia | vm_compute; reflexivity].
Qed.

Variable resolve : string -> string -> Py.result string.
Variables raw_html website_url : string.
Variable business_phone : option string.

(** The colours handed over are those of the page, when there are any,
    and the fallback palette in every other case. *)
Lemma template_colours_cases (business_type : string) :
  let cs :=
    template_generator_premium.extracted_colors
      (template_generator_premium.extracted_content_of resolve raw_html website_url
         business_phone) business_type in
  (cs <> [] /\ extract_colors_from_text raw_html = Py.Return cs)
  \/ (cs = get_fallback_colors business_type
      /\ (PyStr.truthy raw_html = false
          \/ Py.returns
               (extract_business_content resolve raw_html website_url business_phone)
             = false
          \/ extract_colors_from_text raw_html = Py.Return [])).
Proof.
  cbv zeta.
  unfold template_generator_premium.extracted_colors,
    template_generator_premium.extracted_content_of.
  destruct (PyStr.truthy raw_html); [| right; split; [reflexivity | left; reflexivity]].
  destruct (extract_business_content resolve raw_html website_url business_phone)
    as [r | e] eqn:E;
    [| right; split; [reflexivity | right; left; reflexivity]].
  apply extraction_parts in E. destruct E as (Ec & _).
  destruct (colors r) as [| c l];
    [right; split; [reflexivity | right; right; exact Ec] |].
  left. split; [discriminate | exact Ec].
Qed.

End Template.

(** X16: the colours that the caller hands to the template builder are
    never empty and at most eight: they are the colours extracted from the
    page or the fallback palette of the business type, which has three or
    four colours, all of the form #RRGGBB; the fallback is used only when
    there is no HTML, when the extraction raises or when it finds no
    colour. *)
Theorem X16_colours_for_the_template :
  forall (resolve : string -> string -> Py.result string)
         (raw_html website_url : string) (business_phone : option string)
         (business_type : string),
    let cs :=
      template_generator_premium.extracted_colors
        (template_generator_premium.extracted_content_of resolve raw_html website_url
           business_phone) business_type in
    cs <> []
    /\ List.length cs <= 8
    /\ (content_extractor.extract_colors_from_text raw_html = Py.Return cs
        \/ (cs = content_extractor.get_fallback_colors business_type
            /\ 3 <= List.length cs
            /\ forallb Spec.well_formed_hex6 cs = true
            /\ (PyStr.truthy raw_html = false
                \/ Py.returns
                     (content_extractor.extract_business_content resolve raw_html
                        website_url business_phone) = false
                \/ content_extractor.extract_colors_from_text raw_html = Py.Return []))).
Proof.
  intros resolve raw url phone bt.
  pose proof (template_colours_cases resolve raw url phone bt) as H.
  cbv zeta in *.
  set (cs := template_generator_premium.extracted_colors _ _) in *.
  destruct H as [[Hne E] | [E Hwhy]].
  - split; [exact Hne |]. split; [apply (colors_at_most_eight raw cs E) |].
    left. exact E.
  - pose proof (fallback_colors_ok bt) as [L W]. rewrite <- E in L, W.
    split; [| split; [lia |]].
    + intros N. rewrite N in L. cbn [List.length] in L. lia.
    + right. split; [exact E |]. split; [lia |]. split; [exact W | exact Hwhy].
Qed.


(** X18: the phone handed to the template builder is the known business
    phone when there is one; failing that, and when the extraction
    returned, the first match of the first phone pattern that matches the
    page; the empty string in every other case (no match, no HTML, or an
    extraction that raised). *)
Theorem X18_phone_for_the_template :
  forall (resolve : string -> string -> Py.result string)
         (raw_html website_url : string) (business_phone : option string),
    let extracted :=
      template_generator_premium.extracted_content_of resolve raw_html website_url
        business_phone in
    template_generator_premium.contact_phone extracted business_phone
    = if content_extractor.truthy_opt business_phone
      then match business_phone with Some known => known | None => "" end
      else
        match extracted with
        | Some _ =>
            match Spec.first_pattern_match content_extractor.phone_patterns raw_html with
            | Some found => found
            | None => ""
            end
        | None => ""
        end.
Proof.
  intros resolve raw url phone. cbv zeta.
  unfold template_generator_premium.contact_phone,
    template_generator_premium.extracted_content_of.
  assert (Hnone :
            match template_generator_premium.or_else
                    (template_generator_premium.or_else None phone) (Some "") with
            | Some p => p
            | None => ""
            end
            = if content_extractor.truthy_opt phone
              then match phone with Some known => known | None => "" end
              else "").
  { destruct phone as [[| c s] |]; reflexivity. }
  destruct (PyStr.truthy raw).
  - destruct (content_extractor.extract_business_content resolve raw url phone)
      as [r | e] eqn:E.
    + apply extraction_parts in E. destruct E as (_ & _ & _ & Hc & _). rewrite Hc.
      unfold content_extractor.extract_contact_info. cbn [content_extractor.phone].
      destruct (content_extractor.truthy_opt phone) eqn:K.
      * rewrite (phone_loop_known raw _ phone K).
        unfold template_generator_premium.or_else. rewrite K, K. reflexivity.
      * rewrite (phone_loop_unknown raw _ phone K).
        destruct (Spec.first_pattern_match content_extractor.phone_patterns raw)
          as [[| a found] |].
        -- destruct phone as [[| c s] |]; try discriminate K; reflexivity.
        -- reflexivity.
        -- destruct phone as [[| c s] |]; try discriminate K; reflexivity.
    + rewrite Hnone. destruct (content_extractor.truthy_opt phone); reflexivity.
  - rewrite Hnone. destruct (content_extractor.truthy_opt phone); reflexivity.
Qed.

(* ------------------------------------------------------------------ *)
(** ** The extractor: logos *)

Section Logos.
Import content_extractor.

Variable resolve : string -> string -> Py.result string.
Variables html_content base_url : string.

(** What the loops of [extract_logo_urls] keep true of [logo_urls]. *)
Lemma logo_urls_invariant (ls : list string) :
  extract_logo_urls resolve html_content base_url = Py.Return ls ->
  NoDup ls
  /\ forall u : string,
       In u ls ->
       exists (pattern : Re.regex) (m : string),
         In pattern logo_patterns
         /\ In m (Re.findall1 Re.IGNORECASE pattern html_content)
         /\ urljoin resolve base_url m = Py.Return u.
Proof.
  unfold extract_logo_urls.
  apply (foldM_invariant
           (fun acc : list string =>
              NoDup acc
              /\ forall u : string,
                   In u acc ->
                   exists (pattern : Re.regex) (m : string),
                     In pattern logo_patterns
                     /\ In m (Re.findall1 Re.IGNORECASE pattern html_content)
                     /\ urljoin resolve base_url m = Py.Return u)).
  - intros acc pattern acc' Hp.
    apply (foldM_invariant
             (fun acc : list string =>
                NoDup acc
                /\ forall u : string,
                     In u acc ->
                     exists (pattern : Re.regex) (m : string),
                       In pattern logo_patterns
                       /\ In m (Re.findall1 Re.IGNORECASE pattern html_content)
                       /\ urljoin resolve base_url m = Py.Return u)).
    intros a m a' Hm [Hn Hs]. unfold logo_step.
    destruct (urljoin resolve base_url m) as [u | e] eqn:U; cbn [Py.bind];
      [| discriminate].
    intros E. injection E as E. subst a'. unfold PyData.append_if.
    destruct (PyData.mem u a) eqn:M; cbn [negb]; [split; assumption |].
    apply mem_false in M. split.
    + apply NoDup_app; [exact Hn | repeat constructor; intros [] | ].
      intros x Hx [Hx' | []]. subst x. exact (M Hx).
    + intros x Hx. apply in_app_or in Hx. destruct Hx as [Hx | [Hx | []]].
      * apply Hs, Hx.
      * subst x. exists pattern, m. auto.
  - split; [constructor | intros u []].
Qed.

End Logos.

(** X19: when [extract_logo_urls] returns, its list holds no URL twice,
    and every entry is the resolution against the base URL of a [src] that
    one of the five logo patterns captured. *)
Theorem X19_logos_are_distinct :
  forall (resolve : string -> string -> Py.result string)
         (html_content base_url : string) (ls : list string),
    content_extractor.extract_logo_urls resolve html_content base_url = Py.Return ls ->
    NoDup ls
    /\ forall u : string,
         In u ls ->
         exists (pattern : Re.regex) (m : string),
           In pattern content_extractor.logo_patterns
           /\ In m (Re.findall1 Re.IGNORECASE pattern html_content)
           /\ content_extractor.urljoin resolve base_url m = Py.Return u.
Proof.
  intros resolve h base ls E. apply (logo_urls_invariant resolve h base ls E).
Qed.

(** One logo, found by its class and again by its alt text, is listed
    once. *)
Lemma X19_logo_witness :
  content_extractor.extract_logo_urls
    (fun base ref : string => Py.Return (base ++ ref)%string)
    "<img class='logo' alt='Our logo' src='l.png'>" "https://shop.test/"
  = Py.Return ["https://shop.test/l.png"]
  /\ NoDup ["https://shop.test/l.png"].
Proof.
  assert (E : content_extractor.extract_logo_urls
                (fun base ref : string => Py.Return (base ++ ref)%string)
                "<img class='logo' alt='Our logo' src='l.png'>" "https://shop.test/"
              = Py.Return ["https://shop.test/l.png"]) by (vm_compute; reflexivity).
  split; [exact E |].
  apply (X19_logos_are_distinct _ _ _ _ E).
Defined.

(* ------------------------------------------------------------------ *)
(** ** The extractor: the e-mail address *)

Section Email.

Lemma first_kept {A : Type} (spam : A -> bool) (l : list A) :
  match filter (fun x => negb (spam x)) l with
  | x :: _ =>
      spam x = false
      /\ exists before after : list A,
           l = before ++ x :: after /\ forallb spam before = true
  | [] => forallb spam l = true
  end.
Proof.
  induction l as [| y l IH]; cbn [filter forallb]; [reflexivity |].
  destruct (spam y) eqn:S; cbn [negb andb].
  - destruct (filter (fun x => negb (spam x)) l) as [| x rest]; [exact IH |].
    destruct IH as (Hx & before & after & El & Hb).
    split; [exact Hx |]. exists (y :: before), after. split.
    + rewrite El. reflexivity.
    + cbn [forallb]. rewrite S, Hb. reflexivity.
  - split; [exact S |]. exists [], l. split; reflexivity.
Qed.

End Email.

(** X20: the e-mail of the contact record is the first address found on
    the page that holds none of the words noreply, example, test and spam,
    in any letter case: every address found before it holds one of them.
    There is no e-mail exactly when every address found holds one. *)
Theorem X20_email_is_the_first_that_is_not_spam :
  forall (html_content : string) (business_phone : option string),
    let emails := Re.findall Re.NOFLAGS content_extractor.email_pattern html_content in
    match content_extractor.email
            (content_extractor.extract_contact_info html_content business_phone) with
    | Some e =>
        content_extractor.is_spam e = false
        /\ exists before after : list string,
             emails = before ++ e :: after
             /\ forallb content_extractor.is_spam before = true
    | None => forallb content_extractor.is_spam emails = true
    end.
Proof.
  intros h phone. cbv zeta.
  unfold content_extractor.extract_contact_info. cbn [content_extractor.email].
  pose proof (first_kept content_extractor.is_spam
                (Re.findall Re.NOFLAGS content_extractor.email_pattern h)) as H.
  destruct (filter (fun e => negb (content_extractor.is_spam e))
              (Re.findall Re.NOFLAGS content_extractor.email_pattern h)) as [| e rest];
    exact H.
Qed.

(* ------------------------------------------------------------------ *)
(** ** The extractor: the images one by one *)

Lemma image_types (src alt : string) :
  In (content_extractor.image_type src alt) ["logo"; "hero"; "content"; "general"].
Proof.
  unfold content_extractor.image_type. cbv zeta.
  destruct (PyStr.any_in ["logo"; "brand"] _); [left; reflexivity |].
  destruct (PyStr.any_in ["hero"; "banner"; "header"] _); [right; left; reflexivity |].
  destruct (PyStr.any_in ["product"; "service"; "portfolio"] _);
    cbn [In]; tauto.
Qed.

Section ImageList.
Import content_extractor.

Variable resolve : string -> string -> Py.result string.
Variables html_content base_url : string.

(** What an image of the result says of the tag it came from. *)
Lemma image_fold_entries (l : list Re.rmatch) (imgs : list image) :
  Py.foldM (image_step resolve base_url) l [] = Py.Return imgs ->
  forall i : image,
    In i imgs ->
    exists m : Re.rmatch,
      In m l
      /\ Spec.kept m = true
      /\ urljoin resolve base_url (Re.group 1 m) = Py.Return (url i)
      /\ alt i = Re.group 2 m
      /\ type i = image_type (Re.group 1 m) (Re.group 2 m).
Proof.
  apply (foldM_invariant
           (fun acc : list image =>
              forall i : image,
                In i acc ->
                exists m : Re.rmatch,
                  In m l
                  /\ Spec.kept m = true
                  /\ urljoin resolve base_url (Re.group 1 m) = Py.Return (url i)
                  /\ alt i = Re.group 2 m
                  /\ type i = image_type (Re.group 1 m) (Re.group 2 m))).
  - intros acc m acc' Hm Hacc. unfold image_step.
    destruct (PyStr.any_in ["icon"; "pixel"; "track"; "1x1"; "spacer"]
                (PyStr.lower (Re.group 1 m))) eqn:K.
    + intros E. injection E as E. subst acc'. exact Hacc.
    + destruct (urljoin resolve base_url (Re.group 1 m)) as [u | e] eqn:U;
        cbn [Py.bind]; [| discriminate].
      intros E. injection E as E. subst acc'.
      intros i Hi. apply in_app_or in Hi. destruct Hi as [Hi | [Hi | []]].
      * apply Hacc, Hi.
      * subst i. exists m. cbn [url alt type].
        split; [exact Hm |]. split.
        -- unfold Spec.kept, Spec.looks_like_pixel_or_icon. rewrite K. reflexivity.
        -- split; [exact U |]. split; reflexivity.
  - intros i [].
Qed.


End ImageList.



(** X22: when [extract_images] returns, every entry comes from one of the
    first [limit] image tags whose [src] holds none of the skip words: its
    url is that [src] resolved, its alt the captured alt text, and its type
    is "logo", "hero", "content" or "general", decided by the first group
    of words, in that order, found in [src] and alt text together. *)
Theorem X22_every_image_comes_from_a_kept_tag :
  forall (resolve : string -> string -> Py.result string)
         (html_content base_url : string) (limit : nat)
         (imgs : list content_extractor.image),
    content_extractor.extract_images resolve html_content base_url limit = Py.Return imgs ->
    forall i : content_extractor.image,
      In i imgs ->
      In (content_extractor.type i) ["logo"; "hero"; "content"; "general"]
      /\ exists m : Re.rmatch,
           In m (firstn limit
                   (Re.finditer Re.IGNORECASE content_extractor.img_pattern html_content))
           /\ Spec.kept m = true
           /\ content_extractor.urljoin resolve base_url (Re.group 1 m)
              = Py.Return (content_extractor.url i)
           /\ content_extractor.alt i = Re.group 2 m
           /\ content_extractor.type i
              = content_extractor.image_type (Re.group 1 m) (Re.group 2 m).
Proof.
  intros resolve h base limit imgs E i Hi.
  unfold content_extractor.extract_images in E. cbv zeta in E.
  destruct (image_fold_entries resolve base _ imgs E i Hi) as (m & Hm & K & U & A & T).
  split; [rewrite T; apply image_types |].
  exists m. auto.
Qed.

(** A banner whose file name also says "logo" is typed "logo". *)
Lemma X22_image_witness :
  let resolve := fun base ref : string => Py.Return (base ++ ref)%string in
  let i := {| content_extractor.url := "https://shop.test/logo-banner.png";
              content_extractor.alt := "Top";
              content_extractor.type := "logo" |} in
  In (content_extractor.type i) ["logo"; "hero"; "content"; "general"]
  /\ exists m : Re.rmatch,
       In m (firstn 10
               (Re.finditer Re.IGNORECASE content_extractor.img_pattern
                  "<img src='logo-banner.png' alt='Top'>"))
       /\ Spec.kept m = true
       /\ content_extractor.urljoin resolve "https://shop.test/" (Re.group 1 m)
          = Py.Return (content_extractor.url i)
       /\ content_extractor.alt i = Re.group 2 m
       /\ content_extractor.type i
          = content_extractor.image_type (Re.group 1 m) (Re.group 2 m).
Proof.
  cbv zeta.
  apply (X22_every_image_comes_from_a_kept_tag
           (fun base ref : string => Py.Return (base ++ ref)%string)
           "<img src='logo-banner.png' alt='Top'>" "https://shop.test/" 10
           [ {| content_extractor.url := "https://shop.test/logo-banner.png";
                content_extractor.alt := "Top";
                content_extractor.type := "logo" |} ]).
  - vm_compute. reflexivity.
  - left. reflexivity.
Defined.

(* ------------------------------------------------------------------ *)
(** ** The extractor: the order of the colours *)

Section ColourOrder.
Import content_extractor PyData.

Lemma count_add_fresh (x : string) (c : counter) :
  ~ In x (keys c) -> count_add x c = c ++ [(x, 1)].
Proof.
  induction c as [| [k n] c IH]; cbn [count_add keys map fst In app]; [reflexivity |].
  intros H. destruct (String.eqb k x) eqn:E.
  - apply String.eqb_eq in E. subst k. contradiction H. left. reflexivity.
  - rewrite IH; [reflexivity |]. intros Hin. apply H. right. exact Hin.
Qed.

Lemma count_add_nodup (x : string) (c : counter) :
  NoDup (keys c) -> NoDup (keys (count_add x c)).
Proof.
  induction c as [| [k n] c IH]; cbn [count_add keys map fst].
  - intros _. repeat constructor. intros [].
  - intros H. inversion H as [| ? ? Hk Hc]. subst.
    destruct (String.eqb k x) eqn:E; cbn [map fst]; [constructor; assumption |].
    constructor; [| apply IH, Hc].
    intros Hin. apply count_add_keys in Hin. destruct Hin as [Hin | Hin].
    + subst k. rewrite String.eqb_refl in E. discriminate E.
    + exact (Hk Hin).
Qed.

Lemma Counter_nodup (xs : list string) : NoDup (keys (Counter xs)).
Proof.
  unfold Counter.
  assert (G : forall c : counter,
             NoDup (keys c) -> NoDup (keys (fold_left (fun c x => count_add x c) xs c))).
  { induction xs as [| x xs IH]; intros c Hc; cbn [fold_left]; [exact Hc |].
    apply IH, count_add_nodup, Hc. }
  apply G. constructor.
Qed.

(** Counting a list without repetition gives every element the count 1,
    in the order of the list. *)
Lemma Counter_of_distinct (l : list string) :
  NoDup l -> Counter l = map (fun x => (x, 1)) l.
Proof.
  unfold Counter.
  assert (G : forall c : counter,
             NoDup l -> (forall x, In x l -> ~ In x (keys c)) ->
             fold_left (fun c x => count_add x c) l c = c ++ map (fun x => (x, 1)) l).
  { induction l as [| x l IH]; intros c Hn Hc; cbn [fold_left map].
    - rewrite app_nil_r. reflexivity.
    - inversion Hn as [| ? ? Hx Hl]. subst.
      rewrite (count_add_fresh x c) by (apply Hc; left; reflexivity).
      rewrite IH; [rewrite <- app_assoc; reflexivity | exact Hl |].
      intros y Hy Hin. unfold keys in Hin. rewrite map_app in Hin.
      apply in_app_or in Hin. destruct Hin as [Hin | [Hin | []]].
      + apply (Hc y); [right; exact Hy | exact Hin].
      + cbn [fst] in Hin. subst y. exact (Hx Hy). }
  intros Hn. apply (G [] Hn). intros x _ [].
Qed.

(** Sorting by count leaves a counter of ones as it is. *)
Lemma insert_desc_ones (kv : string * nat) (sorted : counter) :
  snd kv = 1 -> Forall (fun h => snd h = 1) sorted ->
  insert_desc kv sorted = sorted ++ [kv].
Proof.
  intros Hkv. induction sorted as [| h t IH]; intros H; cbn [insert_desc app];
    [reflexivity |].
  inversion H as [| ? ? Hh Ht]. subst. rewrite Hh, Hkv. cbn [Nat.ltb Nat.leb].
  rewrite IH by exact Ht. reflexivity.
Qed.

Lemma sort_ones (c acc : counter) :
  Forall (fun h => snd h = 1) c -> Forall (fun h => snd h = 1) acc ->
  fold_left (fun acc kv => insert_desc kv acc) c acc = acc ++ c.
Proof.
  revert acc. induction c as [| kv c IH]; intros acc Hc Hacc; cbn [fold_left].
  - rewrite app_nil_r. reflexivity.
  - inversion Hc as [| ? ? Hkv Hc']. subst.
    rewrite (insert_desc_ones kv acc Hkv Hacc).
    rewrite IH; [rewrite <- app_assoc; reflexivity | exact Hc' |].
    apply Forall_app. split; [exact Hacc | repeat constructor; exact Hkv].
Qed.

Lemma most_common_of_distinct (n : nat) (l : list string) :
  NoDup l -> map fst (most_common n (Counter l)) = firstn n l.
Proof.
  intros Hn. rewrite (Counter_of_distinct l Hn). unfold most_common.
  rewrite sort_ones.
  - cbn [app]. rewrite firstn_map, map_map. cbn [fst]. apply map_id.
  - apply Forall_forall. intros kv Hin. apply in_map_iff in Hin.
    destruct Hin as (x & E & _). subst kv. reflexivity.
  - constructor.
Qed.

End ColourOrder.

(** X23: when [extract_colors_from_text] returns, its result holds no
    colour twice and consists of the first eight, in the order of their
    first occurrence among the collected values, of the distinct colours
    that pass the filter on white and black: the count of a colour plays no
    role in the result. *)
Theorem X23_colours_in_order_of_first_occurrence :
  forall (html_content : string) (found : list string),
    content_extractor.extract_colors_from_text html_content = Py.Return found ->
    NoDup found
    /\ exists colors : list string,
         content_extractor.collect_colors html_content = Py.Return colors
         /\ found
            = firstn 8
                (filter (fun color => negb (content_extractor.skipped color))
                   (PyData.keys (PyData.Counter colors))).
Proof.
  intros h found E.
  destruct (colors_returned h found E) as (colors & Ec & Ef).
  assert (Hn : NoDup (filter (fun color => negb (content_extractor.skipped color))
                        (PyData.keys (PyData.Counter colors))))
    by (apply NoDup_filter, Counter_nodup).
  rewrite (most_common_of_distinct 8 _ Hn) in Ef.
  split.
  - rewrite Ef. apply nodup_firstn, Hn.
  - exists colors. split; [exact Ec | exact Ef].
Qed.

(** A colour that occurs once before a colour that occurs twice stays
    first. *)
Lemma X23_colour_witness :
  content_extractor.extract_colors_from_text "#112233 #445566 #445566"
  = Py.Return ["#112233"; "#445566"]
  /\ NoDup ["#112233"; "#445566"]
  /\ exists colors : list string,
       content_extractor.collect_colors "#112233 #445566 #445566" = Py.Return colors
       /\ ["#112233"; "#445566"]
          = firstn 8
              (filter (fun color => negb (content_extractor.skipped color))
                 (PyData.keys (PyData.Counter colors))).
Proof.
  assert (E : content_extractor.extract_colors_from_text "#112233 #445566 #445566"
              = Py.Return ["#112233"; "#445566"]) by (vm_compute; reflexivity).
  split; [exact E |].
  apply (X23_colours_in_order_of_first_occurrence _ _ E).
Defined.
